(** * The mock users/roles API server (server/src/api.ts)

    A shallow embedding of the request-handling code of the server: the
    query engine ([fullTextSearch], [sortBy], [getPagedData]), the field
    update helper ([updateField]), the default-role helpers, the fault
    injection middleware ([logWithNetworkEffects]) and the ten route
    handlers, followed by the properties of the specification.

    Conventions of the embedding.
    - Values that arrive in a JSON body are dynamically typed in the source
      ([req.body] has type [any]); they are modelled by [jsval].  Numbers
      are the integral ones; objects and arrays are outside the model.
    - The in-memory arrays [data.users] and [data.roles] are lists in array
      order.  An object obtained with [Array.prototype.find] and mutated in
      place is the list element at the index that [list_find] returns.
    - [new Date().toISOString()], [randomUUID()] and [Math.random()] are
      inputs of each request ([Env]).
    - A handler is a function from the store to a response and the store
      after the request; an uncaught [TypeError] is the response [uncaught]
      together with the store as it was when the exception was thrown.
    - Strings are byte strings; [toLowerCase] folds the ASCII letters.
    - Of the framework the embedding has what decides which code runs and
      what is answered: [cors()] with its default options answers a
      request of the method OPTIONS itself; a route is matched without
      regard to the case of the letters of the path or to one slash at its
      end; a HEAD request is served by the GET route and answered without
      a body; a parameter of the query string that is given more than
      once, or with brackets, arrives as an array or an object. *)

From Stdlib Require Import ZArith QArith Qround String Ascii List Lia.
From stdpp Require Import base option list strings pretty gmap.

Local Open Scope string_scope.

(** ** JavaScript values *)

Inductive jsval : Type :=
  | VUndefined
  | VNull
  | VBool (b : bool)
  | VNum (n : Z)
  | VStr (s : string).

#[global] Instance jsval_eq_dec : EqDecision jsval.
Proof. solve_decision. Defined.

(** [if (v)]: the falsy values are undefined, null, false, 0 and the empty
    string. *)
Definition truthy (v : jsval) : bool :=
  match v with
  | VUndefined | VNull => false
  | VBool b => b
  | VNum n => negb (n =? 0)%Z
  | VStr s => negb (String.eqb s "")
  end.

(** [a === b] on primitive values. *)
Definition strict_eq (a b : jsval) : bool := bool_decide (a = b).

(** [v.toString()]; [None] is the [TypeError] raised on undefined and null. *)
Definition toString (v : jsval) : option string :=
  match v with
  | VUndefined | VNull => None
  | VBool true => Some "true"
  | VBool false => Some "false"
  | VNum n => Some (pretty n)
  | VStr s => Some s
  end.

Definition lower_ascii (c : ascii) : ascii :=
  let n := nat_of_ascii c in
  if (65 <=? n)%nat && (n <=? 90)%nat then ascii_of_nat (n + 32) else c.

Fixpoint toLowerCase (s : string) : string :=
  match s with
  | EmptyString => EmptyString
  | String c s' => String (lower_ascii c) (toLowerCase s')
  end.

(** [s.includes(t)]: [t] occurs in [s] as a contiguous substring. *)
Fixpoint includes (s t : string) : bool :=
  String.prefix t s ||
  match s with
  | EmptyString => false
  | String _ s' => includes s' t
  end.

(** A JavaScript number as far as the page arithmetic needs it: [NaN] or an
    integer. *)
Inductive number : Type :=
  | NaN
  | Num (z : Z).

(** ** Models (server/src/models)

    [Role] and [PagedData] are the interfaces of [role.ts] and
    [paged-data.ts].  The fields of [User] are the ones of the object that
    POST /users builds.  The fields that a request body can set are
    dynamically typed; a user's [roleId] is only ever assigned a value that
    is [===] to the id of a role, and is a string like the ids. *)

Record User : Type := mkUser {
  user_id : string;
  user_createdAt : string;
  user_updatedAt : string;
  user_first : jsval;
  user_last : jsval;
  user_roleId : string;
  user_photo : jsval;
}.

Record Role : Type := mkRole {
  role_id : string;
  role_createdAt : string;
  role_updatedAt : string;
  role_name : jsval;
  role_description : jsval;
  role_isDefault : jsval;
}.

#[global] Instance User_eq_dec : EqDecision User.
Proof. solve_decision. Defined.

#[global] Instance Role_eq_dec : EqDecision Role.
Proof. solve_decision. Defined.

Record PagedData (T : Type) : Type := mkPagedData {
  data : list T;
  next : option Z;
  prev : option Z;
  pages : Z;
}.
Arguments mkPagedData {T}.
Arguments data {T}.
Arguments next {T}.
Arguments prev {T}.
Arguments pages {T}.

(** [T extends User | Role], read and written through [item[field]]. *)
Class Entity (T : Type) : Type := {
  id : T -> string;
  createdAt : T -> string;
  get_field : T -> string -> jsval;
  set_field : T -> string -> jsval -> T;
}.

Definition user_get (u : User) (field : string) : jsval :=
  if String.eqb field "id" then VStr (user_id u)
  else if String.eqb field "createdAt" then VStr (user_createdAt u)
  else if String.eqb field "updatedAt" then VStr (user_updatedAt u)
  else if String.eqb field "first" then user_first u
  else if String.eqb field "last" then user_last u
  else if String.eqb field "roleId" then VStr (user_roleId u)
  else if String.eqb field "photo" then user_photo u
  else VUndefined.

Definition set_user_first (v : jsval) (u : User) : User :=
  mkUser (user_id u) (user_createdAt u) (user_updatedAt u) v (user_last u)
         (user_roleId u) (user_photo u).
Definition set_user_last (v : jsval) (u : User) : User :=
  mkUser (user_id u) (user_createdAt u) (user_updatedAt u) (user_first u) v
         (user_roleId u) (user_photo u).
Definition set_user_roleId (r : string) (u : User) : User :=
  mkUser (user_id u) (user_createdAt u) (user_updatedAt u) (user_first u)
         (user_last u) r (user_photo u).
Definition set_user_updatedAt (t : string) (u : User) : User :=
  mkUser (user_id u) (user_createdAt u) t (user_first u) (user_last u)
         (user_roleId u) (user_photo u).

(** Only the dynamically typed fields are ever assigned through
    [item[field] = value] ([updateField] is called on [first] and [last]). *)
Definition user_set (u : User) (field : string) (v : jsval) : User :=
  if String.eqb field "first" then set_user_first v u
  else if String.eqb field "last" then set_user_last v u
  else u.

#[global] Instance User_Entity : Entity User :=
  {| id := user_id; createdAt := user_createdAt;
     get_field := user_get; set_field := user_set |}.

Definition role_get (r : Role) (field : string) : jsval :=
  if String.eqb field "id" then VStr (role_id r)
  else if String.eqb field "createdAt" then VStr (role_createdAt r)
  else if String.eqb field "updatedAt" then VStr (role_updatedAt r)
  else if String.eqb field "name" then role_name r
  else if String.eqb field "description" then role_description r
  else if String.eqb field "isDefault" then role_isDefault r
  else VUndefined.

Definition set_role_name (v : jsval) (r : Role) : Role :=
  mkRole (role_id r) (role_createdAt r) (role_updatedAt r) v
         (role_description r) (role_isDefault r).
Definition set_role_description (v : jsval) (r : Role) : Role :=
  mkRole (role_id r) (role_createdAt r) (role_updatedAt r) (role_name r) v
         (role_isDefault r).
Definition set_role_isDefault (v : jsval) (r : Role) : Role :=
  mkRole (role_id r) (role_createdAt r) (role_updatedAt r) (role_name r)
         (role_description r) v.
Definition set_role_updatedAt (t : string) (r : Role) : Role :=
  mkRole (role_id r) (role_createdAt r) t (role_name r) (role_description r)
         (role_isDefault r).

(** [updateField] is called on [name] and [description]. *)
Definition role_set (r : Role) (field : string) (v : jsval) : Role :=
  if String.eqb field "name" then set_role_name v r
  else if String.eqb field "description" then set_role_description v r
  else if String.eqb field "isDefault" then set_role_isDefault v r
  else r.

#[global] Instance Role_Entity : Entity Role :=
  {| id := role_id; createdAt := role_createdAt;
     get_field := role_get; set_field := role_set |}.

(** ** The query engine *)

Module searchFields.
Definition users : list string := ["first"; "last"].
Definition roles : list string := ["name"; "description"].
End searchFields.

(** [sortBy(a, b) = b.createdAt.localeCompare(a.createdAt)], on ISO-8601
    time stamps of one format, where the order is the order of the bytes. *)
Definition sortBy {T} `{Entity T} (a b : T) : comparison :=
  String.compare (createdAt b) (createdAt a).

(** [Array.prototype.sort(cmp)] is a stable sort: an element is placed
    before the elements it does not compare greater than. *)
Fixpoint sort_insert {T} (cmp : T -> T -> comparison) (x : T) (l : list T)
  : list T :=
  match l with
  | [] => [x]
  | y :: l' =>
      match cmp x y with
      | Gt => y :: sort_insert cmp x l'
      | _ => x :: l
      end
  end.

Fixpoint sort {T} (cmp : T -> T -> comparison) (l : list T) : list T :=
  match l with
  | [] => []
  | x :: l' => sort_insert cmp x (sort cmp l')
  end.

(** The callback of the filter in [fullTextSearch]: the fields are tried in
    order, the first one that contains the term answers [true]; falling out
    of the loop answers [undefined], which [filter] takes as false.  [None]
    is the [TypeError] of [toString] on an undefined or null field. *)
Fixpoint search_item {T} `{Entity T} (item : T) (fields : list string)
    (search : string) : option bool :=
  match fields with
  | [] => Some false
  | field :: fields' =>
      match toString (get_field item field) with
      | None => None
      | Some s =>
          if includes (toLowerCase s) search then Some true
          else search_item item fields' search
      end
  end.

Fixpoint filter_search {T} `{Entity T} (l : list T) (fields : list string)
    (search : string) : option (list T) :=
  match l with
  | [] => Some []
  | item :: l' =>
      match search_item item fields search with
      | None => None
      | Some keep =>
          match filter_search l' fields search with
          | None => None
          | Some rest => Some (if keep then item :: rest else rest)
          end
      end
  end.

Definition fullTextSearch {T} `{Entity T} (l : list T) (fields : list string)
    (search : string) : option (list T) :=
  filter_search l fields (toLowerCase search).

(** [Array.prototype.slice(start, end)]: a negative index counts from the
    end of the array, and both indices are clamped to the array. *)
Definition slice_index (len i : Z) : Z :=
  if (i <? 0)%Z then Z.max (len + i) 0 else Z.min i len.

Definition slice {T} (l : list T) (start stop : Z) : list T :=
  let len := Z.of_nat (length l) in
  let k := slice_index len start in
  let final := slice_index len stop in
  take (Z.to_nat (final - k)) (drop (Z.to_nat k) l).

(** [Math.ceil(n / d)] for a positive integer [d]. *)
Definition ceil_div (n d : Z) : Z := (- ((- n) / d))%Z.

(** A parameter of the query string as the query parser hands it over: a
    string, or, for a key that is repeated or written with brackets, an
    array or an object.  Of the latter the code uses only that it is
    truthy and has no method [toLowerCase]. *)
Inductive param : Type :=
  | Str (s : string)
  | Composite.

#[global] Instance param_eq_dec : EqDecision param.
Proof. solve_decision. Defined.

(** [if (search)]: the empty string is the one falsy parameter. *)
Definition given (search : option param) : bool :=
  match search with
  | Some (Str s) => negb (String.eqb s "")
  | Some Composite => true
  | None => false
  end.

(** The query string: [req.query.search], which the cast [as string] does
    not check, and [req.query.page] as the number that unary [+] makes of
    it when it is present: [NaN] for what is no numeral, as for an object
    or an array of several values.  A page for which the conversion itself
    throws (an object that brings a [toString] of its own that is no
    function) is outside the model. *)
Record Query : Type := mkQuery {
  query_search : option param;
  query_page : option number;
}.

(** [+(req.query.page || 1) || 1]: a missing page, [NaN] and 0 give 1. *)
Definition page_of (q : Query) : Z :=
  match query_page q with
  | None => 1
  | Some NaN => 1
  | Some (Num z) => if (z =? 0)%Z then 1%Z else z
  end.

(** [getPagedData(req, data, searchFields)].  The result is [None] when the
    search throws: on a field that has no string form, or, before any
    field is read, at [search.toLowerCase()] when the parameter is no
    string.  Otherwise it is the envelope together with the contents of
    the array that was passed in, as the call leaves it: without a search
    term [data.sort] sorts that very array in place, with a search term it
    sorts the fresh array that [filter] returned. *)
Definition getPagedData {T} `{Entity T} (pageSize : Z) (q : Query)
    (l : list T) (fields : list string) : option (PagedData T * list T) :=
  let search := query_search q in
  let filtered :=
    if given search then
      match search with
      | Some (Str term) => fullTextSearch l fields term
      | _ => None   (* [search.toLowerCase] is not a function *)
      end
    else Some l in
  match filtered with
  | None => None
  | Some found =>
      let sorted := sort sortBy found in
      let page := page_of q in
      let pages := ceil_div (Z.of_nat (length sorted)) pageSize in
      let next := if (page <? pages)%Z then Some (page + 1)%Z else None in
      let prev := if (1 <? page)%Z then Some (page - 1)%Z else None in
      Some (mkPagedData
              (slice sorted ((page - 1) * pageSize) (page * pageSize))
              next prev pages,
            if given search then l else sorted)
  end.

(** ** The store and the helpers that work on it *)

(** [let data = resetData()]: the two arrays. *)
Record Data : Type := mkData {
  users : list User;
  roles : list Role;
}.

#[global] Instance Data_eq_dec : EqDecision Data.
Proof. solve_decision. Defined.

Definition set_users (us : list User) (d : Data) : Data := mkData us (roles d).
Definition set_roles (rs : list Role) (d : Data) : Data := mkData (users d) rs.

(** [resetData()] copies the seed of [./data]; the seed is a parameter of
    the model. *)
Definition resetData (rawData : Data) : Data :=
  mkData (map (fun user => user) (users rawData))
         (map (fun role => role) (roles rawData)).

(** [getEntity(req, data)]: the first item with the id of the path, with its
    position in the array. *)
Definition getEntity {T} `{Entity T} (ident : string) (l : list T)
  : option (nat * T) :=
  list_find (fun item => id item = ident) l.

(** [updateField(item, field, value)]: the item after the call and the
    boolean returned. *)
Definition updateField {T} `{Entity T} (item : T) (field : string)
    (value : jsval) : T * bool :=
  if truthy value && negb (strict_eq value (get_field item field))
  then (set_field item field value, true)
  else (item, false).

Definition getDefaultRole (rs : list Role) : option (nat * Role) :=
  list_find (fun role => truthy (role_isDefault role) = true) rs.

(** [clearDefaultRole()]; [None] is the [TypeError] of assigning to a
    property of undefined when no role is the default. *)
Definition clearDefaultRole (rs : list Role) : option (list Role) :=
  match getDefaultRole rs with
  | None => None
  | Some (i, _) => Some (alter (set_role_isDefault (VBool false)) i rs)
  end.

(** ** Requests and responses *)

Inductive method : Type := GET | POST | PATCH | DELETE | PUT | HEAD | OPTIONS.

#[global] Instance method_eq_dec : EqDecision method.
Proof. solve_decision. Defined.

(** A parsed JSON object body. *)
Definition Body : Type := gmap string jsval.

(** [req.body.field], undefined when the body has no such property. *)
Definition body_field (b : Body) (field : string) : jsval :=
  default VUndefined (b !! field).

(** A request: method, path, query string and the body, which is [None]
    when it is not valid JSON.  The path is given by its segments, the
    strings between its slashes: /users/abc is ["users"; "abc"], and
    /users/ is ["users"; ""]. *)
Record Request : Type := mkRequest {
  req_method : method;
  req_path : list string;
  req_query : Query;
  req_body : option Body;
}.

(** What is sent with [res.json], what the framework sends of its own, and
    [PNone] for an answer without a body. *)
Inductive Payload : Type :=
  | PMessage (message : string)
  | PUser (user : User)
  | PRole (role : Role)
  | PUsers (page : PagedData User)
  | PRoles (page : PagedData Role)
  | PFramework (what : string)
  | PNone.

Record Response : Type := mkResponse {
  status : Z;
  payload : Payload;
}.

Definition json (p : Payload) : Response := mkResponse 200 p.
Definition fail (code : Z) (message : string) : Response :=
  mkResponse code (PMessage message).

(** What the framework answers when a handler throws. *)
Definition uncaught : Response := mkResponse 500 (PFramework "TypeError").

(** The inputs a request takes from its environment. *)
Record Env : Type := mkEnv {
  now : string;           (* new Date().toISOString() *)
  uuid : string;          (* randomUUID() *)
  random_latency : Q;     (* Math.random() of the latency *)
  random_error : Q;       (* Math.random() of the server error *)
  random_photo : Q;       (* Math.random() of the photo URL *)
}.

Record serverConfig : Type := mkConfig {
  speed : string;
  chanceOfServerError : Q;
  pageSize : Z;
}.

Definition Handler : Type := Data -> Response * Data.

(** ** User routes *)

Definition get_users (cfg : serverConfig) (q : Query) : Handler :=
  fun d =>
    match getPagedData (pageSize cfg) q (users d) searchFields.users with
    | None => (uncaught, d)
    | Some (page, us) => (json (PUsers page), set_users us d)
    end.

Definition get_user (ident : string) : Handler :=
  fun d =>
    match getEntity ident (users d) with
    | None => (fail 404 "User not found", d)
    | Some (_, user) => (json (PUser user), d)
    end.

Definition patch_user (env : Env) (ident : string) (b : Body) : Handler :=
  fun d =>
    match getEntity ident (users d) with
    | None => (fail 404 "User not found", d)
    | Some (i, user) =>
        let first := body_field b "first" in
        let last := body_field b "last" in
        let roleId := body_field b "roleId" in
        let updated := false in
        let '(user, changed) := updateField user "first" first in
        let updated := changed || updated in
        let '(user, changed) := updateField user "last" last in
        let updated := changed || updated in
        let checked :=
          if truthy roleId then
            match list_find
                    (fun role => strict_eq (VStr (role_id role)) roleId = true)
                    (roles d) with
            | None => None
            | Some (_, role) => Some (set_user_roleId (role_id role) user, true)
            end
          else Some (user, updated) in
        match checked with
        | None =>
            (fail 400 "Referenced role not found",
             set_users (<[i := user]> (users d)) d)
        | Some (user, updated) =>
            let user :=
              if updated then set_user_updatedAt (now env) user else user in
            (json (PUser user), set_users (<[i := user]> (users d)) d)
        end
    end.

Definition missingFields (first last roleId : jsval) : list string :=
  (if negb (truthy first) then ["first"] else []) ++
  (if negb (truthy last) then ["last"] else []) ++
  (if negb (truthy roleId) then ["roleId"] else []).

Fixpoint join (sep : string) (l : list string) : string :=
  match l with
  | [] => ""
  | [x] => x
  | x :: l' => x +:+ sep +:+ join sep l'
  end.

Definition post_user (env : Env) (b : Body) : Handler :=
  fun d =>
    let first := body_field b "first" in
    let last := body_field b "last" in
    let roleId := body_field b "roleId" in
    let missing := missingFields first last roleId in
    if negb (length missing =? 0)%nat then
      (fail 400 ("Missing required field"
                 +:+ (if (1 <? length missing)%nat then "s" else "")
                 +:+ ": " +:+ join ", " missing), d)
    else
      match list_find (fun role => strict_eq (VStr (role_id role)) roleId = true)
                      (roles d) with
      | None => (fail 400 "Referenced role not found", d)
      | Some (_, role) =>
          let photo :=
            "https://i.pravatar.cc/400?img="
            +:+ pretty (Qfloor (random_photo env * 70)) +:+ "}" in
          let user :=
            mkUser (uuid env) (now env) (now env) first last (role_id role)
                   (VStr photo) in
          (json (PUser user), set_users (users d ++ [user]) d)
      end.

Definition delete_user (ident : string) : Handler :=
  fun d =>
    match getEntity ident (users d) with
    | None => (fail 404 "User not found", d)
    | Some (_, user) =>
        (json (PUser user),
         set_users (filter (fun item => user_id item <> user_id user) (users d))
                   d)
    end.

(** ** Role routes *)

Definition get_roles (cfg : serverConfig) (q : Query) : Handler :=
  fun d =>
    match getPagedData (pageSize cfg) q (roles d) searchFields.roles with
    | None => (uncaught, d)
    | Some (page, rs) => (json (PRoles page), set_roles rs d)
    end.

Definition get_role (ident : string) : Handler :=
  fun d =>
    match getEntity ident (roles d) with
    | None => (fail 404 "Role not found", d)
    | Some (_, role) => (json (PRole role), d)
    end.

Definition patch_role (env : Env) (ident : string) (b : Body) : Handler :=
  fun d =>
    match getEntity ident (roles d) with
    | None => (fail 404 "Role not found", d)
    | Some (i, role) =>
        let name := body_field b "name" in
        let description := body_field b "description" in
        let isDefault := body_field b "isDefault" in
        let ident := role_id role in
        if existsb (fun r => strict_eq (role_name r) name
                             && negb (String.eqb (role_id r) ident))
                   (roles d)
        then (fail 400 "Role with given name already exists", d)
        else
          let updated := false in
          let '(role, changed) := updateField role "name" name in
          let updated := changed || updated in
          let '(role, changed) := updateField role "description" description in
          let updated := changed || updated in
          let rs := <[i := role]> (roles d) in
          let transition :=
            if negb (strict_eq isDefault (role_isDefault role)) then
              if strict_eq isDefault (VBool false) then
                inl (fail 400 "Cannot unset default role")
              else if strict_eq isDefault (VBool true) then
                match clearDefaultRole rs with
                | None => inl uncaught
                | Some rs =>
                    inr (alter (set_role_isDefault (VBool true)) i rs, true)
                end
              else inr (rs, updated)
            else inr (rs, updated) in
          match transition with
          | inl answer => (answer, set_roles rs d)
          | inr (rs, updated) =>
              let rs :=
                if updated then alter (set_role_updatedAt (now env)) i rs
                else rs in
              (json (PRole (default role (rs !! i))), set_roles rs d)
          end
    end.

Definition post_role (env : Env) (b : Body) : Handler :=
  fun d =>
    let name := body_field b "name" in
    let description :=
      match body_field b "description" with
      | VUndefined => VStr ""
      | v => v
      end in
    let isDefault :=
      match body_field b "isDefault" with
      | VUndefined => VBool false
      | v => v
      end in
    if negb (truthy name) then (fail 400 "Missing required field: name", d)
    else if existsb (fun role => strict_eq (role_name role) name) (roles d)
    then (fail 400 "Role with given name already exists", d)
    else
      let cleared :=
        if strict_eq isDefault (VBool true) then clearDefaultRole (roles d)
        else Some (roles d) in
      match cleared with
      | None => (uncaught, d)
      | Some rs =>
          let role :=
            mkRole (uuid env) (now env) (now env) name description isDefault in
          (json (PRole role), set_roles (rs ++ [role]) d)
      end.

Definition delete_role (ident : string) : Handler :=
  fun d =>
    match getEntity ident (roles d) with
    | None => (fail 404 "Role not found", d)
    | Some (_, role) =>
        if truthy (role_isDefault role)
        then (fail 400 "Cannot delete default role", d)
        else
          let defaultRole := getDefaultRole (roles d) in
          let references :=
            fun user => bool_decide (user_roleId user = role_id role) in
          let reassigned :=
            match defaultRole with
            | Some (_, def) =>
                Some ((fun user =>
                         if references user
                         then set_user_roleId (role_id def) user
                         else user) <$> users d)
            | None =>
                if existsb references (users d) then None else Some (users d)
            end in
          match reassigned with
          | None => (uncaught, d)
          | Some us =>
              (json (PRole role),
               mkData us
                 (filter (fun item => role_id item <> role_id role) (roles d)))
          end
    end.

(** ** Fault injection and the application *)

(** [getServerSpeed()]: the speed the configuration starts with, read from
    the environment variable SERVER_SPEED ([None] when it is not set). *)
Definition getServerSpeed (SERVER_SPEED : option string) : string :=
  match SERVER_SPEED with
  | Some s =>
      if String.eqb s "slow" || String.eqb s "fast" || String.eqb s "instant"
      then s else "fast"
  | None => "fast"
  end.

(** [logWithNetworkEffects(req, res, next)]: the delay in milliseconds that
    precedes the answer, and the answer.  The request log is not modelled. *)
Definition latencyInMs (cfg : serverConfig) (env : Env) : Z :=
  if String.eqb (speed cfg) "slow"
  then (Qfloor (random_latency env * 1000) + 1000)%Z
  else if String.eqb (speed cfg) "fast"
  then (Qfloor (random_latency env * 500) + 500)%Z
  else 0%Z.

Definition serverError (cfg : serverConfig) (env : Env) : bool :=
  if Qlt_le_dec (random_error env) (chanceOfServerError cfg) then true
  else false.

Definition logWithNetworkEffects (cfg : serverConfig) (env : Env)
    (next : Handler) : Data -> Z * (Response * Data) :=
  fun d =>
    let afterDelay :=
      if serverError cfg env then (fail 500 "Server Error", d) else next d in
    (latencyInMs cfg env, afterDelay).

(** The answer of the framework when no route matches. *)
Definition no_route : Handler :=
  fun d => (mkResponse 404 (PFramework "Not Found"), d).

(** A segment of the path matches the name of a collection whatever the
    case of its letters: the routing of the framework is not case
    sensitive.  The [:id] that follows is taken as it is written. *)
Definition segment_is (name segment : string) : bool :=
  String.eqb (toLowerCase segment) name.

(** The routing is not strict: one slash at the end of the path does not
    count. *)
Definition segments (path : list string) : list string :=
  match reverse path with
  | EmptyString :: rest => reverse rest
  | _ => path
  end.

(** The path is the one of the listing and creation route of a collection. *)
Definition on_collection (name : string) (path : list string) : bool :=
  match segments path with
  | [segment] => segment_is name segment
  | _ => false
  end.

(** The ten routes: [/users], [/users/:id], [/roles] and [/roles/:id] under
    the methods they are registered for.  No route is registered for HEAD,
    so that the framework serves a HEAD request by the GET route.  An
    [:id] is a segment that is not empty. *)
Definition route (cfg : serverConfig) (env : Env) (req : Request) (b : Body)
  : Handler :=
  match segments (req_path req) with
  | [collection] =>
      if segment_is "users" collection then
        match req_method req with
        | GET | HEAD => get_users cfg (req_query req)
        | POST => post_user env b
        | _ => no_route
        end
      else if segment_is "roles" collection then
        match req_method req with
        | GET | HEAD => get_roles cfg (req_query req)
        | POST => post_role env b
        | _ => no_route
        end
      else no_route
  | [collection; ident] =>
      if String.eqb ident "" then no_route
      else if segment_is "users" collection then
        match req_method req with
        | GET | HEAD => get_user ident
        | PATCH => patch_user env ident b
        | DELETE => delete_user ident
        | _ => no_route
        end
      else if segment_is "roles" collection then
        match req_method req with
        | GET | HEAD => get_role ident
        | PATCH => patch_role env ident b
        | DELETE => delete_role ident
        | _ => no_route
        end
      else no_route
  | _ => no_route
  end.

(** [express.json()] and then the routes: a body that does not parse is
    answered by the body parser. *)
Definition parse_and_route (cfg : serverConfig) (env : Env) (req : Request)
  : Handler :=
  match req_body req with
  | None => fun d => (mkResponse 400 (PFramework "Bad Request"), d)
  | Some b => route cfg env req b
  end.

(** [cors()] with its default options, registered before everything else:
    a request of the method OPTIONS is a preflight request, which it
    answers 204 without a body and hands on to nobody; any other request
    goes on down the chain. *)
Definition cors (req : Request) (next : Data -> Z * (Response * Data))
  : Data -> Z * (Response * Data) :=
  match req_method req with
  | OPTIONS => fun d => (0%Z, (mkResponse 204 PNone, d))
  | _ => next
  end.

(** What leaves the server: for a HEAD request the status without the
    body, whoever answered. *)
Definition sent (req : Request) (answer : Response) : Response :=
  match req_method req with
  | HEAD => mkResponse (status answer) PNone
  | _ => answer
  end.

(** [api]: the middleware chain, in the order of its registration. *)
Definition api (cfg : serverConfig) (env : Env) (req : Request)
  : Data -> Z * (Response * Data) :=
  cors req
    (fun d =>
       let out := logWithNetworkEffects cfg env (parse_and_route cfg env req) d in
       (fst out, (sent req (fst (snd out)), snd (snd out)))).

(** One completed operation on the server: a request, or [reset()]. *)
Inductive Operation : Type :=
  | Http (env : Env) (req : Request)
  | Reset.

Definition perform (cfg : serverConfig) (rawData : Data) (op : Operation)
    (d : Data) : Data :=
  match op with
  | Http env req => snd (snd (api cfg env req d))
  | Reset => resetData rawData
  end.

(** The store after a sequence of operations on a freshly started server. *)
Definition run (cfg : serverConfig) (rawData : Data) (ops : list Operation)
  : Data :=
  fold_left (fun d op => perform cfg rawData op d) ops (resetData rawData).

(** ** A sample store *)

Module Sample.

(** Ids that the tests of the server name: the Engineering role, the
    default role, and the user Mark Tipton. *)
Definition engineering : string := "1a235261-fa93-4845-ab48-ee23895998e6".
Definition support : string := "6c0a71c0-a5bc-44f8-8634-60f44840d92a".
Definition mark : string := "c7deb881-1939-4208-9a63-61a885f02d8f".

Definition stamp (day : nat) : string :=
  "2024-08-" +:+ (if (day <? 10)%nat then "0" else "") +:+ pretty day
  +:+ "T12:00:00.000Z".

Definition sample_roles : list Role :=
  [ mkRole engineering (stamp 4) (stamp 4) (VStr "Engineering")
      (VStr "Engineers build and maintain the software that powers our products and services.")
      (VBool false);
    mkRole support (stamp 3) (stamp 3) (VStr "Support")
      (VStr "Support specialists help our customers.") (VBool true);
    mkRole "design" (stamp 2) (stamp 2) (VStr "Design")
      (VStr "Designers create the visual language of our products.")
      (VBool false);
    mkRole "finance" (stamp 1) (stamp 1) (VStr "Finance")
      (VStr "Finance keeps the books.") (VBool false) ].

Definition sample_user (n : nat) : User :=
  mkUser (if (n =? 16)%nat then mark else "user-" +:+ pretty n)
         (stamp n) (stamp n)
         (VStr (if (n =? 16)%nat then "Mark" else "First" +:+ pretty n))
         (VStr (if (n =? 16)%nat then "Tipton" else "Last" +:+ pretty n))
         (if (n <=? 7)%nat then engineering
          else if (n <=? 12)%nat then support else "design")
         (VStr ("https://i.pravatar.cc/400?img=" +:+ pretty n)).

Definition sample_users : list User := map sample_user (rev (seq 1 16)).

(** Modelled from the spec: the seed data of [./data], which is not among
    the sources.  A store in its shape: four roles, one of them the default,
    and sixteen users, newest first, seven of whom have the Engineering
    role. *)
Definition rawData : Data := mkData sample_users sample_roles.

Definition config : serverConfig := mkConfig "instant" 0 10.

Definition env (time ident : string) : Env := mkEnv time ident 0 0 0.

Definition body (fields : list (string * jsval)) : Body := list_to_map fields.

Definition request (m : method) (path : list string) (search : option string)
    (page : option number) (fields : list (string * jsval)) : Request :=
  mkRequest m path (mkQuery (Str <$> search) page) (Some (body fields)).

End Sample.

(** * Specification *)

(** ** Strings and field updates *)

(** [t] occurs in [s]. *)
Definition substring_of (t s : string) : Prop :=
  exists before after, s = before +:+ t +:+ after.

(** The condition under which [updateField] assigns. *)
Definition changes (value old : jsval) : bool :=
  truthy value && negb (strict_eq value old).

(** ** Sequences of operations *)

Definition role_ids (rs : list Role) : list string := role_id <$> rs.

(** [randomUUID()] never returns an id that a stored role already has: the
    condition on the identifier that a POST /roles draws.  The request is
    recognised as the route recognises it. *)
Definition fresh_uuid (op : Operation) (d : Data) : Prop :=
  match op with
  | Http env req =>
      req_method req = POST -> on_collection "roles" (req_path req) = true ->
      uuid env ∉ role_ids (roles d)
  | Reset => True
  end.

(** The condition along a sequence of operations that starts in [d]. *)
Fixpoint fresh_uuids (cfg : serverConfig) (rawData : Data)
    (ops : list Operation) (d : Data) : Prop :=
  match ops with
  | [] => True
  | op :: ops' =>
      fresh_uuid op d /\ fresh_uuids cfg rawData ops' (perform cfg rawData op d)
  end.

(** A handler keeps an invariant of the store. *)
Definition keeps (Inv : Data -> Prop) (h : Handler) : Prop :=
  forall d, Inv d -> Inv (snd (h d)).

(** ** Referential integrity *)

(** Every user's [roleId] is the id of a role of the store. *)
Definition referential_integrity (d : Data) : Prop :=
  Forall (fun user => user_roleId user ∈ role_ids (roles d)) (users d).

(** The invariant that carries it: the role ids are distinct as well. *)
Definition store_ok (d : Data) : Prop :=
  NoDup (role_ids (roles d)) /\ referential_integrity d.

(** ** The default role *)

(** [isDefault == true]. *)
Definition is_default (role : Role) : Prop := role_isDefault role = VBool true.

#[global] Instance is_default_dec (role : Role) : Decision (is_default role).
Proof. unfold is_default. apply _. Defined.

(** The number of roles whose [isDefault] is [true]. *)
Definition count_defaults (rs : list Role) : nat :=
  length (filter is_default rs).

Definition exactly_one_default (d : Data) : Prop :=
  count_defaults (roles d) = 1%nat.

(** What a role adds to [count_defaults]. *)
Definition indicator (role : Role) : nat :=
  if decide (is_default role) then 1%nat else 0%nat.

(** Every stored [isDefault] is a boolean, as the model of a role says. *)
Definition boolean_flags (rs : list Role) : Prop :=
  Forall (fun role => exists flag, role_isDefault role = VBool flag) rs.

(** The [isDefault] of the body of a POST /roles is absent or a boolean. *)
Definition boolean_isDefault (op : Operation) : Prop :=
  match op with
  | Http env req =>
      req_method req = POST -> on_collection "roles" (req_path req) = true ->
      forall b, req_body req = Some b ->
        body_field b "isDefault" = VUndefined
        \/ exists flag, body_field b "isDefault" = VBool flag
  | Reset => True
  end.

(** The invariants that carry [exactly_one_default], on the roles and on
    the store. *)
Definition defaults_ok (rs : list Role) : Prop :=
  boolean_flags rs /\ count_defaults rs = 1%nat.

Definition roles_ok (d : Data) : Prop :=
  NoDup (role_ids (roles d))
  /\ boolean_flags (roles d)
  /\ exactly_one_default d.

(** ** Search and pages *)

(** The item has a declared field whose string form contains the term, both
    in lower case. *)
Definition matches {T} `{Entity T} (item : T) (fields : list string)
    (term : string) : Prop :=
  exists field text,
    field ∈ fields
    /\ toString (get_field item field) = Some text
    /\ substring_of (toLowerCase term) (toLowerCase text).

(** Every declared field of every item has a string form: none is undefined
    or null. *)
Definition defined_fields {T} `{Entity T} (l : list T) (fields : list string)
  : Prop :=
  forall item field,
    item ∈ l -> field ∈ fields -> is_Some (toString (get_field item field)).

(** The search parameter is a term, or absent: not an array or object. *)
Definition term_or_absent (q : Query) : Prop :=
  query_search q <> Some Composite.

(** The filtered set of a listing: the collection when the term is absent
    or empty, and otherwise the items that match it, in their order.  A
    parameter that is no string has no filtered set. *)
Definition filtered_set {T} `{Entity T} (q : Query) (l : list T)
    (fields : list string) (found : list T) : Prop :=
  match query_search q with
  | Some (Str term) =>
      if decide (term = "") then found = l
      else sublist found l
           /\ forall item, item ∈ found <-> item ∈ l /\ matches item fields term
  | Some Composite => False
  | None => found = l
  end.

(** The envelope of a filtered set: the requested slice of the sorted set
    and the page count; empty and 0 for an empty set. *)
Definition envelope_of {T} `{Entity T} (size : Z) (q : Query) (found : list T)
    (page : PagedData T) : Prop :=
  data page = slice (sort sortBy found)
                    ((page_of q - 1) * size) (page_of q * size)
  /\ pages page = ceil_div (Z.of_nat (length found)) size
  /\ (found = [] -> data page = [] /\ pages page = 0%Z).

(** ** Order of the listings *)

(** The order of the listings: [a] was created no earlier than [b]. *)
Definition newer_or_equal {T} `{Entity T} (a b : T) : Prop :=
  String.compare (createdAt b) (createdAt a) <> Gt.

(** A list in the order of the listings: newest first. *)
Definition newest_first {T} `{Entity T} (l : list T) : Prop :=
  forall i j a b,
    l !! i = Some a -> l !! j = Some b -> (i < j)%nat -> newer_or_equal a b.

(** The items a listing pages over: the collection, or what the search
    finds in it; [None] when the search throws. *)
Definition filtered_of {T} `{Entity T} (search : option string) (l : list T)
    (fields : list string) : option (list T) :=
  match search with
  | Some term => if String.eqb term "" then Some l
                 else fullTextSearch l fields term
  | None => Some l
  end.

(** The data of page [p] of a listing; empty when the listing throws. *)
Definition page_data {T} `{Entity T} (size : Z) (search : option string)
    (l : list T) (fields : list string) (p : nat) : list T :=
  match getPagedData size (mkQuery (Str <$> search) (Some (Num (Z.of_nat p))))
                     l fields with
  | Some (page, _) => data page
  | None => []
  end.

(** ** Distinct identifiers and names *)

(** The identifiers of the users and the names of the roles. *)
Definition user_ids (us : list User) : list string := user_id <$> us.
Definition role_names (rs : list Role) : list jsval := role_name <$> rs.

(** [randomUUID()] returns an identifier no user has, at each POST /users
    of a sequence. *)
Definition fresh_user_uuid (op : Operation) (d : Data) : Prop :=
  match op with
  | Http env req =>
      req_method req = POST -> on_collection "users" (req_path req) = true ->
      uuid env ∉ user_ids (users d)
  | Reset => True
  end.

Fixpoint fresh_user_uuids (cfg : serverConfig) (rawData : Data)
    (ops : list Operation) (d : Data) : Prop :=
  match ops with
  | [] => True
  | op :: ops' =>
      fresh_user_uuid op d
      /\ fresh_user_uuids cfg rawData ops' (perform cfg rawData op d)
  end.

(** Users and roles are told apart by their identifiers, roles also by
    their names. *)
Definition distinct_ok (d : Data) : Prop :=
  NoDup (user_ids (users d))
  /\ NoDup (role_ids (roles d))
  /\ NoDup (role_names (roles d)).

(** * Properties *)

(** Closed decidable facts about the sample store are settled by
    computation. *)
Ltac by_computation := apply (bool_decide_unpack _); vm_compute; exact I.

(** [fresh_uuids] along a concrete sequence: only a POST /roles has
    something to show. *)
Ltac fresh_by_computation :=
  cbn [fresh_uuids fresh_uuid];
  repeat split; intros Hmethod Hpath;
  first [ discriminate Hmethod
        | vm_compute in Hpath; discriminate Hpath
        | by_computation ].

(** ** Strings *)

Lemma prefix_spec (t s : string) :
  String.prefix t s = true <-> exists after, s = t +:+ after.
Proof.
  revert s. induction t as [|c t IH]; intros s; simpl.
  - split; [exists s; reflexivity | destruct s; reflexivity].
  - destruct s as [|c' s]; simpl.
    + split; [discriminate | intros [after Hafter]; discriminate].
    + destruct (Ascii.ascii_dec c c') as [->|Hne].
      * rewrite IH. split; intros [after Hafter]; exists after.
        -- now rewrite Hafter.
        -- now injection Hafter.
      * split; [discriminate|].
        intros [after Hafter]. injection Hafter as Hc _. congruence.
Qed.

Lemma includes_spec (s t : string) :
  includes s t = true <-> substring_of t s.
Proof.
  unfold substring_of. induction s as [|c s IH].
  - cbn [includes]. rewrite orb_false_r, prefix_spec. split.
    + intros [after Hafter]. exists "", after. exact Hafter.
    + intros ([|c before] & after & Heq); [|discriminate].
      exists after. exact Heq.
  - cbn [includes]. rewrite orb_true_iff, prefix_spec, IH. split.
    + intros [[after Hafter]|(before & after & Heq)].
      * exists "", after. exact Hafter.
      * exists (String c before), after. simpl. now rewrite Heq.
    + intros ([|c' before] & after & Heq).
      * left. exists after. exact Heq.
      * right. exists before, after. simpl in Heq. now injection Heq.
Qed.

Lemma includes_empty (s : string) : includes s "" = true.
Proof. destruct s; reflexivity. Qed.

(** ** Sorting *)

Lemma sort_insert_perm {T} (cmp : T -> T -> comparison) (x : T) (l : list T) :
  sort_insert cmp x l ≡ₚ x :: l.
Proof.
  induction l as [|y l IH]; simpl; [reflexivity|].
  destruct (cmp x y); try reflexivity.
  rewrite IH. apply Permutation_swap.
Qed.

Lemma sort_perm {T} (cmp : T -> T -> comparison) (l : list T) :
  sort cmp l ≡ₚ l.
Proof.
  induction l as [|x l IH]; simpl; [reflexivity|].
  rewrite sort_insert_perm. now rewrite IH.
Qed.

Lemma sort_length {T} (cmp : T -> T -> comparison) (l : list T) :
  length (sort cmp l) = length l.
Proof. apply Permutation_length, sort_perm. Qed.

(** ** Routing *)

Lemma lower_ascii_idempotent (c : ascii) :
  lower_ascii (lower_ascii c) = lower_ascii c.
Proof. destruct c as [[] [] [] [] [] [] [] []]; reflexivity. Qed.

Lemma toLowerCase_idempotent (s : string) :
  toLowerCase (toLowerCase s) = toLowerCase s.
Proof.
  induction s as [|c s IH]; [reflexivity|].
  cbn [toLowerCase]. now rewrite lower_ascii_idempotent, IH.
Qed.

(** The router does not tell /Users from /users, nor /users/ from /users. *)
Lemma segment_is_any_case (name segment : string) :
  segment_is name (toLowerCase segment) = segment_is name segment.
Proof. unfold segment_is. now rewrite toLowerCase_idempotent. Qed.

Lemma segments_trailing_slash (path : list string) :
  segments (path ++ [""]) = path.
Proof. unfold segments. rewrite reverse_snoc. apply reverse_involutive. Qed.

Lemma route_trailing_slash (cfg : serverConfig) (env : Env) (m : method)
    (path : list string) (q : Query) (body : option Body) (b : Body) :
  segments path = path ->
  route cfg env (mkRequest m (path ++ [""]) q body) b
  = route cfg env (mkRequest m path q body) b.
Proof.
  intros Hpath. unfold route. cbn [req_path].
  now rewrite segments_trailing_slash, Hpath.
Qed.

(** A HEAD request runs the handler of the GET route, with whatever that
    handler does to the store. *)
Lemma head_is_served_by_get (cfg : serverConfig) (env : Env)
    (path : list string) (q : Query) (body : option Body) (b : Body) :
  route cfg env (mkRequest HEAD path q body) b
  = route cfg env (mkRequest GET path q body) b.
Proof. reflexivity. Qed.

(** ** Fault injection *)

(** C5, as the code has it.  A request of the method OPTIONS never reaches
    the fault injection: [cors()], registered before it, answers it.  For
    every other request, with [Math.random()] in the interval from 0 to 1,
    1 excluded: with [chanceOfServerError] equal to 1 the request is
    answered 500 with the generic body (a HEAD request: 500 without the
    body) whatever the rest of the chain ([next]) is, whatever the path
    and body of the request are and whatever the store holds, and the store
    is returned as it was; with [chanceOfServerError] equal to 0 the answer
    is the one of the rest of the chain. *)
Theorem fault_injection_all_or_nothing
    (cfg : serverConfig) (env : Env) (req : Request) (next : Handler)
    (d : Data) :
  (0 <= random_error env)%Q -> (random_error env < 1)%Q ->
  req_method req <> OPTIONS ->
  ((chanceOfServerError cfg == 1)%Q ->
     snd (logWithNetworkEffects cfg env next d) = (fail 500 "Server Error", d)
     /\ snd (api cfg env req d) = (sent req (fail 500 "Server Error"), d)
     /\ status (fst (snd (api cfg env req d))) = 500%Z
     /\ (req_method req <> HEAD ->
         snd (api cfg env req d) = (fail 500 "Server Error", d)))
  /\ ((chanceOfServerError cfg == 0)%Q ->
     snd (logWithNetworkEffects cfg env next d) = next d
     /\ snd (api cfg env req d)
        = (sent req (fst (parse_and_route cfg env req d)),
           snd (parse_and_route cfg env req d))).
Proof.
  intros Hlow Hhigh Hmethod.
  assert (Hcors : forall chain, cors req chain = chain).
  { intros chain. unfold cors. now destruct (req_method req). }
  unfold api. rewrite Hcors.
  unfold logWithNetworkEffects, serverError. cbn [fst snd].
  split; intros Hchance.
  - destruct (Qlt_le_dec (random_error env) (chanceOfServerError cfg))
      as [_|Hle].
    + cbn [fst snd]. repeat split.
      * unfold sent. now destruct (req_method req).
      * intros Hhead. unfold sent. now destruct (req_method req).
    + rewrite Hchance in Hle.
      exfalso. exact (Qlt_not_le _ _ Hhigh Hle).
  - destruct (Qlt_le_dec (random_error env) (chanceOfServerError cfg))
      as [Hlt|_]; [|split; reflexivity].
    rewrite Hchance in Hlt.
    exfalso. exact (Qlt_not_le _ _ Hlt Hlow).
Qed.

Lemma fault_injection_all_or_nothing_witness :
  let cfg := mkConfig "fast" 1 10 in
  let env := mkEnv (Sample.stamp 20) "id" (1 # 3) (1 # 2) 0 in
  let req :=
    Sample.request DELETE ["roles"; Sample.engineering] None None [] in
  (0 <= random_error env)%Q /\ (random_error env < 1)%Q /\
  req_method req <> OPTIONS /\
  (chanceOfServerError cfg == 1)%Q /\
  snd (api cfg env req Sample.rawData) =
    (fail 500 "Server Error", Sample.rawData).
Proof.
  intros cfg env req.
  assert (Hlow : (0 <= random_error env)%Q) by (unfold Qle; simpl; lia).
  assert (Hhigh : (random_error env < 1)%Q) by (unfold Qlt; simpl; lia).
  assert (Hmethod : req_method req <> OPTIONS) by discriminate.
  assert (Hone : (chanceOfServerError cfg == 1)%Q) by reflexivity.
  split; [exact Hlow|]. split; [exact Hhigh|]. split; [exact Hmethod|].
  split; [exact Hone|].
  exact (proj1 (proj2 (proj1 (fault_injection_all_or_nothing cfg env req
                         (parse_and_route cfg env req) Sample.rawData
                         Hlow Hhigh Hmethod) Hone))).
Defined.

(** C5 as it is worded fails for the method OPTIONS: with
    [chanceOfServerError] equal to 1 such a request is answered 204 by
    [cors()], at once and without a body, and not 500 by the fault
    injection, which it never reaches. *)
Lemma options_request_is_not_faulted :
  let cfg := mkConfig "fast" 1 10 in
  let env := mkEnv (Sample.stamp 20) "id" (1 # 3) (1 # 2) 0 in
  let req := Sample.request OPTIONS ["users"] None None [] in
  (chanceOfServerError cfg == 1)%Q
  /\ serverError cfg env = true
  /\ api cfg env req Sample.rawData
     = (0%Z, (mkResponse 204 PNone, Sample.rawData))
  /\ status (fst (snd (api cfg env req Sample.rawData))) <> 500%Z.
Proof.
  intros cfg env req.
  split; [reflexivity|]. split; [reflexivity|]. split; [reflexivity|].
  discriminate.
Qed.

(** ** Updating a user *)

Lemma changes_true (value old : jsval) :
  changes value old = true <-> truthy value = true /\ value <> old.
Proof.
  unfold changes, strict_eq.
  rewrite andb_true_iff, negb_true_iff, bool_decide_eq_false. tauto.
Qed.

Lemma updateField_first (user : User) (value : jsval) :
  updateField user "first" value =
  if changes value (user_first user) then (set_user_first value user, true)
  else (user, false).
Proof. reflexivity. Qed.

Lemma updateField_last (user : User) (value : jsval) :
  updateField user "last" value =
  if changes value (user_last user) then (set_user_last value user, true)
  else (user, false).
Proof. reflexivity. Qed.

Lemma getEntity_lookup {T} `{Entity T} (ident : string) (l : list T)
    (i : nat) (item : T) :
  getEntity ident l = Some (i, item) -> l !! i = Some item /\ id item = ident.
Proof.
  unfold getEntity. intros Hfind.
  apply list_find_Some in Hfind. tauto.
Qed.

Lemma find_role_None (rs : list Role) (roleId : jsval) :
  (forall role, role ∈ rs -> VStr (role_id role) <> roleId) ->
  list_find (fun role => strict_eq (VStr (role_id role)) roleId = true) rs
  = None.
Proof.
  intros Hnone. apply list_find_None, Forall_forall.
  intros role Hin Heq. unfold strict_eq in Heq.
  apply bool_decide_eq_true in Heq. exact (Hnone role Hin Heq).
Qed.

Lemma find_role_Some (rs : list Role) (roleId : jsval) (j : nat) (role : Role) :
  list_find (fun role => strict_eq (VStr (role_id role)) roleId = true) rs
  = Some (j, role) ->
  role ∈ rs /\ roleId = VStr (role_id role).
Proof.
  intros Hfind. apply list_find_Some in Hfind as (Hlook & Heq & _).
  unfold strict_eq in Heq. apply bool_decide_eq_true in Heq.
  split; [eapply list_elem_of_lookup_2; eassumption | now symmetry].
Qed.

(** What a PATCH of an existing user that is answered 200 does to
    [updatedAt]: it is set to the time of the request when [first] or [last]
    was assigned or a truthy [roleId] was supplied, whether or not that
    [roleId] differs from the one the user had. *)
Lemma patch_user_updatedAt (env : Env) (ident : string) (b : Body) (d : Data)
    (i : nat) (user : User) :
  getEntity ident (users d) = Some (i, user) ->
  status (fst (patch_user env ident b d)) = 200%Z ->
  exists user',
    users (snd (patch_user env ident b d)) !! i = Some user'
    /\ user_updatedAt user' =
         if changes (body_field b "first") (user_first user)
            || changes (body_field b "last") (user_last user)
            || truthy (body_field b "roleId")
         then now env else user_updatedAt user.
Proof.
  intros Hfind. pose proof (getEntity_lookup _ _ _ _ Hfind) as [Hlook _].
  apply lookup_lt_Some in Hlook.
  unfold patch_user. rewrite Hfind, updateField_first.
  destruct (changes (body_field b "first") (user_first user));
    rewrite updateField_last; cbn [user_last set_user_first];
    destruct (changes (body_field b "last") (user_last user));
    destruct (truthy (body_field b "roleId")); cbn -[list_find];
    try (destruct (list_find _ (roles d)) as [[j role]|]; simpl;
         [|discriminate]);
    intros _; eexists; (split; [apply list_lookup_insert_eq; exact Hlook|]);
    reflexivity.
Qed.

(** C6.  A PATCH whose [first], [last] and [roleId] all equal the values the
    user already has is answered 200, leaves these three fields as they
    were, and still replaces [updatedAt] by the time of the request: the
    [roleId] branch sets [updated = true] without comparing the value. *)
Theorem patch_user_same_roleId_refreshes_updatedAt :
  let d := Sample.rawData in
  let env := Sample.env (Sample.stamp 22) "" in
  let b := Sample.body [("first", VStr "Mark"); ("last", VStr "Tipton");
                        ("roleId", VStr "design")] in
  exists user user',
    getEntity Sample.mark (users d) = Some (0%nat, user)
    /\ body_field b "first" = user_first user
    /\ body_field b "last" = user_last user
    /\ body_field b "roleId" = VStr (user_roleId user)
    /\ patch_user env Sample.mark b d
       = (json (PUser user'), set_users (<[0%nat := user']> (users d)) d)
    /\ user_first user' = user_first user
    /\ user_last user' = user_last user
    /\ user_roleId user' = user_roleId user
    /\ user_updatedAt user = Sample.stamp 16
    /\ user_updatedAt user' = Sample.stamp 22.
Proof.
  intros d env b. eexists. eexists.
  split; [vm_compute; reflexivity|].
  repeat split; vm_compute; reflexivity.
Qed.

(** C9, as the code has it.  When the body of a PATCH of an existing user
    carries a truthy [roleId] that is the id of no role, and a truthy
    [first] or [last] that differs from the stored one, the answer is 400
    "Referenced role not found" and the stored user has nevertheless taken
    the supplied truthy [first] and [last]; its [updatedAt] and its other
    fields are as before. *)
Theorem patch_user_not_atomic (env : Env) (ident : string) (b : Body)
    (d : Data) (i : nat) (user : User) :
  getEntity ident (users d) = Some (i, user) ->
  truthy (body_field b "roleId") = true ->
  (forall role, role ∈ roles d -> VStr (role_id role) <> body_field b "roleId") ->
  (truthy (body_field b "first") = true /\ body_field b "first" <> user_first user)
  \/ (truthy (body_field b "last") = true /\ body_field b "last" <> user_last user) ->
  exists user',
    patch_user env ident b d
    = (fail 400 "Referenced role not found",
       set_users (<[i := user']> (users d)) d)
    /\ users (snd (patch_user env ident b d)) !! i = Some user'
    /\ user' <> user
    /\ user_first user' =
         (if truthy (body_field b "first") then body_field b "first"
          else user_first user)
    /\ user_last user' =
         (if truthy (body_field b "last") then body_field b "last"
          else user_last user)
    /\ user_updatedAt user' = user_updatedAt user
    /\ user_id user' = user_id user
    /\ user_createdAt user' = user_createdAt user
    /\ user_roleId user' = user_roleId user
    /\ user_photo user' = user_photo user.
Proof.
  intros Hfind Hrole Hnone Hchange.
  pose proof (getEntity_lookup _ _ _ _ Hfind) as [Hlook _].
  apply lookup_lt_Some in Hlook.
  unfold patch_user.
  rewrite Hfind, updateField_first, Hrole, (find_role_None _ _ Hnone).
  unfold changes, strict_eq.
  destruct user as [uid created updated first last roleId photo].
  cbn [user_first user_last] in *.
  destruct (truthy (body_field b "first")) eqn:Hfirst;
    cbn [andb negb]; try case_bool_decide; cbn [andb negb];
    rewrite updateField_last; unfold changes, strict_eq;
    cbn [user_last set_user_first];
    destruct (truthy (body_field b "last")) eqn:Hlast;
    cbn [andb negb]; try case_bool_decide; cbn [andb negb fst snd users set_users];
    try (exfalso; destruct Hchange as [[? ?]|[? ?]]; congruence);
    eexists; (split; [reflexivity|]);
    (split; [apply list_lookup_insert_eq; exact Hlook|]);
    (split; [|repeat split; cbn; congruence]);
    intros Heq; injection Heq; intros; subst;
    destruct Hchange as [[? ?]|[? ?]]; congruence.
Qed.

Lemma patch_user_not_atomic_witness :
  let d := Sample.rawData in
  let env := Sample.env (Sample.stamp 22) "" in
  let b := Sample.body [("first", VStr "Max"); ("roleId", VStr "not-a-role")] in
  getEntity Sample.mark (users d) = Some (0%nat, Sample.sample_user 16)
  /\ truthy (body_field b "roleId") = true
  /\ users (snd (patch_user env Sample.mark b d)) !! 0%nat
     = Some (set_user_first (VStr "Max") (Sample.sample_user 16))
  /\ exists user',
       patch_user env Sample.mark b d
       = (fail 400 "Referenced role not found",
          set_users (<[0%nat := user']> (users d)) d)
       /\ user' <> Sample.sample_user 16
       /\ user_updatedAt user' = user_updatedAt (Sample.sample_user 16).
Proof.
  intros d env b.
  assert (Hfind : getEntity Sample.mark (users d)
                  = Some (0%nat, Sample.sample_user 16))
    by (vm_compute; reflexivity).
  assert (Hrole : truthy (body_field b "roleId") = true)
    by (vm_compute; reflexivity).
  assert (Hnone : forall role, role ∈ roles d ->
                    VStr (role_id role) <> body_field b "roleId").
  { apply Forall_forall. by_computation. }
  assert (Hchange :
    (truthy (body_field b "first") = true
     /\ body_field b "first" <> user_first (Sample.sample_user 16))
    \/ (truthy (body_field b "last") = true
        /\ body_field b "last" <> user_last (Sample.sample_user 16))).
  { left. split; [vm_compute; reflexivity|]. vm_compute. discriminate. }
  split; [exact Hfind|]. split; [exact Hrole|].
  split; [vm_compute; reflexivity|].
  destruct (patch_user_not_atomic env Sample.mark b d 0 _
              Hfind Hrole Hnone Hchange)
    as (user' & Hanswer & _ & Hne & _ & _ & Hupdated & _).
  exists user'. split; [exact Hanswer|]. split; [exact Hne|exact Hupdated].
Defined.

(** C9 as it is worded fails for a falsy [roleId]: the empty string is the
    id of no role, yet [if (roleId)] skips the lookup, the request is
    answered 200 and [updatedAt] is refreshed. *)
Lemma patch_user_falsy_roleId_not_rejected :
  let d := Sample.rawData in
  let env := Sample.env (Sample.stamp 22) "" in
  let b := Sample.body [("first", VStr "Max"); ("roleId", VStr "")] in
  (forall role, role ∈ roles d -> VStr (role_id role) <> body_field b "roleId")
  /\ truthy (body_field b "first") = true
  /\ body_field b "first" <> user_first (Sample.sample_user 16)
  /\ getEntity Sample.mark (users d) = Some (0%nat, Sample.sample_user 16)
  /\ status (fst (patch_user env Sample.mark b d)) = 200%Z
  /\ user_updatedAt <$> users (snd (patch_user env Sample.mark b d)) !! 0%nat
     = Some (Sample.stamp 22).
Proof.
  intros d env b. split.
  { apply Forall_forall. by_computation. }
  split; [vm_compute; reflexivity|].
  split; [vm_compute; discriminate|].
  repeat split; vm_compute; reflexivity.
Qed.

(** ** Roles: list facts *)

Lemma filter_all {A} (P : A -> Prop) `{forall x, Decision (P x)} (l : list A) :
  Forall P l -> filter P l = l.
Proof.
  induction 1 as [|x l HP _ IH]; [reflexivity|].
  rewrite filter_cons_True by exact HP. now rewrite IH.
Qed.

(** With distinct ids, filtering out the id of the role at position [i]
    removes that position and nothing else. *)
Lemma filter_id_delete (rs : list Role) (i : nat) (role : Role) :
  NoDup (role_ids rs) -> rs !! i = Some role ->
  filter (fun item => role_id item <> role_id role) rs = delete i rs.
Proof.
  unfold role_ids. revert i.
  induction rs as [|x rs IH]; intros i Hnodup Hlook; [discriminate|].
  rewrite fmap_cons in Hnodup. apply NoDup_cons in Hnodup as [Hfresh Hnodup].
  destruct i as [|i]; simpl in Hlook.
  - injection Hlook as ->.
    rewrite filter_cons_False by (intros Hne; now apply Hne).
    simpl. apply filter_all, Forall_forall.
    intros y Hy Heq. apply Hfresh. rewrite <- Heq.
    now apply list_elem_of_fmap_2.
  - rewrite filter_cons_True.
    + simpl. f_equal. now apply IH.
    + intros Heq. apply Hfresh. rewrite Heq.
      apply list_elem_of_fmap_2. eapply list_elem_of_lookup_2. eassumption.
Qed.


(** ** Deleting a role *)



(** ** Invariants of the store *)

Lemma resetData_id (rawData : Data) : resetData rawData = rawData.
Proof.
  destruct rawData as [us rs]. unfold resetData. cbn [users roles].
  now rewrite !map_id.
Qed.

Lemma getPagedData_store {T} `{Entity T} (size : Z) (q : Query) (l l' : list T)
    (fields : list string) (page : PagedData T) :
  getPagedData size q l fields = Some (page, l') -> l' ≡ₚ l.
Proof.
  unfold getPagedData.
  destruct (given (query_search q)).
  - destruct (query_search q) as [[term|]|]; try discriminate.
    destruct (fullTextSearch l fields _); [|discriminate].
    intros [= _ <-]. reflexivity.
  - intros [= _ <-]. apply sort_perm.
Qed.

Section Invariant.

Variable cfg : serverConfig.
Variable Inv : Data -> Prop.

Lemma get_user_keeps (ident : string) : keeps Inv (get_user ident).
Proof.
  intros d HI. unfold get_user.
  destruct (getEntity ident (users d)) as [[i user]|]; exact HI.
Qed.

Lemma get_role_keeps (ident : string) : keeps Inv (get_role ident).
Proof.
  intros d HI. unfold get_role.
  destruct (getEntity ident (roles d)) as [[i role]|]; exact HI.
Qed.

(** The invariant passes through the router when every handler that writes
    to the store keeps it; for POST /roles this is asked for only at the
    store and the request at hand. *)
Lemma route_invariant (env : Env) (req : Request) (b : Body) (d : Data) :
  keeps Inv (get_users cfg (req_query req)) ->
  (forall ident, keeps Inv (patch_user env ident b)) ->
  keeps Inv (post_user env b) ->
  (forall ident, keeps Inv (delete_user ident)) ->
  keeps Inv (get_roles cfg (req_query req)) ->
  (forall ident, keeps Inv (patch_role env ident b)) ->
  (req_method req = POST -> on_collection "roles" (req_path req) = true ->
   Inv (snd (post_role env b d))) ->
  (forall ident, keeps Inv (delete_role ident)) ->
  Inv d -> Inv (snd (route cfg env req b d)).
Proof.
  intros Hgu Hpu Hcu Hdu Hgr Hpr Hcr Hdr HI. unfold route.
  unfold on_collection in Hcr.
  destruct (segments (req_path req)) as [|collection [|ident [|more path]]]
    eqn:Hpath; try exact HI.
  - destruct (segment_is "users" collection) eqn:Husers.
    + destruct (req_method req); try exact HI;
        [now apply Hgu|now apply Hcu|now apply Hgu].
    + destruct (segment_is "roles" collection) eqn:Hroles; [|exact HI].
      destruct (req_method req) eqn:Hmethod; try exact HI;
        [now apply Hgr|now apply Hcr|now apply Hgr].
  - destruct (String.eqb ident ""); [exact HI|].
    destruct (segment_is "users" collection).
    + destruct (req_method req); try exact HI;
        [now apply get_user_keeps|now apply Hpu|now apply Hdu
        |now apply get_user_keeps].
    + destruct (segment_is "roles" collection); [|exact HI].
      destruct (req_method req); try exact HI;
        [now apply get_role_keeps|now apply Hpr|now apply Hdr
        |now apply get_role_keeps].
Qed.

Lemma api_invariant (env : Env) (req : Request) (d : Data) :
  (forall b, req_body req = Some b -> Inv (snd (route cfg env req b d))) ->
  Inv d -> Inv (snd (snd (api cfg env req d))).
Proof.
  intros Hroute HI.
  unfold api, cors, logWithNetworkEffects, parse_and_route.
  destruct (req_method req); cbn [fst snd]; try exact HI;
    (destruct (serverError cfg env); [exact HI|];
     destruct (req_body req) as [b|]; [now apply Hroute|exact HI]).
Qed.

End Invariant.

(** ** Referential integrity *)

Lemma role_set_id (role : Role) (field : string) (value : jsval) :
  role_id (role_set role field value) = role_id role.
Proof. unfold role_set. repeat destruct (String.eqb _ _); reflexivity. Qed.

Lemma updateField_role_id (role : Role) (field : string) (value : jsval) :
  role_id (fst (updateField role field value)) = role_id role.
Proof.
  unfold updateField. destruct (_ && _); [apply role_set_id|reflexivity].
Qed.

Lemma role_ids_alter (f : Role -> Role) (i : nat) (rs : list Role) :
  (forall role, role_id (f role) = role_id role) ->
  role_ids (alter f i rs) = role_ids rs.
Proof.
  intros Hf. unfold role_ids.
  rewrite (list_fmap_alter role_id f (fun x => x))
    by (apply Forall_forall; intros role _; apply Hf).
  now apply list_alter_id.
Qed.

Lemma role_ids_insert (i : nat) (role role' : Role) (rs : list Role) :
  rs !! i = Some role -> role_id role' = role_id role ->
  role_ids (<[i := role']> rs) = role_ids rs.
Proof.
  intros Hlook Hid. unfold role_ids. rewrite list_fmap_insert.
  apply list_insert_id. now rewrite list_lookup_fmap, Hlook, Hid.
Qed.

Lemma clearDefaultRole_ids (rs rs' : list Role) :
  clearDefaultRole rs = Some rs' -> role_ids rs' = role_ids rs.
Proof.
  unfold clearDefaultRole.
  destruct (getDefaultRole rs) as [[j def]|]; [|discriminate].
  intros [= <-]. now apply role_ids_alter.
Qed.

Lemma patch_role_ids (env : Env) (ident : string) (b : Body) (d : Data) :
  role_ids (roles (snd (patch_role env ident b d))) = role_ids (roles d)
  /\ users (snd (patch_role env ident b d)) = users d.
Proof.
  unfold patch_role.
  destruct (getEntity ident (roles d)) as [[i role]|] eqn:Hfind;
    [|split; reflexivity].
  apply getEntity_lookup in Hfind as [Hlook _].
  destruct (existsb _ (roles d)); [split; reflexivity|].
  pose proof (updateField_role_id role "name" (body_field b "name")) as Hid1.
  destruct (updateField role "name" _) as [role1 changed1].
  pose proof (updateField_role_id role1 "description"
                (body_field b "description")) as Hid2.
  destruct (updateField role1 "description" _) as [role2 changed2].
  cbn [fst] in Hid1, Hid2.
  assert (Hids : role_ids (<[i := role2]> (roles d)) = role_ids (roles d))
    by (eapply role_ids_insert; [exact Hlook | congruence]).
  assert (Halter : forall rs, role_ids rs = role_ids (roles d) ->
            role_ids (if changed2 || (changed1 || false)
                      then alter (set_role_updatedAt (now env)) i rs else rs)
            = role_ids (roles d)).
  { intros rs Hrs. destruct (changed2 || (changed1 || false)); [|exact Hrs].
    rewrite role_ids_alter; [exact Hrs | reflexivity]. }
  destruct (negb (strict_eq (body_field b "isDefault") (role_isDefault role2)));
    [|split; [now apply Halter | reflexivity]].
  destruct (strict_eq (body_field b "isDefault") (VBool false));
    [split; [exact Hids | reflexivity]|].
  destruct (strict_eq (body_field b "isDefault") (VBool true));
    [|split; [now apply Halter | reflexivity]].
  destruct (clearDefaultRole _) as [rs|] eqn:Hclear;
    [|split; [exact Hids | reflexivity]].
  apply clearDefaultRole_ids in Hclear.
  split; [|reflexivity]. cbn [snd roles set_roles].
  rewrite !role_ids_alter; [congruence | reflexivity..].
Qed.

Lemma patch_role_store_ok (env : Env) (ident : string) (b : Body) :
  keeps store_ok (patch_role env ident b).
Proof.
  intros d [Hnodup Hri].
  destruct (patch_role_ids env ident b d) as [Hids Husers].
  unfold store_ok, referential_integrity. now rewrite Hids, Husers.
Qed.

Lemma get_users_store_ok (cfg : serverConfig) (q : Query) :
  keeps store_ok (get_users cfg q).
Proof.
  intros d [Hnodup Hri]. unfold get_users.
  destruct (getPagedData _ q (users d) _) as [[page us]|] eqn:Hpage;
    [|split; assumption].
  apply getPagedData_store in Hpage.
  split; [exact Hnodup|].
  unfold referential_integrity. cbn [snd set_users users roles].
  now rewrite Hpage.
Qed.

Lemma get_roles_store_ok (cfg : serverConfig) (q : Query) :
  keeps store_ok (get_roles cfg q).
Proof.
  intros d [Hnodup Hri]. unfold get_roles.
  destruct (getPagedData _ q (roles d) _) as [[page rs]|] eqn:Hpage;
    [|split; assumption].
  apply getPagedData_store in Hpage.
  assert (Hids : role_ids rs ≡ₚ role_ids (roles d))
    by (unfold role_ids; now rewrite Hpage).
  unfold store_ok, referential_integrity. cbn [snd set_roles users roles].
  split; [now rewrite Hids|].
  eapply Forall_impl; [exact Hri|].
  intros user Hin. now rewrite Hids.
Qed.

Lemma patch_user_store_ok (env : Env) (ident : string) (b : Body) :
  keeps store_ok (patch_user env ident b).
Proof.
  intros d [Hnodup Hri]. unfold patch_user.
  destruct (getEntity ident (users d)) as [[i user]|] eqn:Hfind;
    [|split; assumption].
  apply getEntity_lookup in Hfind as [Hlook _].
  assert (Huser : user_roleId user ∈ role_ids (roles d))
    by (eapply (proj1 (Forall_lookup _ _) Hri); exact Hlook).
  rewrite updateField_first.
  set (user1 := if changes _ _ then _ else _).
  assert (H1 : user_roleId (fst user1) = user_roleId user)
    by (unfold user1; destruct (changes _ _); reflexivity).
  destruct user1 as [user1 changed1]. rewrite updateField_last.
  set (user2 := if changes _ _ then _ else _).
  assert (H2 : user_roleId (fst user2) = user_roleId user1)
    by (unfold user2; destruct (changes _ _); reflexivity).
  destruct user2 as [user2 changed2]. cbn [fst] in H1, H2.
  assert (Hput : forall user', user_roleId user' ∈ role_ids (roles d) ->
            store_ok (set_users (<[i := user']> (users d)) d)).
  { intros user' Hin. split; [exact Hnodup|].
    unfold referential_integrity. cbn [set_users users roles].
    apply Forall_insert; assumption. }
  destruct (truthy (body_field b "roleId")).
  - destruct (list_find _ (roles d)) as [[j role]|] eqn:Hrole.
    + apply find_role_Some in Hrole as [Hin _].
      apply Hput. cbn. now apply list_elem_of_fmap_2.
    + apply Hput. congruence.
  - cbn [snd]. destruct (changed2 || (changed1 || false));
      apply Hput; cbn; congruence.
Qed.

Lemma post_user_store_ok (env : Env) (b : Body) : keeps store_ok (post_user env b).
Proof.
  intros d [Hnodup Hri]. unfold post_user.
  destruct (negb _); [split; assumption|].
  destruct (list_find _ (roles d)) as [[j role]|] eqn:Hrole;
    [|split; assumption].
  apply find_role_Some in Hrole as [Hin _].
  split; [exact Hnodup|].
  unfold referential_integrity. cbn [snd set_users users roles].
  apply Forall_app. split; [exact Hri|].
  apply Forall_singleton. cbn. now apply list_elem_of_fmap_2.
Qed.

Lemma delete_user_store_ok (ident : string) : keeps store_ok (delete_user ident).
Proof.
  intros d [Hnodup Hri]. unfold delete_user.
  destruct (getEntity ident (users d)) as [[i user]|]; [|split; assumption].
  split; [exact Hnodup|].
  unfold referential_integrity. cbn [snd set_users users roles].
  apply Forall_forall. intros u Hin.
  apply list_elem_of_filter in Hin as [_ Hin].
  exact (proj1 (Forall_forall _ _) Hri u Hin).
Qed.

Lemma role_ids_filter_NoDup (P : Role -> Prop) `{forall x, Decision (P x)}
    (rs : list Role) :
  NoDup (role_ids rs) -> NoDup (role_ids (filter P rs)).
Proof.
  unfold role_ids. induction rs as [|role rs IH]; [intros; constructor|].
  rewrite fmap_cons, NoDup_cons. intros [Hfresh Hnodup].
  rewrite filter_cons. destruct (decide (P role)); [|now apply IH].
  rewrite fmap_cons. apply NoDup_cons. split; [|now apply IH].
  intros Hin. apply Hfresh.
  apply list_elem_of_fmap in Hin as (r & Hr & Hin).
  apply list_elem_of_filter in Hin as [_ Hin].
  rewrite Hr. now apply list_elem_of_fmap_2.
Qed.

Lemma post_role_store_ok (env : Env) (b : Body) (d : Data) :
  uuid env ∉ role_ids (roles d) -> store_ok d ->
  store_ok (snd (post_role env b d)).
Proof.
  intros Hfresh [Hnodup Hri]. unfold post_role.
  destruct (negb (truthy _)); [split; assumption|].
  destruct (existsb _ (roles d)); [split; assumption|].
  set (cleared := if strict_eq _ _ then _ else _).
  assert (Hids : forall rs, cleared = Some rs -> role_ids rs = role_ids (roles d)).
  { intros rs. unfold cleared. destruct (strict_eq _ _).
    - apply clearDefaultRole_ids.
    - now intros [= <-]. }
  destruct cleared as [rs|]; [|split; assumption].
  specialize (Hids rs eq_refl).
  unfold store_ok, referential_integrity, role_ids in *.
  cbn [snd set_roles users roles]. rewrite fmap_app, Hids. split.
  - apply NoDup_app. split; [exact Hnodup|]. split; [|apply NoDup_singleton].
    intros x Hx Hin. cbn in Hin. apply list_elem_of_singleton in Hin.
    subst x. exact (Hfresh Hx).
  - eapply Forall_impl; [exact Hri|].
    intros user Hin. apply elem_of_app. now left.
Qed.

Lemma delete_role_store_ok (ident : string) : keeps store_ok (delete_role ident).
Proof.
  intros d [Hnodup Hri]. unfold delete_role.
  destruct (getEntity ident (roles d)) as [[i role]|] eqn:Hfind;
    [|split; assumption].
  apply getEntity_lookup in Hfind as [Hlook _].
  destruct (truthy (role_isDefault role)) eqn:Hfalsy; [split; assumption|].
  assert (Hkept : forall user,
            user ∈ users d -> user_roleId user <> role_id role ->
            user_roleId user
            ∈ role_ids (filter (fun item => role_id item <> role_id role)
                               (roles d))).
  { intros user Hin Hne.
    pose proof (proj1 (Forall_forall _ _) Hri user Hin) as Hrole.
    apply list_elem_of_fmap in Hrole as (r & Hr & Hrin).
    apply list_elem_of_fmap. exists r. split; [exact Hr|].
    apply list_elem_of_filter. split; [congruence|exact Hrin]. }
  destruct (getDefaultRole (roles d)) as [[j def]|] eqn:Hdef.
  - split; cbn [snd users roles]; [now apply role_ids_filter_NoDup|].
    unfold referential_integrity. cbn [users roles].
    apply Forall_fmap, Forall_forall. intros user Hin. cbn.
    case_bool_decide as Href; [|now apply Hkept].
    cbn. unfold getDefaultRole in Hdef.
    apply list_find_Some in Hdef as (Hj & Htruthy & _).
    apply list_elem_of_fmap. exists def. split; [reflexivity|].
    apply list_elem_of_filter. split; [|eapply list_elem_of_lookup_2; eassumption].
    intros Hsame.
    assert (Hi' : role_ids (roles d) !! i = Some (role_id role))
      by (unfold role_ids; now rewrite list_lookup_fmap, Hlook).
    assert (Hj' : role_ids (roles d) !! j = Some (role_id role))
      by (unfold role_ids; rewrite list_lookup_fmap, Hj; cbn;
          now rewrite Hsame).
    pose proof (NoDup_lookup _ _ _ _ Hnodup Hi' Hj') as ->.
    congruence.
  - destruct (existsb _ (users d)) eqn:Hrefs; [split; assumption|].
    split; cbn [snd users roles]; [now apply role_ids_filter_NoDup|].
    unfold referential_integrity. cbn [users roles].
    apply Forall_forall. intros user Hin. apply Hkept; [exact Hin|].
    intros Href.
    assert (Hex : existsb
              (fun user => bool_decide (user_roleId user = role_id role))
              (users d) = true).
    { apply existsb_exists. exists user. split.
      - now apply list_elem_of_In.
      - now apply bool_decide_eq_true. }
    congruence.
Qed.

(** The store the server starts from meets the invariant when the seed
    does, and every completed operation keeps it. *)
Lemma perform_store_ok (cfg : serverConfig) (rawData : Data)
    (op : Operation) (d : Data) :
  store_ok rawData -> fresh_uuid op d -> store_ok d ->
  store_ok (perform cfg rawData op d).
Proof.
  intros Hseed Hfresh Hok. destruct op as [env req|]; cbn [perform].
  - apply api_invariant; [|exact Hok].
    intros b _. apply route_invariant; try exact Hok.
    + apply get_users_store_ok.
    + intros ident. apply patch_user_store_ok.
    + apply post_user_store_ok.
    + intros ident. apply delete_user_store_ok.
    + apply get_roles_store_ok.
    + intros ident. apply patch_role_store_ok.
    + intros Hmethod Hpath. apply post_role_store_ok; [|exact Hok].
      now apply Hfresh.
    + intros ident. apply delete_role_store_ok.
  - now rewrite resetData_id.
Qed.

(** C2.  Started from a seed whose role ids are distinct and whose users all
    reference a role of the seed, and with identifiers of new roles that are
    not in use, the store after any sequence of completed operations (the
    ten routes with any query and body, injected faults, resets) has
    distinct role ids and every user's [roleId] is the id of a role that is
    in the roles collection. *)
Theorem referential_integrity_invariant (cfg : serverConfig) (rawData : Data)
    (ops : list Operation) :
  NoDup (role_ids (roles rawData)) ->
  referential_integrity rawData ->
  fresh_uuids cfg rawData ops (resetData rawData) ->
  NoDup (role_ids (roles (run cfg rawData ops)))
  /\ forall user, user ∈ users (run cfg rawData ops) ->
       exists role, role ∈ roles (run cfg rawData ops)
                    /\ role_id role = user_roleId user.
Proof.
  intros Hnodup Hri Hfresh.
  assert (Hseed : store_ok rawData) by (split; assumption).
  assert (Hok : store_ok (run cfg rawData ops)).
  { unfold run. revert Hfresh.
    assert (Hstart : store_ok (resetData rawData))
      by now rewrite resetData_id.
    revert Hstart. generalize (resetData rawData) as d.
    induction ops as [|op ops IH]; intros d Hd Hfresh; [exact Hd|].
    destruct Hfresh as [Hop Hrest]. cbn [fold_left].
    apply IH; [|exact Hrest]. now apply perform_store_ok. }
  destruct Hok as [Hnodup' Hri']. split; [exact Hnodup'|].
  intros user Hin.
  pose proof (proj1 (Forall_forall _ _) Hri' user Hin) as Hrole.
  apply list_elem_of_fmap in Hrole as (role & Hid & Hrin).
  exists role. split; [exact Hrin | now symmetry].
Qed.

Lemma referential_integrity_invariant_witness :
  let cfg := Sample.config in
  let d := Sample.rawData in
  let post m path fields time ident :=
    Http (Sample.env time ident) (Sample.request m path None None fields) in
  let ops :=
    [ post POST ["roles"] [("name", VStr "Sales")] (Sample.stamp 20) "role-5";
      post POST ["users"] [("first", VStr "Sue"); ("last", VStr "Tran");
                           ("roleId", VStr "role-5")] (Sample.stamp 21) "user-17";
      post DELETE ["roles"; "role-5"] [] (Sample.stamp 22) "";
      post PATCH ["users"; Sample.mark]
           [("roleId", VStr Sample.engineering)] (Sample.stamp 23) "";
      post DELETE ["roles"; Sample.engineering] [] (Sample.stamp 24) "";
      post GET ["users"] [] (Sample.stamp 25) "";
      Reset;
      post DELETE ["roles"; "design"] [] (Sample.stamp 26) "" ] in
  NoDup (role_ids (roles d))
  /\ referential_integrity d
  /\ fresh_uuids cfg d ops (resetData d)
  /\ length (roles (run cfg d ops)) = 3%nat
  /\ forall user, user ∈ users (run cfg d ops) ->
       exists role, role ∈ roles (run cfg d ops)
                    /\ role_id role = user_roleId user.
Proof.
  intros cfg d post ops.
  assert (Hnodup : NoDup (role_ids (roles d)))
    by by_computation.
  assert (Hri : referential_integrity d)
    by by_computation.
  assert (Hfresh : fresh_uuids cfg d ops (resetData d)).
  { unfold ops, post. fresh_by_computation. }
  split; [exact Hnodup|]. split; [exact Hri|]. split; [exact Hfresh|].
  split; [vm_compute; reflexivity|].
  exact (proj2 (referential_integrity_invariant cfg d ops Hnodup Hri Hfresh)).
Defined.

(** ** Exactly one default role *)

Lemma count_defaults_cons (role : Role) (rs : list Role) :
  count_defaults (role :: rs) = (indicator role + count_defaults rs)%nat.
Proof.
  unfold count_defaults, indicator. rewrite filter_cons.
  destruct (decide (is_default role)); reflexivity.
Qed.

Lemma count_defaults_app (rs rs' : list Role) :
  count_defaults (rs ++ rs') = (count_defaults rs + count_defaults rs')%nat.
Proof. unfold count_defaults. now rewrite filter_app, length_app. Qed.

Lemma count_defaults_insert (rs : list Role) (i : nat) (role role' : Role) :
  rs !! i = Some role ->
  (count_defaults (<[i := role']> rs) + indicator role)%nat
  = (count_defaults rs + indicator role')%nat.
Proof.
  revert i. induction rs as [|r rs IH]; intros i Hlook; [discriminate|].
  destruct i as [|i]; cbn in Hlook.
  - injection Hlook as ->. cbn [insert list_insert].
    rewrite !count_defaults_cons. lia.
  - change (<[S i := role']> (r :: rs)) with (r :: <[i := role']> rs).
    rewrite !count_defaults_cons. specialize (IH i Hlook). lia.
Qed.

Lemma alter_insert {A} (f : A -> A) (l : list A) (i : nat) (x : A) :
  l !! i = Some x -> alter f i l = <[i := f x]> l.
Proof.
  revert i. induction l as [|y l IH]; intros i Hlook; [discriminate|].
  destruct i as [|i]; cbn in Hlook.
  - now injection Hlook as ->.
  - cbn. f_equal. now apply IH.
Qed.

Lemma count_defaults_alter (f : Role -> Role) (rs : list Role) (i : nat)
    (role : Role) :
  rs !! i = Some role ->
  (count_defaults (alter f i rs) + indicator role)%nat
  = (count_defaults rs + indicator (f role))%nat.
Proof.
  intros Hlook. rewrite (alter_insert _ _ _ _ Hlook).
  now apply count_defaults_insert.
Qed.

Lemma count_defaults_delete (rs : list Role) (i : nat) (role : Role) :
  rs !! i = Some role ->
  (count_defaults (delete i rs) + indicator role)%nat = count_defaults rs.
Proof.
  revert i. induction rs as [|r rs IH]; intros i Hlook; [discriminate|].
  destruct i as [|i]; cbn in Hlook.
  - injection Hlook as ->. cbn [delete list_delete].
    rewrite count_defaults_cons. lia.
  - change (delete (S i) (r :: rs)) with (r :: delete i rs).
    rewrite !count_defaults_cons. specialize (IH i Hlook). lia.
Qed.

Lemma indicator_le_count (rs : list Role) (i : nat) (role : Role) :
  rs !! i = Some role -> (indicator role <= count_defaults rs)%nat.
Proof.
  intros Hlook. pose proof (count_defaults_delete _ _ _ Hlook). lia.
Qed.

Lemma count_defaults_perm (rs rs' : list Role) :
  rs ≡ₚ rs' -> count_defaults rs = count_defaults rs'.
Proof. intros Hperm. unfold count_defaults. now rewrite Hperm. Qed.

Lemma roles_ok_same (d d' : Data) : roles d' = roles d -> roles_ok d -> roles_ok d'.
Proof. unfold roles_ok, exactly_one_default. now intros ->. Qed.

Lemma boolean_flags_alter (f : Role -> Role) (i : nat) (rs : list Role) :
  (forall role, exists flag, role_isDefault (f role) = VBool flag)
  \/ (forall role, role_isDefault (f role) = role_isDefault role) ->
  boolean_flags rs -> boolean_flags (alter f i rs).
Proof.
  intros Hf Hflags. unfold boolean_flags in *.
  apply Forall_lookup. intros k role Hk.
  rewrite list_lookup_alter in Hk.
  destruct (decide (i = k)) as [->|Hne].
  - destruct (rs !! k) as [r|] eqn:Hr; [|discriminate].
    injection Hk as <-. destruct Hf as [Hf|Hf]; [apply Hf|].
    rewrite Hf. exact (proj1 (Forall_lookup _ _) Hflags k r Hr).
  - exact (proj1 (Forall_lookup _ _) Hflags k role Hk).
Qed.

(** With boolean flags the role that [getDefaultRole] finds is a role whose
    flag is [true], and there is one as soon as the count is positive. *)
Lemma getDefaultRole_flag (rs : list Role) :
  boolean_flags rs -> (0 < count_defaults rs)%nat ->
  exists j def, getDefaultRole rs = Some (j, def) /\ is_default def.
Proof.
  intros Hflags Hcount. unfold count_defaults in Hcount.
  destruct (filter is_default rs) as [|role found] eqn:Hfound;
    [cbn in Hcount; lia|].
  assert (Hin : role ∈ filter is_default rs)
    by (rewrite Hfound; apply list_elem_of_here).
  apply list_elem_of_filter in Hin as [Hdef Hin].
  assert (Hsome : is_Some (getDefaultRole rs)).
  { unfold getDefaultRole.
    apply (list_find_elem_of _ _ role); [exact Hin|].
    unfold is_default in Hdef. now rewrite Hdef. }
  destruct Hsome as [[j def] Hsome]. exists j, def. split; [exact Hsome|].
  unfold getDefaultRole in Hsome.
  apply list_find_Some in Hsome as (Hj & Htruthy & _).
  destruct (proj1 (Forall_lookup _ _) Hflags j def Hj) as [flag Hflag].
  unfold is_default. rewrite Hflag in *. cbn in Htruthy. now subst flag.
Qed.

Lemma indicator_set_false (role : Role) :
  indicator (set_role_isDefault (VBool false) role) = 0%nat.
Proof. reflexivity. Qed.

Lemma indicator_set_true (role : Role) :
  indicator (set_role_isDefault (VBool true) role) = 1%nat.
Proof. reflexivity. Qed.

Lemma indicator_default (role : Role) : is_default role -> indicator role = 1%nat.
Proof. intros Hdef. unfold indicator. now rewrite decide_True. Qed.

Lemma clearDefaultRole_ok (rs : list Role) :
  boolean_flags rs -> count_defaults rs = 1%nat ->
  exists rs', clearDefaultRole rs = Some rs'
              /\ boolean_flags rs' /\ count_defaults rs' = 0%nat.
Proof.
  intros Hflags Hcount.
  destruct (getDefaultRole_flag rs Hflags) as (j & def & Hfind & Hdef); [lia|].
  unfold clearDefaultRole. rewrite Hfind. eexists. split; [reflexivity|].
  split.
  - apply boolean_flags_alter; [|exact Hflags].
    left. intros role. now exists false.
  - unfold getDefaultRole in Hfind.
    apply list_find_Some in Hfind as (Hj & _ & _).
    pose proof (count_defaults_alter (set_role_isDefault (VBool false))
                  _ _ _ Hj) as Hcounted.
    rewrite indicator_set_false, (indicator_default _ Hdef) in Hcounted. lia.
Qed.

(** Making the role at position [i] the default, as PATCH and POST do:
    clear the flag of the default role, then set the flag of that role. *)
Lemma make_default_ok (rs : list Role) (i : nat) :
  (i < length rs)%nat -> boolean_flags rs -> count_defaults rs = 1%nat ->
  exists rs', clearDefaultRole rs = Some rs'
    /\ boolean_flags (alter (set_role_isDefault (VBool true)) i rs')
    /\ count_defaults (alter (set_role_isDefault (VBool true)) i rs') = 1%nat.
Proof.
  intros Hi Hflags Hcount.
  destruct (clearDefaultRole_ok rs Hflags Hcount) as (rs' & Hclear & Hflags' & Hzero).
  exists rs'. split; [exact Hclear|]. split.
  - apply boolean_flags_alter; [|exact Hflags'].
    left. intros role. now exists true.
  - assert (Hlen : length rs' = length rs).
    { apply clearDefaultRole_ids in Hclear. unfold role_ids in Hclear.
      apply (f_equal length) in Hclear. now rewrite !length_fmap in Hclear. }
    destruct (lookup_lt_is_Some_2 rs' i) as [role Hrole]; [lia|].
    pose proof (count_defaults_alter (set_role_isDefault (VBool true))
                  _ _ _ Hrole) as Hcounted.
    pose proof (indicator_le_count _ _ _ Hrole).
    rewrite indicator_set_true in Hcounted. lia.
Qed.

Lemma indicator_same (role role' : Role) :
  role_isDefault role' = role_isDefault role -> indicator role' = indicator role.
Proof.
  intros Hsame. unfold indicator.
  destruct (decide (is_default role')) as [Hd'|Hd'];
    destruct (decide (is_default role)) as [Hd|Hd];
    unfold is_default in *; congruence.
Qed.

Lemma count_defaults_alter_same (f : Role -> Role) (i : nat) (rs : list Role) :
  (forall role, role_isDefault (f role) = role_isDefault role) ->
  count_defaults (alter f i rs) = count_defaults rs.
Proof.
  intros Hf. revert i. induction rs as [|r rs IH]; intros i; [reflexivity|].
  destruct i as [|i].
  - change (alter f 0%nat (r :: rs)) with (f r :: rs).
    rewrite !count_defaults_cons. now rewrite (indicator_same r (f r)).
  - change (alter f (S i) (r :: rs)) with (r :: alter f i rs).
    rewrite !count_defaults_cons. now rewrite IH.
Qed.

Lemma defaults_ok_alter_same (f : Role -> Role) (i : nat) (rs : list Role) :
  (forall role, role_isDefault (f role) = role_isDefault role) ->
  defaults_ok rs -> defaults_ok (alter f i rs).
Proof.
  intros Hf [Hflags Hcount]. split.
  - apply boolean_flags_alter; [now right | exact Hflags].
  - now rewrite count_defaults_alter_same.
Qed.

Lemma defaults_ok_insert_same (i : nat) (role role' : Role) (rs : list Role) :
  rs !! i = Some role -> role_isDefault role' = role_isDefault role ->
  defaults_ok rs -> defaults_ok (<[i := role']> rs).
Proof.
  intros Hlook Hsame [Hflags Hcount]. split.
  - apply Forall_insert; [exact Hflags|]. rewrite Hsame.
    exact (proj1 (Forall_lookup _ _) Hflags i role Hlook).
  - pose proof (count_defaults_insert rs i role role' Hlook) as Hcounted.
    rewrite (indicator_same role role' Hsame) in Hcounted. lia.
Qed.

Lemma updateField_name_isDefault (role : Role) (value : jsval) :
  role_isDefault (fst (updateField role "name" value)) = role_isDefault role.
Proof. unfold updateField. destruct (_ && _); reflexivity. Qed.

Lemma updateField_description_isDefault (role : Role) (value : jsval) :
  role_isDefault (fst (updateField role "description" value))
  = role_isDefault role.
Proof. unfold updateField. destruct (_ && _); reflexivity. Qed.

Lemma patch_role_roles_ok (env : Env) (ident : string) (b : Body) :
  keeps roles_ok (patch_role env ident b).
Proof.
  intros d (Hnodup & Hflags & Hcount).
  destruct (patch_role_ids env ident b d) as [Hids _].
  split; [now rewrite Hids|]. clear Hids Hnodup.
  change (defaults_ok (roles (snd (patch_role env ident b d)))).
  assert (Hok : defaults_ok (roles d)) by (split; assumption).
  unfold patch_role.
  destruct (getEntity ident (roles d)) as [[i role]|] eqn:Hfind; [|exact Hok].
  apply getEntity_lookup in Hfind as [Hlook _].
  destruct (existsb _ (roles d)); [exact Hok|].
  pose proof (updateField_name_isDefault role (body_field b "name")) as H1.
  destruct (updateField role "name" _) as [role1 changed1].
  pose proof (updateField_description_isDefault role1
                (body_field b "description")) as H2.
  destruct (updateField role1 "description" _) as [role2 changed2].
  cbn [fst] in H1, H2.
  assert (Hok1 : defaults_ok (<[i := role2]> (roles d)))
    by (eapply defaults_ok_insert_same; [exact Hlook | congruence | exact Hok]).
  assert (Hstamp : forall rs (c : bool), defaults_ok rs ->
            defaults_ok (if c then alter (set_role_updatedAt (now env)) i rs
                         else rs)).
  { intros rs [|] Hrs; [|exact Hrs].
    apply defaults_ok_alter_same; [reflexivity | exact Hrs]. }
  destruct (negb (strict_eq (body_field b "isDefault") (role_isDefault role2)));
    [|now apply Hstamp].
  destruct (strict_eq (body_field b "isDefault") (VBool false)); [exact Hok1|].
  destruct (strict_eq (body_field b "isDefault") (VBool true));
    [|now apply Hstamp].
  destruct Hok1 as [Hflags1 Hcount1].
  destruct (make_default_ok (<[i := role2]> (roles d)) i)
    as (rs' & Hclear & Hflags' & Hcount'); try assumption.
  { rewrite length_insert. now apply lookup_lt_Some in Hlook. }
  rewrite Hclear. cbn [snd roles set_roles].
  apply defaults_ok_alter_same; [reflexivity|]. split; assumption.
Qed.

Lemma get_roles_roles_ok (cfg : serverConfig) (q : Query) :
  keeps roles_ok (get_roles cfg q).
Proof.
  intros d (Hnodup & Hflags & Hcount). unfold get_roles.
  destruct (getPagedData _ q (roles d) _) as [[page rs]|] eqn:Hpage;
    [|repeat split; assumption].
  apply getPagedData_store in Hpage.
  unfold roles_ok, exactly_one_default, boolean_flags, role_ids.
  cbn [snd set_roles roles].
  split; [now rewrite Hpage|]. split; [now rewrite Hpage|].
  now rewrite (count_defaults_perm _ _ Hpage).
Qed.

Lemma post_role_roles_ok (env : Env) (b : Body) (d : Data) :
  uuid env ∉ role_ids (roles d) ->
  (body_field b "isDefault" = VUndefined
   \/ exists flag, body_field b "isDefault" = VBool flag) ->
  roles_ok d -> roles_ok (snd (post_role env b d)).
Proof.
  intros Hfresh Hbody (Hnodup & Hflags & Hcount).
  assert (Hkeep : roles_ok d) by (repeat split; assumption).
  unfold post_role.
  destruct (negb (truthy _)); [exact Hkeep|].
  destruct (existsb _ (roles d)); [exact Hkeep|].
  assert (Hflag : exists flag,
            match body_field b "isDefault" with
            | VUndefined => VBool false
            | v => v
            end = VBool flag).
  { destruct Hbody as [->|[flag ->]]; [now exists false | now exists flag]. }
  destruct Hflag as [flag ->].
  assert (Hadd : forall rs, role_ids rs = role_ids (roles d) ->
            NoDup (role_ids (rs ++ [mkRole (uuid env) (now env) (now env)
                                      (body_field b "name")
                                      match body_field b "description" with
                                      | VUndefined => VStr ""
                                      | v => v
                                      end (VBool flag)]))).
  { intros rs Hids. unfold role_ids in *. rewrite fmap_app, Hids.
    apply NoDup_app. split; [exact Hnodup|]. split; [|apply NoDup_singleton].
    intros x Hx Hin. cbn in Hin. apply list_elem_of_singleton in Hin.
    subst x. exact (Hfresh Hx). }
  destruct flag; unfold strict_eq; cbn [bool_decide decide_rel].
  - rewrite bool_decide_eq_true_2 by reflexivity.
    destruct (clearDefaultRole_ok _ Hflags Hcount)
      as (rs' & Hclear & Hflags' & Hzero).
    rewrite Hclear. cbn [snd roles set_roles].
    split; [apply Hadd; now apply clearDefaultRole_ids|]. split.
    + apply Forall_app. split; [exact Hflags'|].
      apply Forall_singleton. now exists true.
    + unfold exactly_one_default. cbn [roles set_roles].
      rewrite count_defaults_app, Hzero. reflexivity.
  - rewrite bool_decide_eq_false_2 by discriminate.
    cbn [snd roles set_roles].
    split; [now apply Hadd|]. split.
    + apply Forall_app. split; [exact Hflags|].
      apply Forall_singleton. now exists false.
    + unfold exactly_one_default. cbn [roles set_roles].
      rewrite count_defaults_app, Hcount. reflexivity.
Qed.

Lemma delete_role_roles_ok (ident : string) : keeps roles_ok (delete_role ident).
Proof.
  intros d (Hnodup & Hflags & Hcount).
  assert (Hkeep : roles_ok d) by (repeat split; assumption).
  unfold delete_role.
  destruct (getEntity ident (roles d)) as [[i role]|] eqn:Hfind; [|exact Hkeep].
  apply getEntity_lookup in Hfind as [Hlook _].
  destruct (truthy (role_isDefault role)) eqn:Hfalsy; [exact Hkeep|].
  assert (Hgone : roles_ok
            (mkData (users d)
               (filter (fun item => role_id item <> role_id role) (roles d)))).
  { split; [now apply role_ids_filter_NoDup|].
    unfold exactly_one_default. cbn [roles].
    rewrite (filter_id_delete _ _ _ Hnodup Hlook). split.
    - now apply Forall_delete.
    - pose proof (count_defaults_delete _ _ _ Hlook) as Hcounted.
      assert (Hzero : indicator role = 0%nat).
      { unfold indicator. apply decide_False. unfold is_default.
        intros Htrue. rewrite Htrue in Hfalsy. discriminate. }
      unfold exactly_one_default in Hcount. lia. }
  destruct (getDefaultRole (roles d)) as [[j def]|].
  - eapply roles_ok_same; [|exact Hgone]. reflexivity.
  - destruct (existsb _ (users d)); [exact Hkeep|].
    eapply roles_ok_same; [|exact Hgone]. reflexivity.
Qed.

Lemma get_users_roles (cfg : serverConfig) (q : Query) (d : Data) :
  roles (snd (get_users cfg q d)) = roles d.
Proof.
  unfold get_users.
  destruct (getPagedData _ q (users d) _) as [[page us]|]; reflexivity.
Qed.

Lemma patch_user_roles (env : Env) (ident : string) (b : Body) (d : Data) :
  roles (snd (patch_user env ident b d)) = roles d.
Proof.
  unfold patch_user.
  destruct (getEntity ident (users d)) as [[i user]|]; [|reflexivity].
  destruct (updateField user "first" _) as [user1 changed1].
  destruct (updateField user1 "last" _) as [user2 changed2].
  destruct (truthy (body_field b "roleId")); [|reflexivity].
  destruct (list_find _ (roles d)) as [[j role]|]; reflexivity.
Qed.

Lemma post_user_roles (env : Env) (b : Body) (d : Data) :
  roles (snd (post_user env b d)) = roles d.
Proof.
  unfold post_user. destruct (negb _); [reflexivity|].
  destruct (list_find _ (roles d)) as [[j role]|]; reflexivity.
Qed.

Lemma delete_user_roles (ident : string) (d : Data) :
  roles (snd (delete_user ident d)) = roles d.
Proof.
  unfold delete_user.
  destruct (getEntity ident (users d)) as [[i user]|]; reflexivity.
Qed.

Lemma perform_roles_ok (cfg : serverConfig) (rawData : Data)
    (op : Operation) (d : Data) :
  roles_ok rawData -> fresh_uuid op d -> boolean_isDefault op -> roles_ok d ->
  roles_ok (perform cfg rawData op d).
Proof.
  intros Hseed Hfresh Hbody Hok. destruct op as [env req|]; cbn [perform].
  - apply api_invariant; [|exact Hok].
    intros b Hb. apply route_invariant; try exact Hok.
    + intros d' Hd'. eapply roles_ok_same; [apply get_users_roles|exact Hd'].
    + intros ident d' Hd'.
      eapply roles_ok_same; [apply patch_user_roles|exact Hd'].
    + intros d' Hd'. eapply roles_ok_same; [apply post_user_roles|exact Hd'].
    + intros ident d' Hd'.
      eapply roles_ok_same; [apply delete_user_roles|exact Hd'].
    + apply get_roles_roles_ok.
    + intros ident. apply patch_role_roles_ok.
    + intros Hmethod Hpath. apply post_role_roles_ok; [| |exact Hok].
      * now apply Hfresh.
      * now apply (Hbody Hmethod Hpath b).
    + intros ident. apply delete_role_roles_ok.
  - now rewrite resetData_id.
Qed.

(** The condition on the bodies is asked of a POST /roles however its path
    is written: the body with the number 1 for [isDefault] is stored by
    POST /ROLES as by POST /roles, and does not meet the condition. *)
Lemma boolean_isDefault_any_case :
  let env := Sample.env (Sample.stamp 20) "role-5" in
  let op :=
    Http env (Sample.request POST ["ROLES"] None None
                [("name", VStr "Sales"); ("isDefault", VNum 1)]) in
  ~ boolean_isDefault op
  /\ role_isDefault <$> roles (perform Sample.config Sample.rawData op
                                       Sample.rawData)
     = [VBool false; VBool true; VBool false; VBool false; VNum 1].
Proof.
  intros env op. split; [|vm_compute; reflexivity].
  intros Hbody.
  destruct (Hbody eq_refl eq_refl _ eq_refl) as [Hundef|[flag Hflag]];
    vm_compute in Hundef || vm_compute in Hflag; discriminate.
Qed.

(** C1, as the code has it.  Started from a seed with distinct role ids,
    boolean [isDefault] flags and exactly one default role, with identifiers
    of new roles that are not in use and with POST /roles bodies whose
    [isDefault] is absent or a boolean, the store after any sequence of
    completed operations has exactly one role whose [isDefault] is [true]. *)
Theorem exactly_one_default_invariant (cfg : serverConfig) (rawData : Data)
    (ops : list Operation) :
  NoDup (role_ids (roles rawData)) ->
  boolean_flags (roles rawData) ->
  exactly_one_default rawData ->
  fresh_uuids cfg rawData ops (resetData rawData) ->
  Forall boolean_isDefault ops ->
  exactly_one_default (run cfg rawData ops).
Proof.
  intros Hnodup Hflags Hone Hfresh Hbodies.
  assert (Hseed : roles_ok rawData) by (repeat split; assumption).
  assert (Hok : roles_ok (run cfg rawData ops)).
  { unfold run. revert Hfresh.
    assert (Hstart : roles_ok (resetData rawData))
      by now rewrite resetData_id.
    revert Hstart. generalize (resetData rawData) as d.
    induction Hbodies as [|op ops Hop _ IH]; intros d Hd Hfresh; [exact Hd|].
    destruct Hfresh as [Hfirst Hrest]. cbn [fold_left].
    apply IH; [|exact Hrest]. now apply perform_roles_ok. }
  exact (proj2 (proj2 Hok)).
Qed.

Lemma exactly_one_default_invariant_witness :
  let cfg := Sample.config in
  let d := Sample.rawData in
  let http m path fields time ident :=
    Http (Sample.env time ident) (Sample.request m path None None fields) in
  let ops :=
    [ http POST ["roles"] [("name", VStr "Sales"); ("isDefault", VBool true)]
           (Sample.stamp 20) "role-5";
      http POST ["roles"] [("name", VStr "Legal")] (Sample.stamp 21) "role-6";
      http PATCH ["roles"; Sample.engineering] [("isDefault", VBool true)]
           (Sample.stamp 22) "";
      http PATCH ["roles"; Sample.engineering] [("isDefault", VBool false)]
           (Sample.stamp 23) "";
      http GET ["roles"] [] (Sample.stamp 24) "";
      http DELETE ["roles"; "role-5"] [] (Sample.stamp 25) "";
      http DELETE ["roles"; Sample.engineering] [] (Sample.stamp 26) "" ] in
  NoDup (role_ids (roles d))
  /\ boolean_flags (roles d)
  /\ exactly_one_default d
  /\ fresh_uuids cfg d ops (resetData d)
  /\ Forall boolean_isDefault ops
  /\ length (roles (run cfg d ops)) = 5%nat
  /\ exactly_one_default (run cfg d ops).
Proof.
  intros cfg d http ops.
  assert (Hnodup : NoDup (role_ids (roles d)))
    by by_computation.
  assert (Hflags : boolean_flags (roles d))
    by (repeat constructor; eexists; reflexivity).
  assert (Hone : exactly_one_default d) by (vm_compute; reflexivity).
  assert (Hfresh : fresh_uuids cfg d ops (resetData d)).
  { unfold ops, http. fresh_by_computation. }
  assert (Hbodies : Forall boolean_isDefault ops).
  { unfold ops.
    repeat (apply List.Forall_cons; [|]); try apply List.Forall_nil;
      intros Hmethod Hpath b Hb; cbn in Hmethod, Hpath;
      first [ discriminate Hmethod | discriminate Hpath
            | cbn in Hb; injection Hb as <-;
              first [ left; vm_compute; reflexivity
                    | right; eexists; vm_compute; reflexivity ] ]. }
  split; [exact Hnodup|]. split; [exact Hflags|]. split; [exact Hone|].
  split; [exact Hfresh|]. split; [exact Hbodies|].
  split; [vm_compute; reflexivity|].
  exact (exactly_one_default_invariant cfg d ops
           Hnodup Hflags Hone Hfresh Hbodies).
Defined.

(** C1 as it is worded fails: the body of a POST /roles may carry an
    [isDefault] that is truthy without being [true] (here the number 1),
    which is stored as it is; [getDefaultRole] then takes that role for the
    default, [clearDefaultRole] clears its flag in place of the flag of the
    default role, and two roles end up with [isDefault] equal to [true]. *)
Lemma exactly_one_default_broken_by_truthy_flag :
  let cfg := Sample.config in
  let d := Sample.rawData in
  let http m path fields time ident :=
    Http (Sample.env time ident) (Sample.request m path None None fields) in
  let ops :=
    [ http POST ["roles"] [("name", VStr "Sales"); ("isDefault", VNum 1)]
           (Sample.stamp 20) "role-5";
      http POST ["roles"] [("name", VStr "Legal"); ("isDefault", VBool true)]
           (Sample.stamp 21) "role-6";
      http PATCH ["roles"; Sample.engineering] [("isDefault", VBool true)]
           (Sample.stamp 22) "" ] in
  NoDup (role_ids (roles d))
  /\ boolean_flags (roles d)
  /\ exactly_one_default d
  /\ fresh_uuids cfg d ops (resetData d)
  /\ role_isDefault <$> roles (run cfg d ops)
     = [VBool true; VBool false; VBool false; VBool false; VBool false;
        VBool true]
  /\ count_defaults (roles (run cfg d ops)) = 2%nat
  /\ ~ exactly_one_default (run cfg d ops).
Proof.
  intros cfg d http ops.
  split; [by_computation|].
  split; [repeat constructor; eexists; reflexivity|].
  split; [vm_compute; reflexivity|].
  split.
  { unfold ops, http. fresh_by_computation. }
  split; [vm_compute; reflexivity|].
  split; [vm_compute; reflexivity|].
  unfold exactly_one_default.
  replace (count_defaults (roles (run cfg d ops))) with 2%nat
    by (vm_compute; reflexivity).
  discriminate.
Qed.

(** ** Search *)

Lemma search_item_defined {T} `{Entity T} (item : T) (fields : list string)
    (term : string) :
  (forall field, field ∈ fields -> is_Some (toString (get_field item field))) ->
  exists keep, search_item item fields (toLowerCase term) = Some keep
               /\ (keep = true <-> matches item fields term).
Proof.
  induction fields as [|field fields IH]; intros Hdefined.
  - exists false. split; [reflexivity|]. split; [discriminate|].
    intros (field & text & Hin & _). now apply elem_of_nil in Hin.
  - cbn [search_item].
    destruct (Hdefined field) as [text Htext]; [apply list_elem_of_here|].
    rewrite Htext.
    destruct (includes (toLowerCase text) (toLowerCase term)) eqn:Hinc.
    + exists true. split; [reflexivity|]. split; [|reflexivity].
      intros _. exists field, text.
      split; [apply list_elem_of_here|]. split; [exact Htext|].
      now apply includes_spec.
    + destruct IH as (keep & Hkeep & Hiff).
      { intros f Hf. apply Hdefined. now apply list_elem_of_further. }
      exists keep. split; [exact Hkeep|]. rewrite Hiff. split.
      * intros (f & t & Hf & Ht & Hsub). exists f, t.
        split; [now apply list_elem_of_further|]. split; assumption.
      * intros (f & t & Hf & Ht & Hsub).
        apply elem_of_cons in Hf as [->|Hf].
        -- rewrite Htext in Ht. injection Ht as <-.
           apply includes_spec in Hsub. congruence.
        -- exists f, t. repeat split; assumption.
Qed.

Lemma filter_search_defined {T} `{Entity T} (l : list T) (fields : list string)
    (term : string) :
  defined_fields l fields ->
  exists found,
    filter_search l fields (toLowerCase term) = Some found
    /\ sublist found l
    /\ forall item, item ∈ found <-> item ∈ l /\ matches item fields term.
Proof.
  induction l as [|x l IH]; intros Hdefined.
  - exists []. split; [reflexivity|]. split; [constructor|].
    intros item. split; [intros Hin; now apply elem_of_nil in Hin|].
    intros [Hin _]. exact Hin.
  - destruct (search_item_defined x fields term) as (keep & Hkeep & Hiff).
    { intros field Hfield. apply Hdefined; [apply list_elem_of_here|exact Hfield]. }
    destruct IH as (found & Hfound & Hsub & Hspec).
    { intros item field Hitem. apply Hdefined. now apply list_elem_of_further. }
    cbn [filter_search]. rewrite Hkeep, Hfound.
    eexists. split; [reflexivity|].
    destruct keep.
    + split; [now constructor|]. intros item.
      rewrite !elem_of_cons, Hspec. split.
      * intros [->|[Hin Hm]]; [|tauto]. split; [now left|now apply Hiff].
      * intros [[->|Hin] Hm]; [now left|tauto].
    + split; [now constructor|]. intros item.
      rewrite elem_of_cons, Hspec. split; [tauto|].
      intros [[->|Hin] Hm]; [|tauto].
      apply Hiff in Hm. discriminate.
Qed.

Lemma slice_nil {T} (start stop : Z) : slice (@nil T) start stop = [].
Proof. unfold slice. now rewrite drop_nil, take_nil. Qed.

Lemma getPagedData_search {T} `{Entity T} (size : Z) (q : Query) (l : list T)
    (fields : list string) :
  term_or_absent q ->
  defined_fields l fields ->
  exists found page l',
    getPagedData size q l fields = Some (page, l')
    /\ filtered_set q l fields found
    /\ envelope_of size q found page.
Proof.
  intros Hterm Hdefined. unfold term_or_absent in Hterm.
  unfold getPagedData, filtered_set.
  assert (Henv : forall found,
    envelope_of size q found
      (mkPagedData
         (slice (sort sortBy found) ((page_of q - 1) * size) (page_of q * size))
         (if (page_of q <? ceil_div (Z.of_nat (length (sort sortBy found))) size)%Z
          then Some (page_of q + 1)%Z else None)
         (if (1 <? page_of q)%Z then Some (page_of q - 1)%Z else None)
         (ceil_div (Z.of_nat (length (sort sortBy found))) size))).
  { intros found. unfold envelope_of. cbn.
    rewrite sort_length. split; [reflexivity|]. split; [reflexivity|].
    intros ->. cbn. split; [apply slice_nil|reflexivity]. }
  destruct (query_search q) as [[term|]|]; [|congruence|]; cbn [given].
  - destruct (decide (term = "")) as [->|Hne].
    + cbn. exists l. eexists. eexists. split; [reflexivity|].
      split; [reflexivity|]. apply (Henv l).
    + assert (String.eqb term "" = false) as -> by now apply String.eqb_neq.
      cbn [negb]. unfold fullTextSearch.
      destruct (filter_search_defined l fields term Hdefined)
        as (found & -> & Hsub & Hspec).
      exists found. eexists. eexists. split; [reflexivity|].
      split; [split; assumption|]. apply (Henv found).
  - cbn. exists l. eexists. eexists. split; [reflexivity|].
    split; [reflexivity|]. apply (Henv l).
Qed.





(** ** Search on an item with an undefined field *)

Lemma search_item_throws {T} `{Entity T} (item : T)
    (before after : list string) (field term : string) :
  toString (get_field item field) = None ->
  (forall f text, f ∈ before -> toString (get_field item f) = Some text ->
                  ~ substring_of term (toLowerCase text)) ->
  search_item item (before ++ field :: after) term = None.
Proof.
  intros Hnone. induction before as [|f before IH]; intros Hmiss.
  - cbn. now rewrite Hnone.
  - cbn [app search_item].
    destruct (toString (get_field item f)) as [text|] eqn:Htext; [|reflexivity].
    destruct (includes (toLowerCase text) term) eqn:Hinc.
    + exfalso. apply (Hmiss f text); [apply list_elem_of_here|exact Htext|].
      now apply includes_spec.
    + apply IH. intros f' text' Hin. apply Hmiss. now apply list_elem_of_further.
Qed.

Lemma filter_search_throws {T} `{Entity T} (l : list T) (fields : list string)
    (item : T) (term : string) :
  item ∈ l -> search_item item fields term = None ->
  filter_search l fields term = None.
Proof.
  intros Hin Hnone. induction l as [|x l IH]; [now apply elem_of_nil in Hin|].
  cbn [filter_search]. apply elem_of_cons in Hin as [<-|Hin].
  - now rewrite Hnone.
  - destruct (search_item x fields term); [|reflexivity].
    now rewrite (IH Hin).
Qed.

(** An earlier field that contains the term answers for the item: the
    fields after it are not read. *)
Lemma search_item_earlier_match {T} `{Entity T} (item : T)
    (field : string) (fields : list string) (term text : string) :
  toString (get_field item field) = Some text ->
  substring_of term (toLowerCase text) ->
  search_item item (field :: fields) term = Some true.
Proof.
  intros Htext Hsub. cbn [search_item]. rewrite Htext.
  apply includes_spec in Hsub. now rewrite Hsub.
Qed.

(** C10, as the code has it.  [fullTextSearch] calls [toString()] on the
    declared fields of an item in their order, without a presence check,
    until one contains the term.  When the collection has an item with an
    undefined (or null) declared field and no declared field before it, on
    that item, contains the term, the search throws: [fullTextSearch] has no
    result, and neither has a listing with that term when it is not
    empty. *)
Theorem search_throws_on_undefined_field {T} `{Entity T} (l : list T)
    (before after : list string) (field : string) (item : T) (term : string) :
  item ∈ l ->
  get_field item field = VUndefined \/ get_field item field = VNull ->
  (forall f text, f ∈ before -> toString (get_field item f) = Some text ->
                  ~ substring_of (toLowerCase term) (toLowerCase text)) ->
  fullTextSearch l (before ++ field :: after) term = None
  /\ (term <> "" ->
      forall (size : Z) (page : option number),
        getPagedData size (mkQuery (Some (Str term)) page) l
                     (before ++ field :: after) = None).
Proof.
  intros Hin Hundefined Hmiss.
  assert (Hthrows : fullTextSearch l (before ++ field :: after) term = None).
  { unfold fullTextSearch. apply (filter_search_throws _ _ item); [exact Hin|].
    apply search_item_throws; [|exact Hmiss].
    destruct Hundefined as [-> | ->]; reflexivity. }
  split; [exact Hthrows|].
  intros Hterm size page. unfold getPagedData. cbn [query_search given].
  apply String.eqb_neq in Hterm. rewrite Hterm. cbn [negb].
  now rewrite Hthrows.
Qed.

Lemma search_throws_on_undefined_field_witness :
  let bare :=
    mkRole "role-5" (Sample.stamp 20) (Sample.stamp 20) (VStr "Sales")
           VUndefined (VBool false) in
  let l := (Sample.sample_roles ++ [bare])%list in
  bare ∈ l
  /\ (get_field bare "description" = VUndefined
      \/ get_field bare "description" = VNull)
  /\ fullTextSearch l searchFields.roles "zzz" = None
  /\ get_roles Sample.config (mkQuery (Some (Str "zzz")) None)
               (mkData Sample.sample_users l)
     = (uncaught, mkData Sample.sample_users l).
Proof.
  intros bare l.
  assert (Hin : bare ∈ l)
    by (apply elem_of_app; right; apply list_elem_of_here).
  assert (Hundefined : get_field bare "description" = VUndefined
                       \/ get_field bare "description" = VNull)
    by (left; reflexivity).
  assert (Hmiss : forall f text, f ∈ ["name"] ->
            toString (get_field bare f) = Some text ->
            ~ substring_of (toLowerCase "zzz") (toLowerCase text)).
  { intros f text Hf Htext Hsub.
    apply list_elem_of_singleton in Hf. subst f.
    injection Htext as <-. apply includes_spec in Hsub.
    vm_compute in Hsub. discriminate Hsub. }
  destruct (search_throws_on_undefined_field l ["name"] [] "description"
              bare "zzz" Hin Hundefined Hmiss) as [Hthrows Hpaged].
  split; [exact Hin|]. split; [exact Hundefined|]. split; [exact Hthrows|].
  unfold get_roles. cbn [roles pageSize].
  rewrite (Hpaged ltac:(discriminate)). reflexivity.
Defined.

(** C10 as it is worded fails when an earlier declared field contains the
    term: the role below has no description, the search for "sal" finds it
    through its name and nothing is thrown. *)
Lemma search_reads_no_field_after_a_match :
  let bare :=
    mkRole "role-5" (Sample.stamp 20) (Sample.stamp 20) (VStr "Sales")
           VUndefined (VBool false) in
  let l := (Sample.sample_roles ++ [bare])%list in
  bare ∈ l
  /\ get_field bare "description" = VUndefined
  /\ fullTextSearch l searchFields.roles "sal" = Some [bare]
  /\ get_roles Sample.config (mkQuery (Some (Str "sal")) None)
               (mkData Sample.sample_users l)
     = (json (PRoles (mkPagedData [bare] None None 1%Z)),
        mkData Sample.sample_users l).
Proof.
  intros bare l.
  split; [apply elem_of_app; right; apply list_elem_of_here|].
  repeat split; vm_compute; reflexivity.
Qed.

(** ** Pagination *)

Lemma ceil_div_spec (n d : Z) :
  (0 < d)%Z -> ((ceil_div n d - 1) * d < n <= ceil_div n d * d)%Z.
Proof.
  intros Hd. unfold ceil_div.
  pose proof (Z.div_mod (- n) d ltac:(lia)) as Hdiv.
  pose proof (Z.mod_pos_bound (- n) d Hd) as Hmod.
  nia.
Qed.

Lemma slice_index_range (len i : Z) :
  (0 <= len)%Z -> (0 <= slice_index len i <= len)%Z.
Proof. intros Hlen. unfold slice_index. destruct (Z.ltb_spec i 0); lia. Qed.

Lemma slice_length {T} (l : list T) (start stop : Z) :
  Z.of_nat (length (slice l start stop))
  = Z.max 0 (slice_index (Z.of_nat (length l)) stop
             - slice_index (Z.of_nat (length l)) start).
Proof.
  unfold slice. rewrite length_take, length_drop.
  pose proof (slice_index_range (Z.of_nat (length l)) start ltac:(lia)).
  pose proof (slice_index_range (Z.of_nat (length l)) stop ltac:(lia)).
  lia.
Qed.

(** The envelope in terms of the filtered set [found]. *)
Lemma getPagedData_envelope {T} `{Entity T} (size : Z) (q : Query)
    (l l' : list T) (fields : list string) (page : PagedData T) :
  getPagedData size q l fields = Some (page, l') ->
  exists found,
    (match query_search q with
     | Some (Str term) =>
         if String.eqb term "" then found = l
         else fullTextSearch l fields term = Some found
     | Some Composite => False
     | None => found = l
     end)
    /\ data page = slice (sort sortBy found)
                         ((page_of q - 1) * size) (page_of q * size)
    /\ pages page = ceil_div (Z.of_nat (length found)) size
    /\ next page = (if (page_of q <? pages page)%Z
                    then Some (page_of q + 1)%Z else None)
    /\ prev page = (if (1 <? page_of q)%Z
                    then Some (page_of q - 1)%Z else None).
Proof.
  unfold getPagedData.
  destruct (query_search q) as [[term|]|]; cbn [given]; [| discriminate |].
  - destruct (String.eqb term "") eqn:Hterm; cbn [negb].
    + intros [= <- _]. exists l. cbn. rewrite sort_length. repeat split.
    + destruct (fullTextSearch l fields term) as [found|]; [|discriminate].
      intros [= <- _]. exists found. cbn. rewrite sort_length. repeat split.
  - cbn. intros [= <- _]. exists l. cbn. rewrite sort_length. repeat split.
Qed.

(** For a page size of at least 1: [pages] is the ceiling of the quotient;
    no page is longer than the page size; the pages from 1 up to the last
    but one are full; and a page beyond the last is empty. *)
Lemma envelope_bounds {T} `{Entity T} (size : Z) (q : Query) (found : list T)
    (page : PagedData T) :
  (0 < size)%Z ->
  data page = slice (sort sortBy found)
                    ((page_of q - 1) * size) (page_of q * size) ->
  pages page = ceil_div (Z.of_nat (length found)) size ->
  ((pages page - 1) * size < Z.of_nat (length found) <= pages page * size)%Z
  /\ (Z.of_nat (length (data page)) <= size)%Z
  /\ ((1 <= page_of q < pages page)%Z ->
      Z.of_nat (length (data page)) = size)
  /\ ((pages page < page_of q)%Z -> data page = []).
Proof.
  intros Hsize Hdata Hpages.
  pose proof (ceil_div_spec (Z.of_nat (length found)) size Hsize) as Hceil.
  rewrite <- Hpages in Hceil. split; [exact Hceil|].
  pose proof (slice_length (sort sortBy found)
                ((page_of q - 1) * size) (page_of q * size)) as Hlen.
  rewrite <- Hdata, sort_length in Hlen.
  set (n := Z.of_nat (length found)) in *.
  set (p := page_of q) in *.
  assert (Hstep : (p * size = (p - 1) * size + size)%Z) by ring.
  unfold slice_index in Hlen. rewrite Hstep in Hlen.
  split; [|split].
  - destruct ((p - 1) * size <? 0)%Z eqn:Ha;
      destruct ((p - 1) * size + size <? 0)%Z eqn:Hb; lia.
  - intros [Hlow Hhigh].
    assert ((0 <= (p - 1) * size)%Z) by nia.
    assert (((p - 1) * size + size <= (pages page - 1) * size)%Z) by nia.
    destruct ((p - 1) * size <? 0)%Z eqn:Ha;
      destruct ((p - 1) * size + size <? 0)%Z eqn:Hb; lia.
  - intros Hbeyond.
    assert ((pages page * size <= (p - 1) * size)%Z) by nia.
    assert (Hzero : length (data page) = 0%nat).
    { destruct ((p - 1) * size <? 0)%Z eqn:Ha;
        destruct ((p - 1) * size + size <? 0)%Z eqn:Hb; lia. }
    now apply nil_length_inv.
Qed.

(** C3.  A negative page number is kept by [+(req.query.page || 1) || 1]
    and reaches [slice] as a pair of negative indices, which count from the
    end of the array: on sixteen users with a page size of 10, page -1 is
    outside the pages 1 and 2 and is answered with six users, and with 0
    for the next page. *)
Theorem negative_page_is_not_empty :
  let q := mkQuery None (Some (Num (-1))) in
  exists page,
    get_users Sample.config q Sample.rawData
    = (json (PUsers page), Sample.rawData)
    /\ length (users Sample.rawData) = 16%nat
    /\ pageSize Sample.config = 10%Z
    /\ page_of q = (-1)%Z
    /\ pages page = 2%Z
    /\ length (data page) = 6%nat
    /\ data page = take 6 (users Sample.rawData)
    /\ next page = Some 0%Z
    /\ prev page = None.
Proof.
  intros q. eexists. split; [vm_compute; reflexivity|].
  repeat split; vm_compute; reflexivity.
Qed.

(** ** Listings and the store *)

(** The array that was passed to [getPagedData], after the call: untouched
    when there is a search term, sorted when there is none. *)
Lemma getPagedData_array {T} `{Entity T} (size : Z) (q : Query)
    (l l' : list T) (fields : list string) (page : PagedData T) :
  getPagedData size q l fields = Some (page, l') ->
  l' = if given (query_search q) then l else sort sortBy l.
Proof.
  unfold getPagedData.
  destruct (query_search q) as [[term|]|]; cbn [given]; [| discriminate |].
  - destruct (String.eqb term ""); cbn [negb].
    + now intros [= _ <-].
    + destruct (fullTextSearch l fields term); [|discriminate].
      now intros [= _ <-].
  - cbn. now intros [= _ <-].
Qed.

(** With a non-empty search term the listing leaves the store as it was. *)
Lemma get_users_search_pure (cfg : serverConfig) (q : Query) (d : Data)
    (term : string) :
  query_search q = Some (Str term) -> term <> "" ->
  snd (get_users cfg q d) = d.
Proof.
  intros Hq Hterm. unfold get_users, getPagedData. rewrite Hq.
  cbn [given].
  apply String.eqb_neq in Hterm. rewrite Hterm. cbn [negb].
  destruct (fullTextSearch _ _ _); [|reflexivity].
  cbn. now destruct d.
Qed.

(** Without one it leaves the array of the store sorted, newest first. *)
Lemma get_users_sorts_store (cfg : serverConfig) (q : Query) (d : Data) :
  query_search q = None \/ query_search q = Some (Str "") ->
  users (snd (get_users cfg q d)) = sort sortBy (users d)
  /\ roles (snd (get_users cfg q d)) = roles d.
Proof.
  intros Hq. unfold get_users, getPagedData.
  destruct Hq as [-> | ->]; cbn; split; reflexivity.
Qed.

(** C8.  A listing without a search term sorts the array of the store in
    place: after a POST /users, which appends the new user, GET /users
    moves that user from the last position of [data.users] to the first. *)
Theorem listing_reorders_the_store :
  let cfg := Sample.config in
  let d :=
    run cfg Sample.rawData
      [Http (Sample.env (Sample.stamp 20) "user-17")
         (Sample.request POST ["users"] None None
            [("first", VStr "Sue"); ("last", VStr "Tran");
             ("roleId", VStr Sample.engineering)])] in
  let d' := snd (get_users cfg (mkQuery None None) d) in
  status (fst (get_users cfg (mkQuery None None) d)) = 200%Z
  /\ user_id <$> users d
     = ((user_id <$> users Sample.rawData) ++ ["user-17"])%list
  /\ user_id <$> users d'
     = "user-17" :: (user_id <$> users Sample.rawData)
  /\ users d' <> users d
  /\ users d' ≡ₚ users d.
Proof.
  intros cfg d d'.
  split; [vm_compute; reflexivity|].
  split; [vm_compute; reflexivity|].
  split; [vm_compute; reflexivity|].
  split.
  - intros Heq. apply (f_equal (fmap user_id)) in Heq.
    vm_compute in Heq. discriminate Heq.
  - unfold d'.
    rewrite (proj1 (get_users_sorts_store cfg (mkQuery None None) d
                      (or_introl eq_refl))).
    apply sort_perm.
Qed.

(** * Further properties *)

(** [fresh_user_uuids] along a concrete sequence: only a POST /users has
    something to show. *)
Ltac fresh_users_by_computation :=
  cbn [fresh_user_uuids fresh_user_uuid];
  repeat split; intros Hmethod Hpath;
  first [ discriminate Hmethod
        | vm_compute in Hpath; discriminate Hpath
        | by_computation ].

(** The sample store has distinct roles, boolean flags and one default. *)
Lemma sample_roles_ok : roles_ok Sample.rawData.
Proof.
  split; [by_computation|]. split; [|vm_compute; reflexivity].
  repeat (apply List.Forall_cons; [eexists; reflexivity|]). apply List.Forall_nil.
Defined.

(** ** The order of the listings *)

Lemma ascii_compare_trans (a b c : ascii) (r : comparison) :
  Ascii.compare a b = r -> Ascii.compare b c = r -> r <> Eq ->
  Ascii.compare a c = r.
Proof.
  unfold Ascii.compare. intros Hab Hbc Hr. destruct r; [congruence| |].
  - eapply N.lt_trans; eassumption.
  - apply N.compare_gt_iff in Hab, Hbc. apply N.compare_gt_iff.
    eapply N.lt_trans; eassumption.
Qed.

Lemma string_compare_le_trans (a b c : string) :
  String.compare a b <> Gt -> String.compare b c <> Gt ->
  String.compare a c <> Gt.
Proof.
  revert b c. induction a as [|x a IH]; intros [|y b] [|z c]; cbn;
    try congruence.
  destruct (Ascii.compare x y) eqn:Hxy; destruct (Ascii.compare y z) eqn:Hyz;
    try congruence.
  - apply Ascii.compare_eq_iff in Hxy, Hyz. subst.
    assert (Ascii.compare z z = Eq) as ->
      by (unfold Ascii.compare; apply N.compare_refl).
    apply IH.
  - apply Ascii.compare_eq_iff in Hxy. subst. now rewrite Hyz.
  - apply Ascii.compare_eq_iff in Hyz. subst. now rewrite Hxy.
  - rewrite (ascii_compare_trans x y z Lt) by congruence. congruence.
Qed.

Lemma newer_or_equal_trans {T} `{Entity T} (a b c : T) :
  newer_or_equal a b -> newer_or_equal b c -> newer_or_equal a c.
Proof.
  unfold newer_or_equal. intros Hab Hbc.
  exact (string_compare_le_trans _ _ _ Hbc Hab).
Qed.

Lemma newest_first_cons {T} `{Entity T} (x : T) (l : list T) :
  newest_first (x :: l) <-> Forall (newer_or_equal x) l /\ newest_first l.
Proof.
  unfold newest_first. split.
  - intros Hsorted. split.
    + apply Forall_lookup. intros j b Hb.
      apply (Hsorted 0%nat (S j) x b); [reflexivity | exact Hb | lia].
    + intros i j a b Ha Hb Hij.
      apply (Hsorted (S i) (S j) a b); [exact Ha | exact Hb | lia].
  - intros [Hhead Htail] i j a b Ha Hb Hij.
    destruct j as [|j]; [lia|]. cbn in Hb.
    destruct i as [|i]; cbn in Ha.
    + injection Ha as <-. exact (proj1 (Forall_lookup _ _) Hhead j b Hb).
    + apply (Htail i j a b Ha Hb). lia.
Qed.

Lemma sort_insert_newest_first {T} `{Entity T} (x : T) (l : list T) :
  newest_first l -> newest_first (sort_insert sortBy x l).
Proof.
  induction l as [|y l IH]; intros Hsorted; cbn [sort_insert].
  - apply newest_first_cons. split; [constructor|]. intros i j a b Ha. destruct i; discriminate.
  - apply newest_first_cons in Hsorted as [Hy Hl].
    destruct (sortBy x y) eqn:Hxy.
    + apply newest_first_cons. split; [|now apply newest_first_cons].
      assert (Hx : newer_or_equal x y) by (unfold newer_or_equal, sortBy in *; congruence).
      constructor; [exact Hx|].
      eapply Forall_impl; [exact Hy|]. intros z Hz.
      exact (newer_or_equal_trans _ _ _ Hx Hz).
    + apply newest_first_cons. split; [|now apply newest_first_cons].
      assert (Hx : newer_or_equal x y) by (unfold newer_or_equal, sortBy in *; congruence).
      constructor; [exact Hx|].
      eapply Forall_impl; [exact Hy|]. intros z Hz.
      exact (newer_or_equal_trans _ _ _ Hx Hz).
    + apply newest_first_cons. split; [|now apply IH].
      rewrite sort_insert_perm. constructor; [|exact Hy].
      unfold newer_or_equal, sortBy in *.
      rewrite String.compare_antisym in Hxy.
      destruct (String.compare (createdAt x) (createdAt y)); cbn in Hxy; congruence.
Qed.

Lemma sort_newest_first {T} `{Entity T} (l : list T) :
  newest_first (sort sortBy l).
Proof.
  induction l as [|x l IH]; cbn [sort].
  - intros i j a b Ha. destruct i; discriminate.
  - now apply sort_insert_newest_first.
Qed.

Lemma slice_newest_first {T} `{Entity T} (l : list T) (start stop : Z) :
  newest_first l -> newest_first (slice l start stop).
Proof.
  intros Hsorted i j a b Ha Hb Hij. unfold slice in *.
  apply lookup_take_Some in Ha as [Ha _]. apply lookup_take_Some in Hb as [Hb _].
  rewrite lookup_drop in Ha, Hb.
  eapply Hsorted; [exact Ha | exact Hb | lia].
Qed.

(** sorting a list that is in order changes nothing *)
Lemma sort_sorted {T} `{Entity T} (l : list T) :
  newest_first l -> sort sortBy l = l.
Proof.
  induction l as [|x l IH]; intros Hsorted; [reflexivity|].
  apply newest_first_cons in Hsorted as [Hx Hl].
  cbn [sort]. rewrite (IH Hl).
  destruct l as [|y l]; [reflexivity|]. cbn [sort_insert].
  apply Forall_cons in Hx as [Hxy _]. unfold newer_or_equal in Hxy.
  unfold sortBy. destruct (String.compare (createdAt y) (createdAt x)); congruence.
Qed.

(** X2: the data of every listing is in the order newest first (no item
    before one created later), and after a listing without a search term
    the store's own array is in that order too. *)
Theorem listing_newest_first {T} `{Entity T} (size : Z) (q : Query)
    (l l' : list T) (fields : list string) (page : PagedData T) :
  getPagedData size q l fields = Some (page, l') ->
  newest_first (data page)
  /\ ((query_search q = None \/ query_search q = Some (Str "")) ->
      newest_first l').
Proof.
  intros Hpage.
  destruct (getPagedData_envelope _ _ _ _ _ _ Hpage) as (found & _ & Hdata & _).
  split.
  - rewrite Hdata. apply slice_newest_first, sort_newest_first.
  - intros Hq. rewrite (getPagedData_array _ _ _ _ _ _ Hpage).
    destruct Hq as [-> | ->]; apply sort_newest_first.
Qed.

Lemma listing_newest_first_witness :
  exists page l',
    getPagedData 10 (mkQuery None (Some (Num 2))) (rev Sample.sample_users)
                 searchFields.users = Some (page, l')
    /\ length (data page) = 6%nat
    /\ newest_first (data page)
    /\ newest_first l'.
Proof.
  assert (H : exists page l',
            getPagedData 10 (mkQuery None (Some (Num 2))) (rev Sample.sample_users)
                         searchFields.users = Some (page, l')
            /\ length (data page) = 6%nat)
    by (eexists; eexists; split; vm_compute; reflexivity).
  destruct H as (page & l' & H & Hlen). exists page, l'.
  split; [exact H|]. split; [exact Hlen|].
  destruct (listing_newest_first _ _ _ _ _ _ H) as [Hdata Hstore].
  split; [exact Hdata|]. apply Hstore. now left.
Defined.

(** X3: a listing repeated on the store it leaves behind gives the same
    answer and leaves the same store: GET /users and GET /roles are
    idempotent, although the first one may reorder the store. *)
Theorem listing_idempotent (cfg : serverConfig) (q : Query) (d : Data) :
  get_users cfg q (snd (get_users cfg q d)) = get_users cfg q d
  /\ get_roles cfg q (snd (get_roles cfg q d)) = get_roles cfg q d.
Proof.
  assert (Hgen : forall {T} `{Entity T} (l : list T) fields,
    match getPagedData (pageSize cfg) q l fields with
    | Some (page, l') =>
        getPagedData (pageSize cfg) q l' fields = Some (page, l')
    | None => True
    end).
  { intros T HT l fields. unfold getPagedData. cbv zeta.
    destruct (given (query_search q)) eqn:Hs.
    - destruct (query_search q) as [[term|]|]; try exact I.
      destruct (fullTextSearch l fields _) as [found|] eqn:Hfound; [|exact I].
      now rewrite Hfound.
    - rewrite (sort_sorted (sort sortBy l)) by apply sort_newest_first.
      reflexivity. }
  split.
  - unfold get_users. specialize (Hgen User _ (users d) searchFields.users).
    destruct (getPagedData _ q (users d) _) as [[page us]|] eqn:Hpage.
    + cbn [snd set_users users]. now rewrite Hgen.
    + cbn [snd]. now rewrite Hpage.
  - unfold get_roles. specialize (Hgen Role _ (roles d) searchFields.roles).
    destruct (getPagedData _ q (roles d) _) as [[page rs]|] eqn:Hpage.
    + cbn [snd set_roles roles]. now rewrite Hgen.
    + cbn [snd]. now rewrite Hpage.
Qed.

(** ** Latency *)

Lemma Qfloor_scaled (r : Q) (n : Z) :
  (0 < n)%Z -> (0 <= r)%Q -> (r < 1)%Q ->
  (0 <= Qfloor (r * inject_Z n) < n)%Z.
Proof.
  intros Hn Hlow Hhigh.
  assert (Hn' : (0 < inject_Z n)%Q) by (unfold Qlt; cbn; lia).
  split.
  - rewrite <- (Qfloor_Z 0). apply Qfloor_resp_le.
    apply Qmult_le_0_compat; [exact Hlow | now apply Qlt_le_weak].
  - destruct (Z_lt_le_dec (Qfloor (r * inject_Z n)) n) as [Hlt|Hge]; [exact Hlt|].
    exfalso.
    assert (H1 : (inject_Z n <= r * inject_Z n)%Q).
    { eapply Qle_trans; [|apply Qfloor_le]. now rewrite <- Zle_Qle. }
    assert (H2 : (r * inject_Z n < 1 * inject_Z n)%Q)
      by (apply Qmult_lt_compat_r; assumption).
    rewrite Qmult_1_l in H2. exact (Qlt_not_le _ _ H2 H1).
Qed.

(** X1: with the speed of the default configuration, taken from
    SERVER_SPEED, and Math.random() in [0, 1): the delay is in [1000, 2000)
    for 'slow', 0 for 'instant', and in [500, 1000) otherwise, also when
    the variable is unset or holds any other word. *)
Theorem latency_bounds (SERVER_SPEED : option string) (cfg : serverConfig)
    (env : Env) :
  speed cfg = getServerSpeed SERVER_SPEED ->
  (0 <= random_latency env)%Q -> (random_latency env < 1)%Q ->
  (SERVER_SPEED = Some "slow" -> (1000 <= latencyInMs cfg env < 2000)%Z)
  /\ (SERVER_SPEED = Some "instant" -> latencyInMs cfg env = 0%Z)
  /\ (SERVER_SPEED <> Some "slow" -> SERVER_SPEED <> Some "instant" ->
      (500 <= latencyInMs cfg env < 1000)%Z).
Proof.
  intros Hspeed Hlow Hhigh.
  pose proof (Qfloor_scaled _ 1000 ltac:(lia) Hlow Hhigh) as Hslow.
  pose proof (Qfloor_scaled _ 500 ltac:(lia) Hlow Hhigh) as Hfast.
  unfold inject_Z in Hslow, Hfast.
  unfold latencyInMs. rewrite Hspeed.
  split; [|split].
  - intros ->. cbn [getServerSpeed].
    replace (String.eqb "slow" "slow") with true by reflexivity.
    cbn [orb]. replace (String.eqb "slow" "slow") with true by reflexivity.
    lia.
  - intros ->. reflexivity.
  - intros Hns Hni.
    assert (Hfastspeed : getServerSpeed SERVER_SPEED = "fast").
    { unfold getServerSpeed. destruct SERVER_SPEED as [s|]; [|reflexivity].
      destruct (String.eqb s "slow") eqn:Hs1.
      { apply String.eqb_eq in Hs1. congruence. }
      destruct (String.eqb s "fast") eqn:Hs2.
      { apply String.eqb_eq in Hs2. exact Hs2. }
      destruct (String.eqb s "instant") eqn:Hs3.
      { apply String.eqb_eq in Hs3. congruence. }
      reflexivity. }
    rewrite Hfastspeed.
    replace (String.eqb "fast" "slow") with false by reflexivity.
    replace (String.eqb "fast" "fast") with true by reflexivity.
    lia.
Qed.

Lemma latency_bounds_witness :
  let cfg := mkConfig (getServerSpeed (Some "slow")) (1 # 20) 10 in
  let env := mkEnv (Sample.stamp 20) "id" (1 # 3) (1 # 2) 0 in
  (0 <= random_latency env)%Q /\ (random_latency env < 1)%Q
  /\ latencyInMs cfg env = 1333%Z
  /\ (1000 <= latencyInMs cfg env < 2000)%Z.
Proof.
  intros cfg env.
  assert (Hlow : (0 <= random_latency env)%Q) by (unfold Qle; simpl; lia).
  assert (Hhigh : (random_latency env < 1)%Q) by (unfold Qlt; simpl; lia).
  split; [exact Hlow|]. split; [exact Hhigh|]. split; [reflexivity|].
  exact (proj1 (latency_bounds (Some "slow") cfg env eq_refl Hlow Hhigh) eq_refl).
Defined.

(** ** Pages cover the filtered set *)

Lemma getPagedData_filtered_of {T} `{Entity T} (size : Z)
    (search : option string) (page : option number) (l : list T)
    (fields : list string) :
  let q := mkQuery (Str <$> search) page in
  getPagedData size q l fields =
  match filtered_of search l fields with
  | Some found =>
      Some (mkPagedData
              (slice (sort sortBy found)
                     ((page_of q - 1) * size) (page_of q * size))
              (if (page_of q <? ceil_div (Z.of_nat (length found)) size)%Z
               then Some (page_of q + 1)%Z else None)
              (if (1 <? page_of q)%Z then Some (page_of q - 1)%Z else None)
              (ceil_div (Z.of_nat (length found)) size),
            if given (query_search q) then l else sort sortBy l)
  | None => None
  end.
Proof.
  intros q. unfold q, getPagedData, filtered_of. cbn [query_search].
  destruct search as [term|]; cbn [fmap option_fmap option_map given].
  - destruct (String.eqb term ""); cbn [negb].
    + now rewrite sort_length.
    + destruct (fullTextSearch l fields term); [|reflexivity].
      now rewrite sort_length.
  - cbn. now rewrite sort_length.
Qed.

Lemma slice_nonneg {T} (l : list T) (a b : Z) :
  (0 <= a <= b)%Z ->
  slice l a b = take (Z.to_nat (b - a)) (drop (Z.to_nat a) l).
Proof.
  intros Hab. unfold slice, slice_index.
  destruct (Z.ltb_spec a 0) as [|_]; [lia|].
  destruct (Z.ltb_spec b 0) as [|_]; [lia|].
  destruct (Z_lt_le_dec a (Z.of_nat (length l))) as [Hin|Hout].
  - rewrite (Z.min_l a) by lia.
    destruct (Z_le_gt_dec b (Z.of_nat (length l))) as [Hb|Hb].
    + now rewrite (Z.min_l b) by lia.
    + rewrite (Z.min_r b) by lia.
      rewrite !take_ge; [reflexivity|rewrite length_drop; lia..].
  - rewrite !drop_ge by lia. now rewrite !take_nil.
Qed.

Lemma pages_concat {T} (l : list T) (size : Z) (k : nat) :
  (0 < size)%Z ->
  concat (map (fun p => slice l ((Z.of_nat p - 1) * size) (Z.of_nat p * size))
              (seq 1 k))
  = take (k * Z.to_nat size) l.
Proof.
  intros Hsize. induction k as [|k IH]; [reflexivity|].
  rewrite seq_S, map_app, concat_app, IH. cbn [map concat].
  rewrite app_nil_r, slice_nonneg by nia.
  replace (Z.to_nat ((Z.of_nat (1 + k) - 1) * size)) with (k * Z.to_nat size)%nat by nia.
  replace (Z.to_nat (Z.of_nat (1 + k) * size - (Z.of_nat (1 + k) - 1) * size))
    with (Z.to_nat size) by nia.
  rewrite take_take_drop. f_equal. lia.
Qed.

(** X4: for a positive page size, the data of the pages 1 to [pages], one
    after the other, is the sorted filtered set: every item that is found
    is on exactly one page, and in order. *)
Theorem pages_cover {T} `{Entity T} (size : Z) (search : option string)
    (l found : list T) (fields : list string) :
  (0 < size)%Z ->
  filtered_of search l fields = Some found ->
  concat (map (page_data size search l fields)
              (seq 1 (Z.to_nat (ceil_div (Z.of_nat (length found)) size))))
  = sort sortBy found.
Proof.
  intros Hsize Hfound.
  pose proof (ceil_div_spec (Z.of_nat (length found)) size Hsize) as Hceil.
  set (n := ceil_div (Z.of_nat (length found)) size) in *.
  rewrite (map_ext_in _ (fun p => slice (sort sortBy found)
                            ((Z.of_nat p - 1) * size) (Z.of_nat p * size))).
  - rewrite pages_concat by exact Hsize.
    apply take_ge. rewrite sort_length. nia.
  - intros p Hp. apply in_seq in Hp. unfold page_data.
    rewrite getPagedData_filtered_of. rewrite Hfound.
    cbn [data]. unfold page_of. cbn [query_page].
    destruct (Z.eqb_spec (Z.of_nat p) 0); [lia|reflexivity].
Qed.

Lemma pages_cover_witness :
  let l := rev Sample.sample_users in
  (0 < 10)%Z
  /\ filtered_of None l searchFields.users = Some l
  /\ ceil_div (Z.of_nat (length l)) 10 = 2%Z
  /\ (page_data 10 None l searchFields.users 1
      ++ page_data 10 None l searchFields.users 2)%list
     = sort sortBy l.
Proof.
  intros l.
  assert (Hsize : (0 < 10)%Z) by lia.
  assert (Hfound : filtered_of None l searchFields.users = Some l) by reflexivity.
  split; [exact Hsize|]. split; [exact Hfound|]. split; [reflexivity|].
  pose proof (pages_cover 10 None l l searchFields.users Hsize Hfound) as Hcover.
  change (Z.to_nat (ceil_div (Z.of_nat (length l)) 10)) with 2%nat in Hcover.
  cbn [seq map concat] in Hcover. rewrite app_nil_r in Hcover. exact Hcover.
Defined.

(** ** Creating and reading back *)

Lemma getEntity_app_fresh {T} `{Entity T} (ident : string) (l : list T) (x : T) :
  ident ∉ (id <$> l) -> id x = ident ->
  getEntity ident (l ++ [x]) = Some (length l, x).
Proof.
  intros Hfresh Hid. unfold getEntity.
  apply list_find_Some. split; [|split].
  - rewrite lookup_app_r by lia. now rewrite Nat.sub_diag.
  - exact Hid.
  - intros j y Hy Hj Hsame. apply Hfresh.
    rewrite lookup_app_l in Hy by exact Hj.
    rewrite <- Hsame. apply list_elem_of_fmap_2.
    eapply list_elem_of_lookup_2. exact Hy.
Qed.

Lemma find_role_by_id (rs : list Role) (s : string) :
  s ∈ role_ids rs ->
  exists j role,
    list_find (fun role => strict_eq (VStr (role_id role)) (VStr s) = true) rs
    = Some (j, role) /\ role_id role = s.
Proof.
  intros Hin. apply list_elem_of_fmap in Hin as (r & Hr & Hin).
  destruct (list_find_elem_of
              (fun role => strict_eq (VStr (role_id role)) (VStr s) = true)
              rs r Hin) as [[j role] Hfind].
  { unfold strict_eq. apply bool_decide_eq_true. now rewrite Hr. }
  exists j, role. split; [exact Hfind|].
  apply find_role_Some in Hfind as [_ Heq]. now injection Heq.
Qed.

(** X5: POST /users with non-falsy first and last and the id of an
    existing role appends a user with the new uuid, both dates the current
    time and the given fields, answers with it, and GET /users/:id with
    that uuid answers the same user. *)
Theorem post_user_round_trip (env : Env) (b : Body) (d : Data) (roleId : string) :
  truthy (body_field b "first") = true ->
  truthy (body_field b "last") = true ->
  body_field b "roleId" = VStr roleId ->
  roleId <> "" ->
  roleId ∈ role_ids (roles d) ->
  uuid env ∉ (user_id <$> users d) ->
  let user :=
    mkUser (uuid env) (now env) (now env) (body_field b "first")
           (body_field b "last") roleId
           (VStr ("https://i.pravatar.cc/400?img="
                  +:+ pretty (Qfloor (random_photo env * 70)) +:+ "}")) in
  let d' := mkData (users d ++ [user]) (roles d) in
  post_user env b d = (json (PUser user), d')
  /\ get_user (uuid env) d' = (json (PUser user), d').
Proof.
  intros Hfirst Hlast Hrole Hne Hin Hfresh user d'.
  split.
  - unfold post_user, missingFields. rewrite Hfirst, Hlast, Hrole.
    cbn [truthy]. apply String.eqb_neq in Hne. rewrite Hne. cbn [negb app length Nat.eqb].
    destruct (find_role_by_id _ _ Hin) as (j & role & -> & Hid).
    unfold user, d', set_users. now rewrite Hid.
  - unfold get_user, d'. cbn [users].
    rewrite (getEntity_app_fresh (uuid env) (users d) user);
      [|exact Hfresh|reflexivity].
    reflexivity.
Qed.

Lemma post_user_round_trip_witness :
  let d := Sample.rawData in
  let env := mkEnv (Sample.stamp 20) "user-17" 0 0 (1 # 2) in
  let b := Sample.body [("first", VStr "Sue"); ("last", VStr "Tran");
                        ("roleId", VStr Sample.engineering)] in
  Sample.engineering ∈ role_ids (roles d)
  /\ (uuid env ∉ (user_id <$> users d))
  /\ exists user,
       post_user env b d
       = (json (PUser user), mkData (users d ++ [user]) (roles d))
       /\ user_photo user = VStr "https://i.pravatar.cc/400?img=35}"
       /\ get_user "user-17" (mkData (users d ++ [user]) (roles d))
          = (json (PUser user), mkData (users d ++ [user]) (roles d)).
Proof.
  intros d env b.
  assert (Hin : Sample.engineering ∈ role_ids (roles d)) by by_computation.
  assert (Hfresh : uuid env ∉ (user_id <$> users d)) by by_computation.
  split; [exact Hin|]. split; [exact Hfresh|].
  destruct (post_user_round_trip env b d Sample.engineering
              eq_refl eq_refl eq_refl ltac:(discriminate) Hin Hfresh)
    as [Hpost Hget].
  eexists. split; [exact Hpost|]. split; [reflexivity|exact Hget].
Defined.

(** X6: POST /roles with a non-falsy name no role has, and isDefault other
    than true, appends the role (description defaulted to the empty
    string, isDefault to false), changes no other role, and
    GET /roles/:id with the new uuid answers the same role. *)
Theorem post_role_round_trip (env : Env) (b : Body) (d : Data) :
  truthy (body_field b "name") = true ->
  (forall role, role ∈ roles d -> role_name role <> body_field b "name") ->
  body_field b "isDefault" <> VBool true ->
  uuid env ∉ role_ids (roles d) ->
  let role :=
    mkRole (uuid env) (now env) (now env) (body_field b "name")
           (match body_field b "description" with
            | VUndefined => VStr ""
            | v => v
            end)
           (match body_field b "isDefault" with
            | VUndefined => VBool false
            | v => v
            end) in
  let d' := mkData (users d) (roles d ++ [role]) in
  post_role env b d = (json (PRole role), d')
  /\ get_role (uuid env) d' = (json (PRole role), d').
Proof.
  intros Hname Hunique Hflag Hfresh role d'.
  split.
  - unfold post_role. rewrite Hname. cbn [negb].
    assert (Hnone : existsb (fun r => strict_eq (role_name r) (body_field b "name"))
                            (roles d) = false).
    { apply not_true_is_false. intros Hex.
      apply existsb_exists in Hex as (r & Hr & Heq).
      apply list_elem_of_In in Hr. unfold strict_eq in Heq.
      apply bool_decide_eq_true in Heq. exact (Hunique r Hr Heq). }
    rewrite Hnone.
    assert (Hnot : strict_eq (match body_field b "isDefault" with
                              | VUndefined => VBool false
                              | v => v
                              end) (VBool true) = false).
    { unfold strict_eq. apply bool_decide_eq_false.
      destruct (body_field b "isDefault"); congruence. }
    rewrite Hnot. reflexivity.
  - unfold get_role, d'. cbn [roles].
    rewrite (getEntity_app_fresh (uuid env) (roles d) role);
      [|exact Hfresh|reflexivity].
    reflexivity.
Qed.

Lemma post_role_round_trip_witness :
  let d := Sample.rawData in
  let env := mkEnv (Sample.stamp 20) "role-5" 0 0 0 in
  let b := Sample.body [("name", VStr "Sales")] in
  (forall role, role ∈ roles d -> role_name role <> body_field b "name")
  /\ (uuid env ∉ role_ids (roles d))
  /\ exists role,
       post_role env b d
       = (json (PRole role), mkData (users d) (roles d ++ [role]))
       /\ role_description role = VStr ""
       /\ role_isDefault role = VBool false
       /\ get_role "role-5" (mkData (users d) (roles d ++ [role]))
          = (json (PRole role), mkData (users d) (roles d ++ [role])).
Proof.
  intros d env b.
  assert (Hunique : forall role, role ∈ roles d ->
                      role_name role <> body_field b "name")
    by (apply Forall_forall; by_computation).
  assert (Hfresh : uuid env ∉ role_ids (roles d)) by by_computation.
  split; [exact Hunique|]. split; [exact Hfresh|].
  destruct (post_role_round_trip env b d eq_refl Hunique
              ltac:(discriminate) Hfresh) as [Hpost Hget].
  eexists. split; [exact Hpost|]. split; [reflexivity|].
  split; [reflexivity|exact Hget].
Defined.

(** ** Deleting a user *)

(** X8: DELETE /users/:id of a user that is found answers that user;
    afterwards GET /users/:id for it is a 404, the users left are those
    with another id, in their order, and the roles are untouched. *)
Theorem delete_user_then_get (ident : string) (d : Data) (i : nat) (user : User) :
  getEntity ident (users d) = Some (i, user) ->
  let d' := snd (delete_user ident d) in
  fst (delete_user ident d) = json (PUser user)
  /\ get_user ident d' = (fail 404 "User not found", d')
  /\ (forall u, u ∈ users d' <-> u ∈ users d /\ user_id u <> ident)
  /\ sublist (users d') (users d)
  /\ (length (users d') < length (users d))%nat
  /\ roles d' = roles d.
Proof.
  intros Hfind d'. pose proof (getEntity_lookup _ _ _ _ Hfind) as [Hlook Hid].
  cbn [id User_Entity] in Hid.
  unfold d', delete_user. rewrite Hfind. cbn [fst snd users roles set_users].
  rewrite Hid.
  split; [reflexivity|]. split; [|split; [|split; [|split]]].
  - unfold get_user. cbn [users].
    match goal with
    | |- context [getEntity ident ?l] =>
        assert (Hnone : getEntity ident l = None)
    end.
    { unfold getEntity. apply list_find_None, Forall_forall.
      intros u Hu. apply list_elem_of_filter in Hu as [Hne _]. exact Hne. }
    now rewrite Hnone.
  - intros u. rewrite list_elem_of_filter. tauto.
  - apply sublist_filter.
  - apply (length_filter_lt _ _ user).
    + eapply list_elem_of_lookup_2. exact Hlook.
    + intros Hne. now apply Hne.
  - reflexivity.
Qed.

Lemma delete_user_then_get_witness :
  let d := Sample.rawData in
  getEntity Sample.mark (users d) = Some (0%nat, Sample.sample_user 16)
  /\ fst (delete_user Sample.mark d) = json (PUser (Sample.sample_user 16))
  /\ get_user Sample.mark (snd (delete_user Sample.mark d))
     = (fail 404 "User not found", snd (delete_user Sample.mark d))
  /\ length (users (snd (delete_user Sample.mark d))) = 15%nat.
Proof.
  intros d.
  assert (Hfind : getEntity Sample.mark (users d)
                  = Some (0%nat, Sample.sample_user 16))
    by (vm_compute; reflexivity).
  destruct (delete_user_then_get Sample.mark d _ _ Hfind)
    as (Hanswer & Hget & _).
  split; [exact Hfind|]. split; [exact Hanswer|]. split; [exact Hget|].
  vm_compute. reflexivity.
Defined.

(** ** Requests that are turned down *)

(** X9: the listings, POST and DELETE of users and roles leave the store
    as it was whenever their answer is not a 200, and GET by id never
    changes it.  (PATCH is the exception: it writes before it checks.)  A
    listing is one with a page that converts to a number, as everywhere
    in the model. *)
Theorem rejected_requests_change_nothing (cfg : serverConfig) (env : Env)
    (q : Query) (ident : string) (b : Body) (d : Data) :
  (status (fst (get_users cfg q d)) <> 200%Z -> snd (get_users cfg q d) = d)
  /\ (status (fst (get_roles cfg q d)) <> 200%Z -> snd (get_roles cfg q d) = d)
  /\ snd (get_user ident d) = d
  /\ snd (get_role ident d) = d
  /\ (status (fst (post_user env b d)) <> 200%Z -> snd (post_user env b d) = d)
  /\ (status (fst (post_role env b d)) <> 200%Z -> snd (post_role env b d) = d)
  /\ (status (fst (delete_user ident d)) <> 200%Z ->
      snd (delete_user ident d) = d)
  /\ (status (fst (delete_role ident d)) <> 200%Z ->
      snd (delete_role ident d) = d).
Proof.
  repeat split.
  - unfold get_users. destruct (getPagedData _ _ _ _) as [[page us]|];
      [intros Hs; now elim Hs | reflexivity].
  - unfold get_roles. destruct (getPagedData _ _ _ _) as [[page us]|];
      [intros Hs; now elim Hs | reflexivity].
  - unfold get_user. now destruct (getEntity _ _) as [[i u]|].
  - unfold get_role. now destruct (getEntity _ _) as [[i u]|].
  - unfold post_user. destruct (negb _); [reflexivity|].
    destruct (list_find _ _) as [[j role]|];
      [intros Hs; now elim Hs | reflexivity].
  - unfold post_role. destruct (negb _); [reflexivity|].
    destruct (existsb _ _); [reflexivity|].
    destruct (if strict_eq _ _ then _ else _);
      [intros Hs; now elim Hs | reflexivity].
  - unfold delete_user. destruct (getEntity _ _) as [[i u]|];
      [intros Hs; now elim Hs | reflexivity].
  - unfold delete_role. destruct (getEntity _ _) as [[i r]|]; [|reflexivity].
    destruct (truthy _); [reflexivity|].
    destruct (getDefaultRole _) as [[j def]|].
    + intros Hs; now elim Hs.
    + destruct (existsb _ _); [reflexivity | intros Hs; now elim Hs].
Qed.

Lemma rejected_requests_change_nothing_witness :
  let d := Sample.rawData in
  let env := Sample.env (Sample.stamp 20) "user-17" in
  let b := Sample.body [("first", VStr "Sue")] in
  fst (post_user env b d) = fail 400 "Missing required fields: last, roleId"
  /\ status (fst (post_user env b d)) <> 200%Z
  /\ snd (post_user env b d) = d.
Proof.
  intros d env b.
  assert (Hstatus : status (fst (post_user env b d)) <> 200%Z)
    by (vm_compute; discriminate).
  split; [vm_compute; reflexivity|]. split; [exact Hstatus|].
  destruct (rejected_requests_change_nothing Sample.config env
              (mkQuery None None) "" b d) as (_ & _ & _ & _ & Hpost & _).
  exact (Hpost Hstatus).
Defined.

(** ** PATCH /roles/:id *)

Lemma updateField_name (role : Role) (value : jsval) :
  updateField role "name" value =
  if changes value (role_name role) then (set_role_name value role, true)
  else (role, false).
Proof. reflexivity. Qed.

Lemma updateField_description (role : Role) (value : jsval) :
  updateField role "description" value =
  if changes value (role_description role)
  then (set_role_description value role, true)
  else (role, false).
Proof. reflexivity. Qed.

(** X10: PATCH /roles/:id is not atomic either: a body that renames the
    default role and sets isDefault to false is answered 400 "Cannot unset
    default role", but the new name is already stored, and updatedAt is
    not refreshed. *)
Theorem patch_role_not_atomic (env : Env) (ident : string) (b : Body)
    (d : Data) (i : nat) (role : Role) :
  getEntity ident (roles d) = Some (i, role) ->
  (forall r, r ∈ roles d -> role_name r = body_field b "name" ->
             role_id r = ident) ->
  truthy (body_field b "name") = true ->
  body_field b "name" <> role_name role ->
  body_field b "isDefault" = VBool false ->
  role_isDefault role <> VBool false ->
  exists role',
    patch_role env ident b d
    = (fail 400 "Cannot unset default role",
       set_roles (<[i := role']> (roles d)) d)
    /\ roles (snd (patch_role env ident b d)) !! i = Some role'
    /\ role_name role' = body_field b "name"
    /\ role_updatedAt role' = role_updatedAt role
    /\ role_isDefault role' = role_isDefault role
    /\ role_id role' = role_id role.
Proof.
  intros Hfind Hunique Htruthy Hnew Hflag Hdefault.
  pose proof (getEntity_lookup _ _ _ _ Hfind) as [Hlook Hid].
  cbn [id Role_Entity] in Hid.
  unfold patch_role. rewrite Hfind, Hid.
  assert (Hnone : existsb (fun r => strict_eq (role_name r) (body_field b "name")
                                    && negb (String.eqb (role_id r) ident))
                          (roles d) = false).
  { apply not_true_is_false. intros Hex.
    apply existsb_exists in Hex as (r & Hr & Heq).
    apply list_elem_of_In in Hr. apply andb_true_iff in Heq as [Hn Hi].
    unfold strict_eq in Hn. apply bool_decide_eq_true in Hn.
    apply negb_true_iff, String.eqb_neq in Hi. exact (Hi (Hunique r Hr Hn)). }
  rewrite Hnone, updateField_name.
  assert (Hch : changes (body_field b "name") (role_name role) = true)
    by (apply changes_true; split; assumption).
  rewrite Hch, updateField_description.
  set (role1 := set_role_name (body_field b "name") role).
  assert (Hsame : forall r : Role * bool,
            r = (if changes (body_field b "description") (role_description role1)
                 then (set_role_description (body_field b "description") role1, true)
                 else (role1, false)) ->
            role_name (fst r) = body_field b "name"
            /\ role_updatedAt (fst r) = role_updatedAt role
            /\ role_isDefault (fst r) = role_isDefault role
            /\ role_id (fst r) = role_id role).
  { intros r ->.
    destruct (changes (body_field b "description") (role_description role1));
      repeat split; reflexivity. }
  destruct (if changes (body_field b "description") (role_description role1)
            then _ else _) as [role2 changed2] eqn:Hrole2.
  specialize (Hsame (role2, changed2) eq_refl). cbn [fst] in Hsame.
  destruct Hsame as (H1 & H2 & H3 & H4).
  rewrite Hflag, H3. unfold strict_eq.
  rewrite bool_decide_eq_false_2 by congruence. cbn [negb].
  rewrite bool_decide_eq_true_2 by reflexivity.
  exists role2. split; [reflexivity|].
  split; [cbn [snd roles set_roles]; apply list_lookup_insert_eq;
          now apply lookup_lt_Some in Hlook|].
  repeat split; congruence.
Qed.

Lemma patch_role_not_atomic_witness :
  let d := Sample.rawData in
  let env := Sample.env (Sample.stamp 22) "" in
  let b := Sample.body [("name", VStr "Helpdesk"); ("isDefault", VBool false)] in
  exists role,
    getEntity Sample.support (roles d) = Some (1%nat, role)
    /\ role_name role = VStr "Support"
    /\ role_isDefault role = VBool true
    /\ exists role',
         patch_role env Sample.support b d
         = (fail 400 "Cannot unset default role",
            set_roles (<[1%nat := role']> (roles d)) d)
         /\ role_name role' = VStr "Helpdesk"
         /\ role_updatedAt role' = role_updatedAt role.
Proof.
  intros d env b.
  assert (Hfind : exists role,
            getEntity Sample.support (roles d) = Some (1%nat, role)
            /\ role_name role = VStr "Support"
            /\ role_isDefault role = VBool true)
    by (eexists; repeat split; vm_compute; reflexivity).
  destruct Hfind as (role & Hfind & Hname & Hdefault).
  assert (Hunique : forall r, r ∈ roles d ->
            role_name r = body_field b "name" -> role_id r = Sample.support)
    by (apply (proj1 (Forall_forall
                 (fun r => role_name r = body_field b "name"
                           -> role_id r = Sample.support) (roles d)));
        by_computation).
  exists role. split; [exact Hfind|]. split; [exact Hname|].
  split; [exact Hdefault|].
  assert (Hnew : body_field b "name" <> role_name role)
    by (rewrite Hname; vm_compute; discriminate).
  assert (Hset : role_isDefault role <> VBool false)
    by (rewrite Hdefault; discriminate).
  destruct (patch_role_not_atomic env Sample.support b d 1 role Hfind Hunique
              eq_refl Hnew eq_refl Hset)
    as (role' & Hanswer & _ & Hname' & Hstamp & _).
  exists role'. split; [exact Hanswer|]. split; [exact Hname'|exact Hstamp].
Defined.

(** ** Where a 500 can come from *)

Lemma user_routes_never_throw (env : Env) (ident : string) (b : Body) (d : Data) :
  status (fst (get_user ident d)) <> 500%Z
  /\ status (fst (patch_user env ident b d)) <> 500%Z
  /\ status (fst (post_user env b d)) <> 500%Z
  /\ status (fst (delete_user ident d)) <> 500%Z
  /\ status (fst (get_role ident d)) <> 500%Z.
Proof.
  repeat split.
  - unfold get_user. now destruct (getEntity _ _) as [[i u]|].
  - unfold patch_user. destruct (getEntity _ _) as [[i u]|]; [|discriminate].
    destruct (updateField u "first" _) as [u1 c1].
    destruct (updateField u1 "last" _) as [u2 c2].
    destruct (truthy _); [|discriminate].
    now destruct (list_find _ _) as [[j r]|].
  - unfold post_user. destruct (negb _); [discriminate|].
    now destruct (list_find _ _) as [[j r]|].
  - unfold delete_user. now destruct (getEntity _ _) as [[i u]|].
  - unfold get_role. now destruct (getEntity _ _) as [[i u]|].
Qed.

Lemma role_routes_never_throw (env : Env) (ident : string) (b : Body) (d : Data) :
  roles_ok d ->
  status (fst (patch_role env ident b d)) <> 500%Z
  /\ status (fst (post_role env b d)) <> 500%Z
  /\ status (fst (delete_role ident d)) <> 500%Z.
Proof.
  intros (Hnodup & Hflags & Hcount). repeat split.
  - unfold patch_role. destruct (getEntity _ _) as [[i role]|] eqn:Hfind; [|discriminate].
    apply getEntity_lookup in Hfind as [Hlook _].
    destruct (existsb _ _); [discriminate|].
    pose proof (updateField_name_isDefault role (body_field b "name")) as H1.
    destruct (updateField role "name" _) as [role1 c1].
    pose proof (updateField_description_isDefault role1 (body_field b "description")) as H2.
    destruct (updateField role1 "description" _) as [role2 c2]. cbn [fst] in H1, H2.
    destruct (negb _); [|discriminate].
    destruct (strict_eq _ (VBool false)); [discriminate|].
    destruct (strict_eq _ (VBool true)); [|discriminate].
    assert (Hok1 : defaults_ok (<[i := role2]> (roles d))).
    { eapply defaults_ok_insert_same; [exact Hlook | congruence | split; assumption]. }
    destruct Hok1 as [Hf1 Hc1].
    destruct (clearDefaultRole_ok _ Hf1 Hc1) as (rs' & -> & _). discriminate.
  - unfold post_role. destruct (negb _); [discriminate|].
    destruct (existsb _ _); [discriminate|].
    destruct (strict_eq _ _); [|discriminate].
    destruct (clearDefaultRole_ok _ Hflags Hcount) as (rs' & -> & _). discriminate.
  - unfold delete_role. destruct (getEntity _ _) as [[i role]|]; [|discriminate].
    destruct (truthy _); [discriminate|].
    destruct (getDefaultRole_flag _ Hflags) as (j & def & -> & _);
      [unfold exactly_one_default in Hcount; lia|]. discriminate.
Qed.

Lemma listing_throws {T} `{Entity T} (size : Z) (q : Query) (l : list T)
    (fields : list string) :
  getPagedData size q l fields = None ->
  given (query_search q) = true
  /\ (query_search q = Some Composite \/ ~ defined_fields l fields).
Proof.
  intros Hnone. split.
  - unfold getPagedData in Hnone.
    destruct (given (query_search q)); [reflexivity|discriminate Hnone].
  - destruct (decide (query_search q = Some Composite)) as [Hq|Hq];
      [now left|right].
    intros Hdefined.
    destruct (getPagedData_search size q l fields Hq Hdefined)
      as (found & page & l' & Hsome & _).
    congruence.
Qed.

(** X13: on a store of primitive values whose roles are distinct with
    boolean flags and one default, and for a request whose body is an
    object of primitive values and whose page, if given, converts to a
    number, no route throws but a listing (GET, or HEAD, which the GET
    route serves, of /users or /roles in any case of the letters) whose
    search parameter is given and either is no string, for a repeated or
    bracketed key, or meets a collection that has an undefined or null
    search field: among these requests a 500 of the framework can come
    from nowhere else. *)
Theorem only_search_throws (cfg : serverConfig) (env : Env) (req : Request)
    (b : Body) (d : Data) :
  roles_ok d ->
  status (fst (route cfg env req b d)) = 500%Z ->
  (req_method req = GET \/ req_method req = HEAD)
  /\ given (query_search (req_query req)) = true
  /\ ((on_collection "users" (req_path req) = true
       /\ (query_search (req_query req) = Some Composite
           \/ ~ defined_fields (users d) searchFields.users))
      \/ (on_collection "roles" (req_path req) = true
          /\ (query_search (req_query req) = Some Composite
              \/ ~ defined_fields (roles d) searchFields.roles))).
Proof.
  intros Hok. unfold route, on_collection.
  assert (Husers_throw :
    status (fst (get_users cfg (req_query req) d)) = 500%Z ->
    given (query_search (req_query req)) = true
    /\ (query_search (req_query req) = Some Composite
        \/ ~ defined_fields (users d) searchFields.users)).
  { unfold get_users.
    destruct (getPagedData _ _ _ _) as [[page us]|] eqn:Hpage; [discriminate|].
    intros _. now apply listing_throws in Hpage. }
  assert (Hroles_throw :
    status (fst (get_roles cfg (req_query req) d)) = 500%Z ->
    given (query_search (req_query req)) = true
    /\ (query_search (req_query req) = Some Composite
        \/ ~ defined_fields (roles d) searchFields.roles)).
  { unfold get_roles.
    destruct (getPagedData _ _ _ _) as [[page rs]|] eqn:Hpage; [discriminate|].
    intros _. now apply listing_throws in Hpage. }
  destruct (segments (req_path req)) as [|collection [|ident [|more path]]];
    try discriminate.
  - destruct (segment_is "users" collection) eqn:Husers.
    + destruct (req_method req); try discriminate.
      * intros H500. destruct (Husers_throw H500) as [Hgiven Hwhy].
        split; [now left|]. split; [exact Hgiven|]. left. now split.
      * intros H500.
        now destruct (user_routes_never_throw env "" b d) as (_ & _ & Hp & _).
      * intros H500. destruct (Husers_throw H500) as [Hgiven Hwhy].
        split; [now right|]. split; [exact Hgiven|]. left. now split.
    + destruct (segment_is "roles" collection) eqn:Hroles; [|discriminate].
      destruct (req_method req); try discriminate.
      * intros H500. destruct (Hroles_throw H500) as [Hgiven Hwhy].
        split; [now left|]. split; [exact Hgiven|]. right. now split.
      * intros H500.
        now destruct (role_routes_never_throw env "" b d Hok) as (_ & Hp & _).
      * intros H500. destruct (Hroles_throw H500) as [Hgiven Hwhy].
        split; [now right|]. split; [exact Hgiven|]. right. now split.
  - destruct (String.eqb ident ""); [discriminate|].
    destruct (segment_is "users" collection).
    + destruct (user_routes_never_throw env ident b d) as (H1 & H2 & _ & H4 & _).
      destruct (req_method req); try discriminate; intros H500; contradiction.
    + destruct (segment_is "roles" collection); [|discriminate].
      destruct (user_routes_never_throw env ident b d) as (_ & _ & _ & _ & H1).
      destruct (role_routes_never_throw env ident b d Hok) as (H2 & _ & H3).
      destruct (req_method req); try discriminate; intros H500; contradiction.
Qed.

Lemma only_search_throws_witness :
  let bare :=
    mkRole "role-5" (Sample.stamp 20) (Sample.stamp 20) (VStr "Sales") VNull
           (VBool false) in
  let d := mkData Sample.sample_users (Sample.sample_roles ++ [bare]) in
  let req := Sample.request HEAD ["Roles"] (Some "zzz") None [] in
  let env := Sample.env (Sample.stamp 21) "" in
  roles_ok d
  /\ status (fst (route Sample.config env req ∅ d)) = 500%Z
  /\ req_method req = HEAD
  /\ on_collection "roles" (req_path req) = true
  /\ ~ defined_fields (roles d) searchFields.roles.
Proof.
  intros bare d req env.
  assert (Hok : roles_ok d).
  { split; [by_computation|]. split; [|vm_compute; reflexivity].
    repeat (apply List.Forall_cons; [eexists; reflexivity|]).
    apply List.Forall_nil. }
  assert (H500 : status (fst (route Sample.config env req ∅ d)) = 500%Z)
    by (vm_compute; reflexivity).
  split; [exact Hok|]. split; [exact H500|].
  split; [reflexivity|]. split; [reflexivity|].
  destruct (only_search_throws Sample.config env req ∅ d Hok H500)
    as (_ & _ & [[Hpath _]|[_ [Hq|Hundef]]]);
    [discriminate Hpath|discriminate Hq|exact Hundef].
Defined.

(** ** Identifiers and names stay distinct *)

Lemma fmap_filter_NoDup {A B} (f : A -> B) (P : A -> Prop)
    `{forall x, Decision (P x)} (l : list A) :
  NoDup (f <$> l) -> NoDup (f <$> filter P l).
Proof.
  induction l as [|x l IH]; [intros; constructor|].
  rewrite fmap_cons, NoDup_cons. intros [Hfresh Hnodup].
  rewrite filter_cons. destruct (decide (P x)); [|now apply IH].
  rewrite fmap_cons. apply NoDup_cons. split; [|now apply IH].
  intros Hin. apply Hfresh.
  apply list_elem_of_fmap in Hin as (y & Hy & Hin).
  apply list_elem_of_filter in Hin as [_ Hin].
  rewrite Hy. now apply list_elem_of_fmap_2.
Qed.

Lemma NoDup_insert_fresh {A} (l : list A) (i : nat) (x : A) :
  NoDup l ->
  (forall k y, l !! k = Some y -> k <> i -> y <> x) ->
  NoDup (<[i := x]> l).
Proof.
  intros Hnodup Hfresh. apply NoDup_alt. intros j k y Hj Hk.
  apply list_lookup_insert_Some in Hj, Hk.
  destruct Hj as [(Hij & Hxy & _)|[Hij Hj]];
    destruct Hk as [(Hik & Hxy' & _)|[Hik Hk]].
  - congruence.
  - exfalso. apply (Hfresh k y Hk); congruence.
  - exfalso. apply (Hfresh j y Hj); congruence.
  - exact (proj1 (NoDup_alt l) Hnodup j k y Hj Hk).
Qed.

Lemma role_names_alter (f : Role -> Role) (i : nat) (rs : list Role) :
  (forall role, role_name (f role) = role_name role) ->
  role_names (alter f i rs) = role_names rs.
Proof.
  intros Hf. unfold role_names.
  rewrite (list_fmap_alter role_name f (fun x => x))
    by (apply Forall_forall; intros role _; apply Hf).
  now apply list_alter_id.
Qed.

Lemma clearDefaultRole_names (rs rs' : list Role) :
  clearDefaultRole rs = Some rs' -> role_names rs' = role_names rs.
Proof.
  unfold clearDefaultRole.
  destruct (getDefaultRole rs) as [[j def]|]; [|discriminate].
  intros [= <-]. now apply role_names_alter.
Qed.

Lemma patch_role_names (env : Env) (ident : string) (b : Body) (d : Data) :
  NoDup (role_ids (roles d)) -> NoDup (role_names (roles d)) ->
  NoDup (role_names (roles (snd (patch_role env ident b d)))).
Proof.
  intros Hids Hnames. unfold patch_role.
  destruct (getEntity ident (roles d)) as [[i role]|] eqn:Hfind; [|exact Hnames].
  apply getEntity_lookup in Hfind as [Hlook Hid]. cbn [id Role_Entity] in Hid.
  destruct (existsb _ (roles d)) eqn:Hconflict; [exact Hnames|].
  rewrite updateField_name.
  assert (Hfree : changes (body_field b "name") (role_name role) = true ->
            forall k y, role_names (roles d) !! k = Some y -> k <> i ->
                        y <> body_field b "name").
  { intros _ k y Hk Hki Heq. unfold role_names in Hk.
    rewrite list_lookup_fmap in Hk.
    destruct (roles d !! k) as [r|] eqn:Hr; [|discriminate].
    injection Hk as <-.
    assert (Hex : existsb
              (fun r => strict_eq (role_name r) (body_field b "name")
                        && negb (String.eqb (role_id r) (role_id role)))
              (roles d) = true).
    { apply existsb_exists. exists r. split.
      - apply list_elem_of_In. eapply list_elem_of_lookup_2. exact Hr.
      - apply andb_true_iff. split.
        + unfold strict_eq. now apply bool_decide_eq_true.
        + apply negb_true_iff, String.eqb_neq. intros Hsame.
          apply Hki.
          apply (NoDup_lookup (role_ids (roles d)) k i (role_id role) Hids);
            unfold role_ids; rewrite list_lookup_fmap.
          * rewrite Hr. cbn. now rewrite Hsame.
          * now rewrite Hlook. }
    congruence. }
  set (first_step := if changes (body_field b "name") (role_name role)
                     then _ else _).
  assert (H1 : NoDup (role_names (<[i := fst first_step]> (roles d)))).
  { unfold first_step, role_names. rewrite list_fmap_insert.
    destruct (changes (body_field b "name") (role_name role)); cbn [fst].
    - apply NoDup_insert_fresh; [exact Hnames|]. now apply Hfree.
    - rewrite list_insert_id; [exact Hnames|].
      now rewrite list_lookup_fmap, Hlook. }
  destruct first_step as [role1 changed1]. cbn [fst] in H1.
  rewrite updateField_description.
  set (second_step := if changes (body_field b "description") (role_description role1)
                      then _ else _).
  assert (H2 : role_name (fst second_step) = role_name role1)
    by (unfold second_step; now destruct (changes _ (role_description role1))).
  destruct second_step as [role2 changed2]. cbn [fst] in H2.
  assert (H3 : NoDup (role_names (<[i := role2]> (roles d)))).
  { unfold role_names in *. rewrite list_fmap_insert, H2.
    now rewrite list_fmap_insert in H1. }
  assert (Hstamp : forall rs (c : bool), NoDup (role_names rs) ->
            NoDup (role_names (if c then alter (set_role_updatedAt (now env)) i rs
                               else rs))).
  { intros rs [|] Hrs; [|exact Hrs]. now rewrite role_names_alter. }
  destruct (negb (strict_eq (body_field b "isDefault") (role_isDefault role2)));
    [|now apply Hstamp].
  destruct (strict_eq (body_field b "isDefault") (VBool false)); [exact H3|].
  destruct (strict_eq (body_field b "isDefault") (VBool true));
    [|now apply Hstamp].
  destruct (clearDefaultRole _) as [rs|] eqn:Hclear; [|exact H3].
  apply clearDefaultRole_names in Hclear.
  cbn [snd roles set_roles].
  rewrite !role_names_alter by reflexivity. now rewrite Hclear.
Qed.

Lemma patch_user_ids (env : Env) (ident : string) (b : Body) (d : Data) :
  user_ids (users (snd (patch_user env ident b d))) = user_ids (users d).
Proof.
  unfold patch_user.
  destruct (getEntity ident (users d)) as [[i user]|] eqn:Hfind; [|reflexivity].
  apply getEntity_lookup in Hfind as [Hlook _].
  rewrite updateField_first.
  set (s1 := if changes _ (user_first user) then _ else _).
  assert (H1 : user_id (fst s1) = user_id user)
    by (unfold s1; now destruct (changes _ (user_first user))).
  destruct s1 as [user1 c1]. rewrite updateField_last.
  set (s2 := if changes _ (user_last user1) then _ else _).
  assert (H2 : user_id (fst s2) = user_id user1)
    by (unfold s2; now destruct (changes _ (user_last user1))).
  destruct s2 as [user2 c2]. cbn [fst] in H1, H2.
  assert (Hput : forall user', user_id user' = user_id user ->
            user_ids (<[i := user']> (users d)) = user_ids (users d)).
  { intros user' Hid. unfold user_ids. rewrite list_fmap_insert.
    apply list_insert_id. now rewrite list_lookup_fmap, Hlook, Hid. }
  destruct (truthy (body_field b "roleId")).
  - destruct (list_find _ (roles d)) as [[j role]|];
      cbn [snd users set_users]; apply Hput; cbn; congruence.
  - cbn [snd]. destruct (c2 || (c1 || false));
      cbn [snd users set_users]; apply Hput; cbn; congruence.
Qed.

Lemma distinct_ok_same (d d' : Data) :
  user_ids (users d') = user_ids (users d) ->
  role_ids (roles d') = role_ids (roles d) ->
  role_names (roles d') = role_names (roles d) ->
  distinct_ok d -> distinct_ok d'.
Proof. unfold distinct_ok. now intros -> -> ->. Qed.

Lemma patch_user_distinct (env : Env) (ident : string) (b : Body) :
  keeps distinct_ok (patch_user env ident b).
Proof.
  intros d Hok. eapply distinct_ok_same; [| | |exact Hok].
  - apply patch_user_ids.
  - now rewrite patch_user_roles.
  - now rewrite patch_user_roles.
Qed.

Lemma get_users_distinct (cfg : serverConfig) (q : Query) :
  keeps distinct_ok (get_users cfg q).
Proof.
  intros d (Hu & Hr & Hn). unfold get_users.
  destruct (getPagedData _ q (users d) _) as [[page us]|] eqn:Hpage;
    [|repeat split; assumption].
  apply getPagedData_store in Hpage.
  split; [|split; assumption].
  cbn [snd set_users users]. unfold user_ids. now rewrite Hpage.
Qed.

Lemma get_roles_distinct (cfg : serverConfig) (q : Query) :
  keeps distinct_ok (get_roles cfg q).
Proof.
  intros d (Hu & Hr & Hn). unfold get_roles.
  destruct (getPagedData _ q (roles d) _) as [[page rs]|] eqn:Hpage;
    [|repeat split; assumption].
  apply getPagedData_store in Hpage.
  split; [exact Hu|]. cbn [snd set_roles roles].
  unfold role_ids, role_names. split; now rewrite Hpage.
Qed.

Lemma post_user_distinct (env : Env) (b : Body) (d : Data) :
  uuid env ∉ user_ids (users d) -> distinct_ok d ->
  distinct_ok (snd (post_user env b d)).
Proof.
  intros Hfresh (Hu & Hr & Hn).
  assert (Hkeep : distinct_ok d) by (repeat split; assumption).
  unfold post_user. destruct (negb _); [exact Hkeep|].
  destruct (list_find _ (roles d)) as [[j role]|]; [|exact Hkeep].
  split; [|split; assumption].
  cbn [snd set_users users]. unfold user_ids in *. rewrite fmap_app.
  apply NoDup_app. split; [exact Hu|]. split; [|apply NoDup_singleton].
  intros x Hx Hin. cbn in Hin. apply list_elem_of_singleton in Hin.
  subst x. exact (Hfresh Hx).
Qed.

Lemma delete_user_distinct (ident : string) : keeps distinct_ok (delete_user ident).
Proof.
  intros d (Hu & Hr & Hn). unfold delete_user.
  destruct (getEntity ident (users d)) as [[i user]|];
    [|repeat split; assumption].
  split; [|split; assumption].
  cbn [snd set_users users]. now apply fmap_filter_NoDup.
Qed.

Lemma patch_role_distinct (env : Env) (ident : string) (b : Body) :
  keeps distinct_ok (patch_role env ident b).
Proof.
  intros d (Hu & Hr & Hn).
  destruct (patch_role_ids env ident b d) as [Hids Husers].
  split; [now rewrite Husers|]. split; [now rewrite Hids|].
  now apply patch_role_names.
Qed.

Lemma post_role_distinct (env : Env) (b : Body) (d : Data) :
  uuid env ∉ role_ids (roles d) -> distinct_ok d ->
  distinct_ok (snd (post_role env b d)).
Proof.
  intros Hfresh (Hu & Hr & Hn).
  assert (Hkeep : distinct_ok d) by (repeat split; assumption).
  unfold post_role.
  destruct (negb (truthy _)); [exact Hkeep|].
  destruct (existsb _ (roles d)) eqn:Hconflict; [exact Hkeep|].
  set (cleared := if strict_eq _ _ then _ else _).
  assert (Hsame : forall rs, cleared = Some rs ->
            role_ids rs = role_ids (roles d)
            /\ role_names rs = role_names (roles d)).
  { intros rs. unfold cleared. destruct (strict_eq _ _).
    - intros Hclear. split;
        [now apply clearDefaultRole_ids | now apply clearDefaultRole_names].
    - now intros [= <-]. }
  destruct cleared as [rs|]; [|exact Hkeep].
  destruct (Hsame rs eq_refl) as [Hids Hnames].
  split; [exact Hu|]. cbn [snd set_roles roles].
  unfold role_ids, role_names in *. rewrite !fmap_app, Hids, Hnames. split.
  - apply NoDup_app. split; [exact Hr|]. split; [|apply NoDup_singleton].
    intros x Hx Hin. cbn in Hin. apply list_elem_of_singleton in Hin.
    subst x. exact (Hfresh Hx).
  - apply NoDup_app. split; [exact Hn|]. split; [|apply NoDup_singleton].
    intros x Hx Hin. cbn in Hin. apply list_elem_of_singleton in Hin.
    subst x. apply list_elem_of_fmap in Hx as (r & Hname & Hrin).
    assert (Hex : existsb
              (fun role => strict_eq (role_name role) (body_field b "name"))
              (roles d) = true).
    { apply existsb_exists. exists r. split; [now apply list_elem_of_In|].
      unfold strict_eq. now apply bool_decide_eq_true. }
    congruence.
Qed.

Lemma delete_role_distinct (ident : string) : keeps distinct_ok (delete_role ident).
Proof.
  intros d (Hu & Hr & Hn).
  assert (Hkeep : distinct_ok d) by (repeat split; assumption).
  unfold delete_role.
  destruct (getEntity ident (roles d)) as [[i role]|]; [|exact Hkeep].
  destruct (truthy (role_isDefault role)); [exact Hkeep|].
  assert (Hroles : NoDup (role_ids (filter (fun item => role_id item <> role_id role) (roles d)))
                   /\ NoDup (role_names (filter (fun item => role_id item <> role_id role) (roles d))))
    by (split; now apply fmap_filter_NoDup).
  destruct (getDefaultRole (roles d)) as [[j def]|].
  - split; [|exact Hroles]. cbn [snd users]. unfold user_ids.
    rewrite <- list_fmap_compose.
    erewrite list_fmap_ext; [exact Hu|].
    intros k u _. cbn. now destruct (bool_decide _).
  - destruct (existsb _ (users d)); [exact Hkeep|].
    split; [exact Hu | exact Hroles].
Qed.

Lemma route_invariant_fresh (cfg : serverConfig) (Inv : Data -> Prop)
    (env : Env) (req : Request) (b : Body) (d : Data) :
  keeps Inv (get_users cfg (req_query req)) ->
  (forall ident, keeps Inv (patch_user env ident b)) ->
  (req_method req = POST -> on_collection "users" (req_path req) = true ->
   Inv (snd (post_user env b d))) ->
  (forall ident, keeps Inv (delete_user ident)) ->
  keeps Inv (get_roles cfg (req_query req)) ->
  (forall ident, keeps Inv (patch_role env ident b)) ->
  (req_method req = POST -> on_collection "roles" (req_path req) = true ->
   Inv (snd (post_role env b d))) ->
  (forall ident, keeps Inv (delete_role ident)) ->
  Inv d -> Inv (snd (route cfg env req b d)).
Proof.
  intros Hgu Hpu Hcu Hdu Hgr Hpr Hcr Hdr HI. unfold route.
  unfold on_collection in Hcu, Hcr.
  destruct (segments (req_path req)) as [|collection [|ident [|more path]]]
    eqn:Hpath; try exact HI.
  - destruct (segment_is "users" collection) eqn:Husers.
    + destruct (req_method req) eqn:Hmethod; try exact HI;
        [now apply Hgu|now apply Hcu|now apply Hgu].
    + destruct (segment_is "roles" collection) eqn:Hroles; [|exact HI].
      destruct (req_method req) eqn:Hmethod; try exact HI;
        [now apply Hgr|now apply Hcr|now apply Hgr].
  - destruct (String.eqb ident ""); [exact HI|].
    destruct (segment_is "users" collection).
    + destruct (req_method req); try exact HI;
        [now apply get_user_keeps|now apply Hpu|now apply Hdu
        |now apply get_user_keeps].
    + destruct (segment_is "roles" collection); [|exact HI].
      destruct (req_method req); try exact HI;
        [now apply get_role_keeps|now apply Hpr|now apply Hdr
        |now apply get_role_keeps].
Qed.

(** X12: from a seed with distinct user ids, role ids and role names, and
    with uuids that are fresh, every sequence of operations (bodies that
    are objects of primitive values, faults, resets) leaves the user ids,
    the role ids and the role names distinct. *)
Theorem identifiers_and_names_stay_distinct (cfg : serverConfig)
    (rawData : Data) (ops : list Operation) :
  NoDup (user_ids (users rawData)) ->
  NoDup (role_ids (roles rawData)) ->
  NoDup (role_names (roles rawData)) ->
  fresh_uuids cfg rawData ops (resetData rawData) ->
  fresh_user_uuids cfg rawData ops (resetData rawData) ->
  NoDup (user_ids (users (run cfg rawData ops)))
  /\ NoDup (role_ids (roles (run cfg rawData ops)))
  /\ NoDup (role_names (roles (run cfg rawData ops))).
Proof.
  intros Hu Hr Hn Hfresh Hfresh'.
  assert (Hseed : distinct_ok rawData) by (repeat split; assumption).
  unfold run. revert Hfresh Hfresh'.
  assert (Hstart : distinct_ok (resetData rawData)) by now rewrite resetData_id.
  revert Hstart. generalize (resetData rawData) as d.
  induction ops as [|op ops IH]; intros d Hd Hfresh Hfresh'; [exact Hd|].
  destruct Hfresh as [Hop Hrest]. destruct Hfresh' as [Hop' Hrest'].
  cbn [fold_left]. apply IH; [|exact Hrest|exact Hrest'].
  destruct op as [env req|]; cbn [perform].
  - apply api_invariant; [|exact Hd].
    intros b _. apply route_invariant_fresh; try exact Hd.
    + apply get_users_distinct.
    + intros ident. apply patch_user_distinct.
    + intros Hm Hp. apply post_user_distinct; [now apply Hop'|exact Hd].
    + intros ident. apply delete_user_distinct.
    + apply get_roles_distinct.
    + intros ident. apply patch_role_distinct.
    + intros Hm Hp. apply post_role_distinct; [now apply Hop|exact Hd].
    + intros ident. apply delete_role_distinct.
  - now rewrite resetData_id.
Qed.

Lemma identifiers_and_names_stay_distinct_witness :
  let cfg := Sample.config in
  let d := Sample.rawData in
  let http m path fields time ident :=
    Http (Sample.env time ident) (Sample.request m path None None fields) in
  let ops :=
    [ http POST ["roles"] [("name", VStr "Sales")] (Sample.stamp 20) "role-5";
      http POST ["roles"] [("name", VStr "Sales")] (Sample.stamp 21) "role-6";
      http PATCH ["roles"; "role-5"] [("name", VStr "Support")]
           (Sample.stamp 22) "";
      http PATCH ["roles"; "role-5"] [("name", VStr "Legal")]
           (Sample.stamp 23) "";
      http POST ["users"] [("first", VStr "Sue"); ("last", VStr "Tran");
                           ("roleId", VStr "role-5")] (Sample.stamp 24) "user-17";
      http DELETE ["users"; Sample.mark] [] (Sample.stamp 25) "";
      http GET ["roles"] [] (Sample.stamp 26) "" ] in
  NoDup (user_ids (users d))
  /\ NoDup (role_ids (roles d))
  /\ NoDup (role_names (roles d))
  /\ fresh_uuids cfg d ops (resetData d)
  /\ fresh_user_uuids cfg d ops (resetData d)
  /\ length (roles (run cfg d ops)) = 5%nat
  /\ length (users (run cfg d ops)) = 16%nat
  /\ NoDup (role_names (roles (run cfg d ops))).
Proof.
  intros cfg d http ops.
  assert (Hu : NoDup (user_ids (users d))) by by_computation.
  assert (Hr : NoDup (role_ids (roles d))) by by_computation.
  assert (Hn : NoDup (role_names (roles d))) by by_computation.
  assert (Hfresh : fresh_uuids cfg d ops (resetData d))
    by (unfold ops, http; fresh_by_computation).
  assert (Hfresh' : fresh_user_uuids cfg d ops (resetData d))
    by (unfold ops, http; fresh_users_by_computation).
  split; [exact Hu|]. split; [exact Hr|]. split; [exact Hn|].
  split; [exact Hfresh|]. split; [exact Hfresh'|].
  split; [vm_compute; reflexivity|]. split; [vm_compute; reflexivity|].
  exact (proj2 (proj2 (identifiers_and_names_stay_distinct cfg d ops
                         Hu Hr Hn Hfresh Hfresh'))).
Defined.

(** ** Making a role the default *)

Lemma unique_default (rs : list Role) (i j : nat) (r r' : Role) :
  count_defaults rs = 1%nat ->
  rs !! i = Some r -> is_default r ->
  rs !! j = Some r' -> is_default r' -> i = j.
Proof.
  intros Hcount Hi Hr Hj Hr'.
  destruct (decide (i = j)) as [|Hne]; [assumption|exfalso].
  pose proof (count_defaults_delete rs i r Hi) as Hdel.
  rewrite (indicator_default r Hr) in Hdel.
  assert (Hin : exists k, delete i rs !! k = Some r').
  { destruct (decide (j < i)%nat).
    - exists j. now rewrite list_lookup_delete_lt.
    - exists (j - 1)%nat. rewrite list_lookup_delete_ge by lia.
      now replace (S (j - 1)) with j by lia. }
  destruct Hin as [k Hk].
  pose proof (indicator_le_count _ _ _ Hk) as Hle.
  rewrite (indicator_default r' Hr') in Hle. lia.
Qed.

Lemma no_name_conflict (rs : list Role) (name : jsval) (ident : string) :
  (forall r, r ∈ rs -> role_name r = name -> role_id r = ident) ->
  existsb (fun r => strict_eq (role_name r) name
                    && negb (String.eqb (role_id r) ident)) rs = false.
Proof.
  intros Hunique. apply not_true_is_false. intros Hex.
  apply existsb_exists in Hex as (r & Hr & Heq).
  apply list_elem_of_In in Hr. apply andb_true_iff in Heq as [Hn Hi].
  unfold strict_eq in Hn. apply bool_decide_eq_true in Hn.
  apply negb_true_iff, String.eqb_neq in Hi. exact (Hi (Hunique r Hr Hn)).
Qed.

(** X11: PATCH /roles/:id with isDefault true on a role that is found
    (and a name that is free) is answered 200; afterwards that role is the
    default, every other role has isDefault false, and updatedAt is the
    current time if the role was not the default before. *)
Theorem patch_role_makes_default (env : Env) (ident : string) (b : Body)
    (d : Data) (i : nat) (role : Role) :
  roles_ok d ->
  getEntity ident (roles d) = Some (i, role) ->
  (forall r, r ∈ roles d -> role_name r = body_field b "name" ->
             role_id r = ident) ->
  body_field b "isDefault" = VBool true ->
  let d' := snd (patch_role env ident b d) in
  status (fst (patch_role env ident b d)) = 200%Z
  /\ exists role',
       getDefaultRole (roles d') = Some (i, role')
       /\ fst (patch_role env ident b d) = json (PRole role')
       /\ role_id role' = ident
       /\ role_isDefault role' = VBool true
       /\ (forall j r, roles d' !! j = Some r -> j <> i ->
                       role_isDefault r = VBool false)
       /\ (role_isDefault role <> VBool true ->
           role_updatedAt role' = now env).
Proof.
  intros Hok Hfind Hunique Hflag d'.
  pose proof (patch_role_roles_ok env ident b d Hok) as (_ & Hflags' & Hcount').
  fold d' in Hflags', Hcount'. unfold exactly_one_default in Hcount'.
  destruct Hok as (Hnodup & Hflags & Hcount).
  pose proof (getEntity_lookup _ _ _ _ Hfind) as [Hlook Hid].
  cbn [id Role_Entity] in Hid.
  assert (Hi : (i < length (roles d))%nat) by now apply lookup_lt_Some in Hlook.
  assert (Hshape : exists role',
            patch_role env ident b d = (json (PRole role'), d')
            /\ roles d' !! i = Some role'
            /\ role_id role' = ident
            /\ role_isDefault role' = VBool true
            /\ (role_isDefault role <> VBool true ->
                role_updatedAt role' = now env)).
  { unfold d', patch_role. rewrite Hfind, Hid, (no_name_conflict _ _ _ Hunique).
    pose proof (updateField_name_isDefault role (body_field b "name")) as H1.
    pose proof (updateField_role_id role "name" (body_field b "name")) as H1'.
    destruct (updateField role "name" _) as [role1 c1].
    pose proof (updateField_description_isDefault role1
                  (body_field b "description")) as H2.
    pose proof (updateField_role_id role1 "description"
                  (body_field b "description")) as H2'.
    destruct (updateField role1 "description" _) as [role2 c2].
    cbn [fst] in H1, H1', H2, H2'. rewrite Hflag.
    assert (Hflag2 : role_isDefault role2 = role_isDefault role) by congruence.
    assert (Hid2 : role_id role2 = ident) by congruence.
    unfold strict_eq.
    destruct (decide (VBool true = role_isDefault role2)) as [Htrue|Hfalse].
    - rewrite bool_decide_eq_true_2 by exact Htrue. cbn [negb].
      destruct (c2 || (c1 || false)); cbn [snd roles set_roles].
      + rewrite list_lookup_alter_eq, list_lookup_insert_eq by exact Hi.
        cbn. eexists. split; [reflexivity|].
        repeat split; cbn; congruence.
      + rewrite list_lookup_insert_eq by exact Hi.
        cbn. eexists. split; [reflexivity|].
        repeat split; cbn; congruence.
    - rewrite bool_decide_eq_false_2 by exact Hfalse. cbn [negb].
      rewrite bool_decide_eq_false_2 by discriminate.
      rewrite bool_decide_eq_true_2 by reflexivity.
      assert (Hok1 : defaults_ok (<[i := role2]> (roles d))).
      { eapply defaults_ok_insert_same; [exact Hlook | exact Hflag2 | split; assumption]. }
      destruct Hok1 as [Hf1 Hc1].
      destruct (clearDefaultRole_ok _ Hf1 Hc1) as (rs' & Hclear & _).
      rewrite Hclear. cbn [snd roles set_roles].
      assert (Hlen : length rs' = length (roles d)).
      { apply clearDefaultRole_ids in Hclear. unfold role_ids in Hclear.
        apply (f_equal length) in Hclear.
        now rewrite !length_fmap, length_insert in Hclear. }
      destruct (lookup_lt_is_Some_2 rs' i) as [r Hr]; [lia|].
      assert (Hrid : role_id r = ident).
      { apply clearDefaultRole_ids in Hclear. unfold role_ids in Hclear.
        apply (f_equal (fun l => l !! i)) in Hclear.
        rewrite !list_lookup_fmap, Hr, list_lookup_insert_eq in Hclear by exact Hi.
        cbn in Hclear. congruence. }
      rewrite !list_lookup_alter_eq, Hr. cbn.
      eexists. split; [reflexivity|]. repeat split; cbn; congruence. }
  destruct Hshape as (role' & Hanswer & Hlook' & Hid' & Hdef' & Hstamp).
  split; [now rewrite Hanswer|].
  exists role'.
  destruct (getDefaultRole_flag (roles d') Hflags') as (j & def & Hfound & Hdef);
    [lia|].
  pose proof Hfound as Hfound'. unfold getDefaultRole in Hfound'.
  apply list_find_Some in Hfound' as (Hj & _ & _).
  assert (j = i) as -> by (symmetry; eapply unique_default; eassumption).
  assert (def = role') as -> by congruence.
  split; [exact Hfound|]. split; [now rewrite Hanswer|].
  split; [exact Hid'|]. split; [exact Hdef'|]. split; [|exact Hstamp].
  intros k r Hk Hki.
  destruct (proj1 (Forall_lookup _ _) Hflags' k r Hk) as [[|] Hflagk];
    [|exact Hflagk].
  exfalso. apply Hki. symmetry. eapply unique_default; eassumption.
Qed.

Lemma patch_role_makes_default_witness :
  let d := Sample.rawData in
  let env := Sample.env (Sample.stamp 22) "" in
  let b := Sample.body [("isDefault", VBool true)] in
  roles_ok d
  /\ (role_id <$> (snd <$> getDefaultRole (roles d))) = Some Sample.support
  /\ exists role',
       getDefaultRole (roles (snd (patch_role env Sample.engineering b d)))
       = Some (0%nat, role')
       /\ role_id role' = Sample.engineering
       /\ role_updatedAt role' = Sample.stamp 22.
Proof.
  intros d env b.
  assert (Hfind : exists role,
            getEntity Sample.engineering (roles d) = Some (0%nat, role)
            /\ role_isDefault role = VBool false)
    by (eexists; repeat split; vm_compute; reflexivity).
  destruct Hfind as (role & Hfind & Hflag).
  assert (Hunique : forall r, r ∈ roles d ->
            role_name r = body_field b "name" -> role_id r = Sample.engineering)
    by (apply (proj1 (Forall_forall
                 (fun r => role_name r = body_field b "name"
                           -> role_id r = Sample.engineering) (roles d)));
        by_computation).
  split; [exact sample_roles_ok|]. split; [vm_compute; reflexivity|].
  destruct (patch_role_makes_default env Sample.engineering b d 0 role
              sample_roles_ok Hfind Hunique eq_refl)
    as (_ & role' & Hdef & _ & Hid & _ & _ & Hstamp).
  exists role'. split; [exact Hdef|]. split; [exact Hid|].
  apply Hstamp. rewrite Hflag. discriminate.
Defined.

(** ** What a PATCH of a user writes *)

(** X14: what PATCH /users/:id writes when it is answered 200: a falsy
    first or last leaves the field as it is (a name cannot be cleared), a
    non-falsy one replaces it; id, createdAt and photo are kept; updatedAt
    is the current time exactly when a name changed or a roleId was
    given; no other user and no role is touched. *)
Theorem patch_user_applies (env : Env) (ident : string) (b : Body) (d : Data)
    (i : nat) (user : User) (roleId : string) :
  getEntity ident (users d) = Some (i, user) ->
  (truthy (body_field b "roleId") = true ->
   body_field b "roleId" = VStr roleId /\ roleId ∈ role_ids (roles d)) ->
  let first := body_field b "first" in
  let last := body_field b "last" in
  let user' :=
    mkUser (user_id user) (user_createdAt user)
           (if changes first (user_first user) || changes last (user_last user)
               || truthy (body_field b "roleId")
            then now env else user_updatedAt user)
           (if truthy first then first else user_first user)
           (if truthy last then last else user_last user)
           (if truthy (body_field b "roleId") then roleId else user_roleId user)
           (user_photo user) in
  patch_user env ident b d
  = (json (PUser user'), mkData (<[i := user']> (users d)) (roles d)).
Proof.
  intros Hfind Hrole first last user'.
  unfold patch_user. rewrite Hfind, updateField_first.
  fold first last.
  assert (Hf : forall v old, (if truthy v then v else old)
                 = (if changes v old then v else old)).
  { intros v old. unfold changes, strict_eq. destruct (truthy v); [|reflexivity].
    cbn [andb]. case_bool_decide; cbn [negb]; congruence. }
  destruct user as [uid created updated ufirst ulast urole photo].
  cbn [user_id user_createdAt user_updatedAt user_first user_last user_roleId user_photo] in *.
  unfold user'. rewrite (Hf first ufirst), (Hf last ulast).
  destruct (changes first ufirst);
    rewrite updateField_last; cbn [set_user_first user_last];
    destruct (changes last ulast); cbn [set_user_last orb];
    destruct (truthy (body_field b "roleId")) eqn:Htruthy;
    try (destruct (Hrole eq_refl) as [Hbody Hin]; rewrite Hbody;
         destruct (find_role_by_id _ _ Hin) as (j & role & -> & ->));
    reflexivity.
Qed.

Lemma patch_user_applies_witness :
  let d := Sample.rawData in
  let env := Sample.env (Sample.stamp 22) "" in
  let b := Sample.body [("first", VStr ""); ("last", VStr "Tipton-Smith")] in
  getEntity Sample.mark (users d) = Some (0%nat, Sample.sample_user 16)
  /\ exists user',
       patch_user env Sample.mark b d
       = (json (PUser user'), mkData (<[0%nat := user']> (users d)) (roles d))
       /\ user_first user' = VStr "Mark"
       /\ user_last user' = VStr "Tipton-Smith"
       /\ user_updatedAt user' = Sample.stamp 22.
Proof.
  intros d env b.
  assert (Hfind : getEntity Sample.mark (users d)
                  = Some (0%nat, Sample.sample_user 16))
    by (vm_compute; reflexivity).
  split; [exact Hfind|].
  eexists. split.
  - apply (patch_user_applies env Sample.mark b d 0 _ "" Hfind).
    intros Htruthy. vm_compute in Htruthy. discriminate Htruthy.
  - repeat split; vm_compute; reflexivity.
Defined.

(** ** Listings do not depend on earlier listings *)

Lemma sort_insert_front {T} `{Entity T} (x : T) (l : list T) :
  Forall (newer_or_equal x) l -> sort_insert sortBy x l = x :: l.
Proof.
  intros Hall. destruct l as [|y l]; [reflexivity|].
  apply Forall_cons in Hall as [Hxy _]. cbn [sort_insert].
  unfold newer_or_equal in Hxy. unfold sortBy.
  destruct (String.compare (createdAt y) (createdAt x)); congruence.
Qed.

Lemma filter_search_subset {T} `{Entity T} (l found : list T)
    (fields : list string) (term : string) :
  filter_search l fields term = Some found -> found ⊆ l.
Proof.
  revert found. induction l as [|x l IH]; intros found; cbn [filter_search].
  - now intros [= <-].
  - destruct (search_item x fields term) as [keep|]; [|discriminate].
    destruct (filter_search l fields term) as [rest|]; [|discriminate].
    specialize (IH rest eq_refl). intros [= <-] z Hz.
    destruct keep; [apply elem_of_cons in Hz as [->|Hz]|].
    + apply list_elem_of_here.
    + apply list_elem_of_further, IH, Hz.
    + apply list_elem_of_further, IH, Hz.
Qed.

Lemma filter_search_insert {T} `{Entity T} (x : T) (l : list T)
    (fields : list string) (term : string) :
  newest_first l ->
  filter_search (sort_insert sortBy x l) fields term =
  match search_item x fields term, filter_search l fields term with
  | Some keep, Some rest =>
      Some (if keep then sort_insert sortBy x rest else rest)
  | _, _ => None
  end.
Proof.
  induction l as [|y l IH]; intros Hsorted.
  - cbn. destruct (search_item x fields term) as [[|]|]; reflexivity.
  - apply newest_first_cons in Hsorted as [Hy Hl].
    cbn [sort_insert]. destruct (sortBy x y) eqn:Hxy.
    1,2: assert (Hx : Forall (newer_or_equal x) (y :: l))
        by (constructor;
            [unfold newer_or_equal, sortBy in *; congruence|];
            eapply Forall_impl; [exact Hy|]; intros z Hz;
            eapply newer_or_equal_trans; [|exact Hz];
            unfold newer_or_equal, sortBy in *; congruence);
      change (filter_search (x :: y :: l) fields term)
        with (match search_item x fields term with
              | None => None
              | Some keep =>
                  match filter_search (y :: l) fields term with
                  | None => None
                  | Some rest => Some (if keep then x :: rest else rest)
                  end
              end);
      destruct (search_item x fields term) as [keep|]; [|reflexivity];
      destruct (filter_search (y :: l) fields term) as [rest|] eqn:Hrest;
        [|reflexivity];
      destruct keep; [|reflexivity];
      rewrite sort_insert_front; [reflexivity|];
      apply Forall_forall; intros z Hz;
      apply (proj1 (Forall_forall _ _) Hx);
      exact (filter_search_subset _ _ _ _ Hrest z Hz).
    cbn [filter_search]. rewrite (IH Hl).
    destruct (search_item y fields term) as [ky|];
      destruct (search_item x fields term) as [kx|];
      destruct (filter_search l fields term) as [rest|]; try reflexivity.
    destruct ky, kx; try reflexivity.
    cbn [sort_insert]. now rewrite Hxy.
Qed.

Lemma filter_search_sort {T} `{Entity T} (l : list T) (fields : list string)
    (term : string) :
  filter_search (sort sortBy l) fields term
  = sort sortBy <$> filter_search l fields term.
Proof.
  induction l as [|x l IH]; [reflexivity|].
  cbn [sort filter_search].
  rewrite filter_search_insert by apply sort_newest_first. rewrite IH.
  destruct (search_item x fields term) as [keep|]; [|reflexivity].
  destruct (filter_search l fields term) as [rest|]; [|reflexivity].
  cbn. now destruct keep.
Qed.

Lemma getPagedData_sorted_input {T} `{Entity T} (size : Z) (q : Query)
    (l : list T) (fields : list string) :
  fst <$> getPagedData size q (sort sortBy l) fields
  = fst <$> getPagedData size q l fields.
Proof.
  unfold getPagedData.
  assert (Hidem : forall k : list T, sort sortBy (sort sortBy k) = sort sortBy k)
    by (intros k; apply sort_sorted, sort_newest_first).
  destruct (query_search q) as [[term|]|]; cbn [given]; [|reflexivity|].
  - destruct (String.eqb term ""); cbn [negb].
    + cbn. now rewrite Hidem, sort_length.
    + unfold fullTextSearch. rewrite filter_search_sort.
      destruct (filter_search l fields (toLowerCase term)) as [found|];
        [|reflexivity].
      cbn. now rewrite Hidem.
  - cbn. now rewrite Hidem, sort_length.
Qed.

(** X15: the answer of a listing does not depend on the listings before
    it: although a listing may reorder the store, a later one, of users
    or roles, with any query, answers what it would have on the store as
    it was. *)
Theorem listing_ignores_earlier_listings (cfg : serverConfig) (q0 q : Query)
    (d : Data) :
  fst (get_users cfg q (snd (get_users cfg q0 d))) = fst (get_users cfg q d)
  /\ fst (get_users cfg q (snd (get_roles cfg q0 d))) = fst (get_users cfg q d)
  /\ fst (get_roles cfg q (snd (get_roles cfg q0 d))) = fst (get_roles cfg q d)
  /\ fst (get_roles cfg q (snd (get_users cfg q0 d))) = fst (get_roles cfg q d).
Proof.
  assert (Husers : forall us,
    (us = users d \/ us = sort sortBy (users d)) ->
    fst (get_users cfg q (mkData us (roles d))) = fst (get_users cfg q d)).
  { intros us Hus. unfold get_users. cbn [users].
    assert (Heq : fst <$> getPagedData (pageSize cfg) q us searchFields.users
                  = fst <$> getPagedData (pageSize cfg) q (users d) searchFields.users)
      by (destruct Hus as [-> | ->]; [reflexivity|apply getPagedData_sorted_input]).
    destruct (getPagedData _ q us _) as [[p1 l1]|];
      destruct (getPagedData _ q (users d) _) as [[p2 l2]|];
      cbn in Heq; try discriminate; [|reflexivity].
    injection Heq as ->. reflexivity. }
  assert (Hroles : forall rs,
    (rs = roles d \/ rs = sort sortBy (roles d)) ->
    fst (get_roles cfg q (mkData (users d) rs)) = fst (get_roles cfg q d)).
  { intros rs Hrs. unfold get_roles. cbn [roles].
    assert (Heq : fst <$> getPagedData (pageSize cfg) q rs searchFields.roles
                  = fst <$> getPagedData (pageSize cfg) q (roles d) searchFields.roles)
      by (destruct Hrs as [-> | ->]; [reflexivity|apply getPagedData_sorted_input]).
    destruct (getPagedData _ q rs _) as [[p1 l1]|];
      destruct (getPagedData _ q (roles d) _) as [[p2 l2]|];
      cbn in Heq; try discriminate; [|reflexivity].
    injection Heq as ->. reflexivity. }
  assert (Hu : exists us, snd (get_users cfg q0 d) = mkData us (roles d)
                          /\ (us = users d \/ us = sort sortBy (users d))).
  { unfold get_users.
    destruct (getPagedData _ q0 (users d) _) as [[page us]|] eqn:Hpage.
    - exists us. split; [reflexivity|].
      rewrite (getPagedData_array _ _ _ _ _ _ Hpage).
      destruct (given (query_search q0)); auto.
    - exists (users d). split; [now destruct d | now left]. }
  assert (Hr : exists rs, snd (get_roles cfg q0 d) = mkData (users d) rs
                          /\ (rs = roles d \/ rs = sort sortBy (roles d))).
  { unfold get_roles.
    destruct (getPagedData _ q0 (roles d) _) as [[page rs]|] eqn:Hpage.
    - exists rs. split; [reflexivity|].
      rewrite (getPagedData_array _ _ _ _ _ _ Hpage).
      destruct (given (query_search q0)); auto.
    - exists (roles d). split; [now destruct d | now left]. }
  destruct Hu as (us & -> & Hus). destruct Hr as (rs & -> & Hrs).
  split; [now apply Husers|]. split; [|split; [now apply Hroles|]].
  - unfold get_users. cbn [users].
    now destruct (getPagedData _ q (users d) _) as [[p l]|].
  - unfold get_roles. cbn [roles].
    now destruct (getPagedData _ q (roles d) _) as [[p l]|].
Qed.

Lemma no_defaults_all_false (rs : list Role) :
  boolean_flags rs -> count_defaults rs = 0%nat ->
  Forall (fun r => role_isDefault r = VBool false) rs.
Proof.
  intros Hflags Hzero. apply Forall_lookup. intros k r Hk.
  destruct (proj1 (Forall_lookup _ _) Hflags k r Hk) as [[|] Hflag];
    [|exact Hflag].
  pose proof (indicator_le_count _ _ _ Hk) as Hle.
  rewrite (indicator_default r Hflag) in Hle. lia.
Qed.

(** X7: POST /roles with isDefault true on a store with one default: the
    new role is stored as the default, every role there was has isDefault
    false afterwards, their ids are as before, and getDefaultRole and
    GET /roles/:id return the new role. *)
Theorem post_role_becomes_default (env : Env) (b : Body) (d : Data) :
  roles_ok d ->
  truthy (body_field b "name") = true ->
  (forall role, role ∈ roles d -> role_name role <> body_field b "name") ->
  body_field b "isDefault" = VBool true ->
  uuid env ∉ role_ids (roles d) ->
  let role :=
    mkRole (uuid env) (now env) (now env) (body_field b "name")
           (match body_field b "description" with
            | VUndefined => VStr ""
            | v => v
            end)
           (VBool true) in
  exists rs',
    post_role env b d = (json (PRole role), mkData (users d) (rs' ++ [role]))
    /\ length rs' = length (roles d)
    /\ role_ids rs' = role_ids (roles d)
    /\ Forall (fun r => role_isDefault r = VBool false) rs'
    /\ getDefaultRole (rs' ++ [role]) = Some (length (roles d), role)
    /\ get_role (uuid env) (mkData (users d) (rs' ++ [role]))
       = (json (PRole role), mkData (users d) (rs' ++ [role])).
Proof.
  intros (Hnodup & Hflags & Hcount) Hname Hunique Hflag Hfresh role.
  destruct (clearDefaultRole_ok _ Hflags Hcount) as (rs' & Hclear & Hflags' & Hzero).
  pose proof (clearDefaultRole_ids _ _ Hclear) as Hids.
  pose proof (no_defaults_all_false _ Hflags' Hzero) as Hfalse.
  assert (Hlen : length rs' = length (roles d)).
  { unfold role_ids in Hids. apply (f_equal length) in Hids.
    now rewrite !length_fmap in Hids. }
  exists rs'. split; [|split; [exact Hlen|split; [exact Hids|split; [exact Hfalse|split]]]].
  - unfold post_role. rewrite Hname, Hflag. cbn [negb].
    assert (Hnone : existsb (fun r => strict_eq (role_name r) (body_field b "name"))
                            (roles d) = false).
    { apply not_true_is_false. intros Hex.
      apply existsb_exists in Hex as (r & Hr & Heq).
      apply list_elem_of_In in Hr. unfold strict_eq in Heq.
      apply bool_decide_eq_true in Heq. exact (Hunique r Hr Heq). }
    rewrite Hnone. unfold strict_eq.
    rewrite bool_decide_eq_true_2 by reflexivity. now rewrite Hclear.
  - unfold getDefaultRole. rewrite list_find_app_r.
    + cbn. rewrite decide_True by reflexivity. cbn. now rewrite Hlen.
    + apply list_find_None. eapply Forall_impl; [exact Hfalse|].
      intros r Hr. rewrite Hr. discriminate.
  - unfold get_role. cbn [roles].
    rewrite (getEntity_app_fresh (uuid env) rs' role);
      [reflexivity| |reflexivity].
    change (uuid env ∉ role_ids rs'). now rewrite Hids.
Qed.

Lemma post_role_becomes_default_witness :
  let d := Sample.rawData in
  let env := mkEnv (Sample.stamp 20) "role-5" 0 0 0 in
  let b := Sample.body [("name", VStr "Sales"); ("isDefault", VBool true)] in
  roles_ok d
  /\ (forall role, role ∈ roles d -> role_name role <> body_field b "name")
  /\ (uuid env ∉ role_ids (roles d))
  /\ (role_id <$> (snd <$> getDefaultRole (roles d))) = Some Sample.support
  /\ (role_id <$> (snd <$> getDefaultRole (roles (snd (post_role env b d)))))
     = Some "role-5"
  /\ exists rs' role,
       post_role env b d = (json (PRole role), mkData (users d) (rs' ++ [role]))
       /\ Forall (fun r => role_isDefault r = VBool false) rs'.
Proof.
  intros d env b.
  assert (Hunique : forall role, role ∈ roles d ->
                      role_name role <> body_field b "name")
    by (apply Forall_forall; by_computation).
  assert (Hfresh : uuid env ∉ role_ids (roles d)) by by_computation.
  split; [exact sample_roles_ok|]. split; [exact Hunique|].
  split; [exact Hfresh|]. split; [vm_compute; reflexivity|].
  split; [vm_compute; reflexivity|].
  destruct (post_role_becomes_default env b d sample_roles_ok eq_refl Hunique
              eq_refl Hfresh) as (rs' & Hpost & _ & _ & Hfalse & _).
  exists rs'. eexists. split; [exact Hpost|exact Hfalse].
Defined.
